(** * Infoscience thesis records to Alma: a shallow embedding of
      [create_records.py] and the properties of its pipeline.

    A Python [str] is represented by the bytes of its UTF-8 encoding (a
    Rocq [string]), and the operations on it that look at code points
    ([strip], [lower], [upper]) read those bytes as UTF-8; Python's
    [Optional[str]] is [option string]; integers are [Z].  Everything that
    comes from outside (Infoscience export, swisscovery SRU, Alma, the
    file system) is read from a [World] of replies, so that every function
    below computes. *)

From Stdlib Require Import ZArith String Ascii List Bool Lia.
From stdpp Require Import gmap strings list.

Import ListNotations.
Open Scope string_scope.

#[local] Set Warnings "-clear-no-such-hyp".

(* ===================================================================== *)
(** ** Python string operations used by the script *)
(* ===================================================================== *)

Module PyStr.

(** A text given by the values of its bytes. *)
Definition bytes (l : list nat) : string :=
  string_of_list_ascii (map ascii_of_nat l).

Fixpoint lstrip_with (p : ascii -> bool) (s : string) : string :=
  match s with
  | EmptyString => EmptyString
  | String c s' => if p c then lstrip_with p s' else s
  end.

Fixpoint rstrip_with (p : ascii -> bool) (s : string) : string :=
  match s with
  | EmptyString => EmptyString
  | String c s' =>
      match rstrip_with p s' with
      | EmptyString => if p c then EmptyString else String c EmptyString
      | r => String c r
      end
  end.

(** [s.strip(chars)] for ASCII [chars], given as a predicate on bytes. *)
Definition strip_with (p : ascii -> bool) (s : string) : string :=
  rstrip_with p (lstrip_with p s).

(** The code points [str.isspace] accepts, each by its UTF-8 bytes:
    U+0009..U+000D, U+001C..U+0020, U+0085, U+00A0, U+1680,
    U+2000..U+200A, U+2028, U+2029, U+202F, U+205F and U+3000. *)
Definition whitespace : list string :=
  map bytes
    [[9]; [10]; [11]; [12]; [13]; [28]; [29]; [30]; [31]; [32];
     [194; 133]; [194; 160]; [225; 154; 128];
     [226; 128; 128]; [226; 128; 129]; [226; 128; 130]; [226; 128; 131];
     [226; 128; 132]; [226; 128; 133]; [226; 128; 134]; [226; 128; 135];
     [226; 128; 136]; [226; 128; 137]; [226; 128; 138];
     [226; 128; 168]; [226; 128; 169]; [226; 128; 175];
     [226; 129; 159]; [227; 128; 128]].

Definition is_whitespace (t : string) : bool :=
  existsb (String.eqb t) whitespace.

(** The white-space code point a text starts with, if it starts with one. *)
Definition leading_whitespace (s : string) : option string :=
  List.find (fun ws => String.prefix ws s) whitespace.

(** [s.lstrip()]; [skip] counts the bytes of a white-space code point
    still to be dropped. *)
Fixpoint lstrip_go (skip : nat) (s : string) : string :=
  match s with
  | EmptyString => EmptyString
  | String c s' =>
      match skip with
      | S k => lstrip_go k s'
      | O =>
          match leading_whitespace s with
          | Some ws => lstrip_go (String.length ws - 1) s'
          | None => s
          end
      end
  end.

Definition lstrip (s : string) : string := lstrip_go 0 s.

(** [s.rstrip()]: what is left of the text is dropped as long as it is
    one white-space code point. *)
Fixpoint rstrip (s : string) : string :=
  match s with
  | EmptyString => EmptyString
  | String c s' =>
      let t := String c (rstrip s') in
      if is_whitespace t then EmptyString else t
  end.

(** [s.strip()] *)
Definition strip (s : string) : string := rstrip (lstrip s).

Definition lower_ascii (c : ascii) : ascii :=
  let n := nat_of_ascii c in
  if ((65 <=? n) && (n <=? 90))%nat then ascii_of_nat (n + 32) else c.

Definition upper_ascii (c : ascii) : ascii :=
  let n := nat_of_ascii c in
  if ((97 <=? n) && (n <=? 122))%nat then ascii_of_nat (n - 32) else c.

(** The code points outside ASCII whose lower case holds an ASCII letter:
    U+0130 (i and U+0307) and U+212A, the Kelvin sign (k). *)
Definition lower_special : list (string * string) :=
  [(bytes [196; 176], "i" ++ bytes [204; 135]);
   (bytes [226; 132; 170], "k")].

(** The code points outside ASCII whose upper case holds an ASCII letter:
    U+00DF (SS), U+0131 (I), U+0149 (U+02BC and N), U+017F (S),
    U+01F0 (J and U+030C), U+1E96..U+1E9A (H, T, W, Y, A and a mark)
    and the ligatures U+FB00..U+FB06 (FF, FI, FL, FFI, FFL, ST, ST). *)
Definition upper_special : list (string * string) :=
  [(bytes [195; 159], "SS");
   (bytes [196; 177], "I");
   (bytes [197; 137], bytes [202; 188] ++ "N");
   (bytes [197; 191], "S");
   (bytes [199; 176], "J" ++ bytes [204; 140]);
   (bytes [225; 186; 150], "H" ++ bytes [204; 177]);
   (bytes [225; 186; 151], "T" ++ bytes [204; 136]);
   (bytes [225; 186; 152], "W" ++ bytes [204; 138]);
   (bytes [225; 186; 153], "Y" ++ bytes [204; 138]);
   (bytes [225; 186; 154], "A" ++ bytes [202; 190]);
   (bytes [239; 172; 128], "FF");
   (bytes [239; 172; 129], "FI");
   (bytes [239; 172; 130], "FL");
   (bytes [239; 172; 131], "FFI");
   (bytes [239; 172; 132], "FFL");
   (bytes [239; 172; 133], "ST");
   (bytes [239; 172; 134], "ST")].

(** A case mapping: the code points of [special] are replaced by their
    images, every other byte goes through [f].  [skip] counts the bytes
    of a replaced code point still to be dropped. *)
Fixpoint map_case (f : ascii -> ascii) (special : list (string * string))
    (skip : nat) (s : string) : string :=
  match s with
  | EmptyString => EmptyString
  | String c s' =>
      match skip with
      | S k => map_case f special k s'
      | O =>
          match List.find (fun kv => String.prefix (fst kv) s) special with
          | Some kv =>
              snd kv ++ map_case f special (String.length (fst kv) - 1) s'
          | None => String (f c) (map_case f special 0 s')
          end
      end
  end.

(** [s.lower()] and [s.upper()].  The letters A-Z / a-z change case, and
    so do the code points outside ASCII whose image holds an ASCII
    letter.  Any other code point is kept as it is: Python maps it to
    code points outside ASCII again, and the script only compares the
    mapped text with ASCII words ("pages", "theses", "EPFL", the boolean
    words of a configuration file). *)
Definition lower (s : string) : string := map_case lower_ascii lower_special 0 s.
Definition upper (s : string) : string := map_case upper_ascii upper_special 0 s.

(** [sub in s] *)
Fixpoint contains (sub s : string) : bool :=
  String.prefix sub s
  || match s with
     | EmptyString => false
     | String _ s' => contains sub s'
     end.

(** [s.split(sep)] for a one-character separator: never an empty list. *)
Fixpoint split (sep : ascii) (s : string) : list string :=
  match s with
  | EmptyString => [EmptyString]
  | String c s' =>
      if Ascii.eqb c sep then EmptyString :: split sep s'
      else match split sep s' with
           | [] => [String c EmptyString]
           | p :: ps => String c p :: ps
           end
  end.

(** [sep.join(l)] *)
Definition join (sep : string) (l : list string) : string :=
  String.concat sep l.

(** [s.replace(old, new)] for a non-empty [old]: leftmost occurrences,
    not overlapping.  [skip] counts the characters of a matched [old]
    still to be dropped. *)
Fixpoint replace_go (old new : string) (skip : nat) (s : string) : string :=
  match s with
  | EmptyString => EmptyString
  | String c s' =>
      match skip with
      | S k => replace_go old new k s'
      | O =>
          if String.prefix old s
          then new ++ replace_go old new (String.length old - 1) s'
          else String c (replace_go old new 0 s')
      end
  end.

Definition replace (old new s : string) : string := replace_go old new 0 s.

(** Truth value of an [Optional[str]]: [None] and [""] are false. *)
Definition truthy (o : option string) : bool :=
  match o with
  | Some (String _ _) => true
  | _ => false
  end.

(** [a or ""] *)
Definition or_empty (o : option string) : string :=
  match o with
  | Some s => s
  | None => EmptyString
  end.

(** Decimal rendering of an integer, [str(n)] / ["%d"]. *)
Fixpoint digits (fuel : nat) (n : N) (acc : string) : string :=
  match fuel with
  | O => acc
  | S fuel' =>
      let d := String (ascii_of_N (48 + N.modulo n 10)) acc in
      if (n <? 10)%N then d else digits fuel' (N.div n 10) d
  end.

Definition str_of_Z (z : Z) : string :=
  let n := Z.abs_N z in
  let body := digits (S (N.to_nat (N.log2 n))) n EmptyString in
  if (z <? 0)%Z then String "-" body else body.

End PyStr.

Import PyStr.

(* ===================================================================== *)
(** ** Exceptions *)
(* ===================================================================== *)

Inductive exn : Type :=
| KeyError
| RequestException (msg : string)
| XMLSyntaxError (msg : string)
| AlmaError (msg : string)
| AttributeError
| OSError (msg : string).

(** A Python computation: a value, or a raised exception. *)
Inductive py (A : Type) : Type :=
| Ok (a : A)
| Raise (e : exn).

Arguments Ok {A} a.
Arguments Raise {A} e.

Definition py_bind {A B : Type} (m : py A) (k : A -> py B) : py B :=
  match m with
  | Ok a => k a
  | Raise e => Raise e
  end.

Notation "'do' x <- m ; k" := (py_bind m (fun x => k))
  (at level 10, x name, m at level 100, k at level 200).

Definition raises {A : Type} (m : py A) : bool :=
  match m with
  | Ok _ => false
  | Raise _ => true
  end.

(* ===================================================================== *)
(** ** MARC records (pymarc) *)
(* ===================================================================== *)

Record Subfield : Type := mkSubfield { code : string; value : string }.

(** A field is a control field (tags below 010: only [data]) or a data
    field (two indicators and repeatable coded subfields). *)
Inductive Field : Type :=
| ControlField (tag : string) (data : string)
| DataField (tag : string) (ind1 ind2 : string) (subfields : list Subfield).

Record MarcRecord : Type := mkRecord { leader : string; fields : list Field }.

Definition field_tag (f : Field) : string :=
  match f with
  | ControlField t _ => t
  | DataField t _ _ _ => t
  end.

(** [f.data] *)
Definition field_data (f : Field) : option string :=
  match f with
  | ControlField _ d => Some d
  | DataField _ _ _ _ => None
  end.

Definition field_subfields (f : Field) : list Subfield :=
  match f with
  | ControlField _ _ => []
  | DataField _ _ _ sfs => sfs
  end.

(** [f.indicators[1]] *)
Definition field_ind2 (f : Field) : string :=
  match f with
  | ControlField _ _ => " "
  | DataField _ _ i2 _ => i2
  end.

(** [r.get_fields(tag)]: every field with that tag, in record order. *)
Definition get_fields (r : MarcRecord) (t : string) : list Field :=
  List.filter (fun f => String.eqb (field_tag f) t) (fields r).

(** [f.get_subfields(code)]: every value under that code, in field order. *)
Definition get_subfields (f : Field) (c : string) : list string :=
  map value (List.filter (fun s => String.eqb (code s) c) (field_subfields f)).

(** [code in f] *)
Definition field_contains (f : Field) (c : string) : bool :=
  existsb (fun s => String.eqb (code s) c) (field_subfields f).

(** [f.get(code)]: the first value under that code, or [None]. *)
Definition field_get (f : Field) (c : string) : option string :=
  head (get_subfields f c).

(** [f[code]]: the first value under that code; [KeyError] when absent
    (the script only subscripts a field after testing [code in f]). *)
Definition field_getitem (f : Field) (c : string) : py string :=
  match field_get f c with
  | Some v => Ok v
  | None => Raise KeyError
  end.

(** [r.get(tag)]: the first field with that tag, or [None]. *)
Definition record_get (r : MarcRecord) (t : string) : option Field :=
  head (get_fields r t).

(** What [r[tag]] does for a tag the record does not have.  pymarc
    raises [KeyError] from 5.0 on, the releases the script runs with (it
    imports [Subfield] from them); up to the 4.x releases it answered
    [None], which is what the script tests the result against.  The mode
    of the script is [RaisesKeyError]; the other one is kept to tell what
    the test against [None] would do. *)
Inductive LookupMode : Type := ReturnsNone | RaisesKeyError.

(** [r[tag]] *)
Definition record_getitem (lm : LookupMode) (r : MarcRecord) (t : string)
  : py (option Field) :=
  match record_get r t, lm with
  | Some f, _ => Ok (Some f)
  | None, ReturnsNone => Ok None
  | None, RaisesKeyError => Raise KeyError
  end.

(** [tag in r] *)
Definition has_field (r : MarcRecord) (t : string) : bool :=
  existsb (fun f => String.eqb (field_tag f) t) (fields r).

(* ===================================================================== *)
(** ** MARC PROCESSING helpers *)
(* ===================================================================== *)

Definition fget (r : MarcRecord) (t c : string) : option string :=
  match record_get r t with
  | Some f => if field_contains f c then field_get f c else None
  | None => None
  end.

Definition fget_all (r : MarcRecord) (t c : string) : list string :=
  concat (map (fun f => get_subfields f c) (get_fields r t)).

Definition first (it : list (option string)) : option string :=
  match it with
  | x :: _ => x
  | [] => None
  end.

Definition expand_epfl (v : option string) : option string :=
  if negb (truthy v) then v
  else match v with
       | Some s =>
           if String.eqb (upper (strip s)) "EPFL"
           then Some "Ecole Polytechnique Fédérale de Lausanne"
           else v
       | None => v
       end.

Definition invert_name_comma (name : option string) : option string :=
  if negb (truthy name) then name
  else match name with
       | Some n =>
           let parts := map strip (split "," n) in
           if (2 <=? length parts)%nat then
             let last := List.hd EmptyString parts in
             let firsts := strip (join " " (List.tl parts)) in
             Some (strip (firsts ++ " " ++ last))
           else name
       | None => name
       end.

Definition ensure_pages_suffix (val : option string) : option string :=
  if negb (truthy val) then val
  else match val with
       | Some v =>
           if contains "pages" (lower v) then val
           else Some (strip v ++ " pages")
       | None => val
       end.

(* ===================================================================== *)
(** ** [build_final_record]: the field mapper *)
(* ===================================================================== *)

Definition blank : string := " ".

(** 001 : Infoscience identifier, when the source carries one. *)
Definition field_001 (cf001 : option string) : list Field :=
  if truthy cf001 then [ControlField "001" (or_empty cf001)] else [].

Definition leader_final : string := "00000nam a2200000 c 4500".

Definition field_008 : Field :=
  ControlField "008" "||||||s2025    sz   a   m    00| | eng  ".

Definition field_040 : Field :=
  DataField "040" blank blank
    [mkSubfield "a" "CH-ZuSLS EPFL"; mkSubfield "b" "fre"; mkSubfield "e" "rda"].

(** 100 1_ : main entry; the relator subfield is always there. *)
Definition field_100 (author700a : option string) : Field :=
  let f100_subs := [mkSubfield "4" "aut"] in
  DataField "100" "1" blank
    (if truthy author700a
     then mkSubfield "a" (or_empty author700a) :: f100_subs
     else f100_subs).

(** The subfields kept from a list of (code, optional value) pairs:
    [if v: subs.append(Subfield(code, v))], in order. *)
Definition present_subfields (l : list (string * option string)) : list Subfield :=
  flat_map (fun cv => if truthy (snd cv)
                      then [mkSubfield (fst cv) (or_empty (snd cv))]
                      else []) l.

(** 245 10 : title statement, only when one of its subfields exists. *)
Definition field_245 (t_a t_b t_c : option string) : list Field :=
  let subf_245 := present_subfields [("a", t_a); ("b", t_b); ("c", t_c)] in
  match subf_245 with
  | [] => []
  | _ => [DataField "245" "1" "0" subf_245]
  end.

(** 264 _1 : publication statement. *)
Definition field_264 (place_260a publ_260b date_260c : option string) : list Field :=
  let subf_264 :=
    present_subfields [("a", place_260a); ("b", publ_260b); ("c", date_260c)] in
  match subf_264 with
  | [] => []
  | _ => [DataField "264" blank "1" subf_264]
  end.

(** 300 __ : physical description, with its two constant subfields. *)
Definition field_300 (pages_300a : option string) : Field :=
  DataField "300" blank blank
    (present_subfields [("a", pages_300a)]
     ++ [mkSubfield "b" "illustrations"; mkSubfield "c" "28 cm"])%list.

Definition field_336 : Field :=
  DataField "336" blank blank [mkSubfield "b" "txt"; mkSubfield "2" "rdacontent"].
Definition field_337 : Field :=
  DataField "337" blank blank [mkSubfield "b" "n"; mkSubfield "2" "rdamedia"].
Definition field_338 : Field :=
  DataField "338" blank blank [mkSubfield "b" "nc"; mkSubfield "2" "rdacarrier"].

(** 502 __ : thesis note, from up to four optional pieces. *)
Definition field_502 (b_336a a260a a260b d_920b a088a : option string) : list Field :=
  let sb :=
    if truthy b_336a
    then [mkSubfield "b"
            (if String.eqb (lower (strip (or_empty b_336a))) "theses"
             then "Thèse" else or_empty b_336a)]
    else [] in
  let sc :=
    if truthy a260a || truthy a260b
    then [mkSubfield "c" (strip (or_empty a260b ++ " " ++ or_empty a260a))]
    else [] in
  let sd := if truthy d_920b then [mkSubfield "d" (or_empty d_920b)] else [] in
  let so := if truthy a088a then [mkSubfield "o" ("n° " ++ or_empty a088a)] else [] in
  let subf_502 := (sb ++ sc ++ sd ++ so)%list in
  match subf_502 with
  | [] => []
  | _ => [DataField "502" blank blank subf_502]
  end.

(** The raw keyword values that survive: [k.strip()] for the values [k]
    with [k and k.strip()]. *)
Definition keywords_of (vals : list string) : list string :=
  map strip
    (List.filter (fun k => truthy (Some k) && truthy (Some (strip k))) vals).

(** The deduplication loop, with its [seen] set and [deduped] list. *)
Fixpoint dedup_loop (keywords : list string) (seen : gset string)
    (deduped : list string) : list string :=
  match keywords with
  | [] => deduped
  | k :: ks =>
      if decide (k ∈ seen) then dedup_loop ks seen deduped
      else dedup_loop ks ({[ k ]} ∪ seen) (deduped ++ [k])%list
  end.

Definition label_520 : string := "Mots-clés de l'auteur : ".

(** 520 __ : abstract note built from the 653 $a keywords. *)
Definition field_520 (src : MarcRecord) : Field :=
  let keywords := keywords_of (fget_all src "653" "a") in
  let deduped := dedup_loop keywords ∅ [] in
  let subf_520 := [mkSubfield "5" "CH-ZuSLS EPFL"] in
  DataField "520" blank blank
    (match deduped with
     | [] => subf_520
     | _ =>
         let joined := replace "||" "; " (join "; " deduped) in
         mkSubfield "a" (label_520 ++ joined) :: subf_520
     end).

Definition field_655_idref : Field :=
  DataField "655" blank "7"
    [mkSubfield "a" "Thèses et écrits académiques";
     mkSubfield "0" "(IDREF)027253139"; mkSubfield "2" "idref"].
Definition field_655_gnd : Field :=
  DataField "655" blank "7"
    [mkSubfield "a" "Hochschulschrift"; mkSubfield "2" "gnd-content"].
Definition field_655_sbt : Field :=
  DataField "655" blank "7"
    [mkSubfield "a" "Tesi"; mkSubfield "2" "sbt12-content"].

(** The 720 field the supervisor is taken from: the first one with second
    indicator "2" and a $a, else the first one with a $a. *)
Definition cand_720_of (src : MarcRecord) : option Field :=
  match List.find (fun f => String.eqb (field_ind2 f) "2" && field_contains f "a")
          (get_fields src "720") with
  | Some f => Some f
  | None => List.find (fun f => field_contains f "a") (get_fields src "720")
  end.

(** 700 1_ : supervisor; the relator subfield is always there. *)
Definition field_700 (src : MarcRecord) : py Field :=
  match cand_720_of src with
  | Some f =>
      do a <- field_getitem f "a";
      Ok (DataField "700" "1" blank [mkSubfield "a" a; mkSubfield "4" "dgs"])
  | None => Ok (DataField "700" "1" blank [mkSubfield "4" "dgs"])
  end.

(** [first(f.get("a") for f in src.get_fields("700") if "a" in f)] *)
Definition author700a_of (src : MarcRecord) : option string :=
  first (map (fun f => field_get f "a")
           (List.filter (fun f => field_contains f "a") (get_fields src "700"))).

Definition build_final_record (lm : LookupMode) (src : MarcRecord) : py MarcRecord :=
  do o001 <- record_getitem lm src "001";
  let cf001 := match o001 with Some f => field_data f | None => None end in
  let author700a := author700a_of src in
  let t_a := fget src "245" "a" in
  let t_b := fget src "245" "b" in
  let t_c := invert_name_comma author700a in
  let place_260a := fget src "260" "a" in
  let publ_260b := expand_epfl (fget src "260" "b") in
  let date_260c := fget src "260" "c" in
  let pages_300a := ensure_pages_suffix (fget src "300" "a") in
  do f700 <- field_700 src;
  Ok (mkRecord leader_final
        (field_001 cf001
         ++ [field_008; field_040; field_100 author700a]
         ++ field_245 t_a t_b t_c
         ++ field_264 place_260a publ_260b date_260c
         ++ [field_300 pages_300a; field_336; field_337; field_338]
         ++ field_502 (fget src "336" "a") (fget src "260" "a")
              (fget src "260" "b") (fget src "920" "b") (fget src "088" "a")
         ++ [field_520 src; field_655_idref; field_655_gnd; field_655_sbt; f700])%list).

(** The four values [extract_marc_info] returns. *)
Record MarcInfo : Type := mkInfo {
  info_infoscience_id : option string;
  info_title : option string;
  info_author : option string;
  info_responsibility : option string
}.

Definition extract_marc_info (lm : LookupMode) (record : MarcRecord) : py MarcInfo :=
  do o001 <- record_getitem lm record "001";
  let infoscience_id :=
    match o001 with Some f => field_data f | None => None end in
  let '(title, responsibility) :=
    match get_fields record "245" with
    | f245 :: _ =>
        let title_parts := [field_get f245 "a"; field_get f245 "b"] in
        let raw_title :=
          join " " (map or_empty (List.filter truthy title_parts)) in
        ((if truthy (Some raw_title)
          then Some (strip_with (fun c => Ascii.eqb c " " || Ascii.eqb c "/")
                       raw_title)
          else None),
         field_get f245 "c")
    | [] => (None, None)
    end in
  let author :=
    match get_fields record "100" with
    | f100 :: _ => field_get f100 "a"
    | [] => None
    end in
  Ok (mkInfo infoscience_id title author responsibility).

(* ===================================================================== *)
(** ** XML elements and XSD validation *)
(* ===================================================================== *)

(** The content of an Alma [<item>] element. *)
Record ItemXml : Type := mkItemXml {
  ix_holding_id : string;
  ix_base_status : string;
  ix_physical_material_type : option string;
  ix_policy : option string;
  ix_po_line : option string;
  ix_arrival_date : string;
  ix_library : option string;
  ix_location : option string;
  ix_process_type : option string;
  ix_work_order_at : option string
}.

Inductive Element : Type :=
| ElRecord (r : MarcRecord)
| ElBib (r : MarcRecord)
| ElHolding (r : MarcRecord)
| ElItem (i : ItemXml).

(** A loaded XSD: its verdict on an element and the error log it leaves. *)
Record XMLSchema : Type := mkSchema {
  schema_validate : Element -> bool;
  schema_error_log : Element -> list string
}.

Definition validate_xml_element (element : option Element)
    (schema : option XMLSchema) (element_label : string) (required : bool)
  : bool * list string :=
  match element with
  | None =>
      if required
      then (false, ["No <" ++ element_label ++ "> element found"])
      else (true, [])
  | Some el =>
      match schema with
      | None => (true, [])
      | Some sc =>
          if negb (schema_validate sc el)
          then (false, schema_error_log sc el)
          else (true, [])
      end
  end.

Record BibValidation : Type := mkBibValidation {
  record_valid : bool;
  record_errors : list string;
  bib_valid : bool;
  bib_errors : list string
}.

(** [bib_element.find(".//marc:record")] *)
Definition find_marc_record (bib_element : Element) : option Element :=
  match bib_element with
  | ElBib r => Some (ElRecord r)
  | _ => None
  end.

Definition validate_bib_and_record (bib_element : Element)
    (marc_schema bib_schema : option XMLSchema) : BibValidation :=
  let rec_element := find_marc_record bib_element in
  let '(rv, re) := validate_xml_element rec_element marc_schema "record" true in
  let '(bv, be) := validate_xml_element (Some bib_element) bib_schema "bib" true in
  mkBibValidation rv re bv be.

Definition validate_holding_xml (holding_el : Element)
    (holding_schema : option XMLSchema) : bool * list string :=
  validate_xml_element (Some holding_el) holding_schema "holding" true.

Definition validate_item_xml (item_el : Element)
    (item_schema : option XMLSchema) : bool * list string :=
  validate_xml_element (Some item_el) item_schema "item" true.

(* ===================================================================== *)
(** ** The outside world *)
(* ===================================================================== *)

(** One answer of the Infoscience export: the request failed
    ([requests] raised, or [raise_for_status] did), the body is not
    MARCXML, or the records of the page. *)
Inductive FetchReply : Type :=
| FetchHttpError (msg : string)
| FetchMalformed (msg : string)
| FetchRecords (records : list MarcRecord).

(** What the SRU response body holds. *)
Inductive SruBody : Type :=
| BodyMalformed (msg : string)
| BodyNoRecordData
| BodyNoMarcRecord
| BodyMarcRecord.

(** One answer of swisscovery: [requests.get] raised, or a response. *)
Inductive SruReply : Type :=
| SruNoResponse (msg : string)
| SruResponse (status_code : Z) (body : SruBody).

(** A holding as the Alma wrapper exposes it. *)
Record Holding : Type := mkHolding {
  holding_id : string;
  holding_error : bool;
  holding_error_msg : string;
  holding_library : option string;
  holding_location : option string
}.

(** A bib object: its MMS id, when Alma gave one. *)
Record IzBib : Type := mkIzBib { bib_mms_id : option string }.

(** An item object after [Item(..., create_item=True)]. *)
Record Item : Type := mkItem {
  item_error : bool;
  item_error_msg : string;
  item_id : option string
}.

Record World : Type := mkWorld {
  w_lookup : LookupMode;
  (** [get_last_call_number_from_analytics()] *)
  w_analytics : option Z * option string;
  (** [load_xml_schema(path)] *)
  w_load_schema : string -> option XMLSchema;
  (** the fixed test query *)
  w_static_export : FetchReply;
  (** the answers to the requests for pages [start], [start+1], ...; a
      page past the last one listed holds no record *)
  w_export_pages : Z -> Z -> list FetchReply;
  (** the SRU answer for a title, an author and an institution code *)
  w_sru : string -> string -> string -> SruReply;
  (** [record_to_xml] / [etree.fromstring] fails on this record *)
  w_marcxml_raises : MarcRecord -> bool;
  (** [IzBib(data=..., create_bib=True)] *)
  w_create_bib : Element -> py IzBib;
  (** the holdings Alma already has for a bib *)
  w_holdings_of_bib : IzBib -> list Holding;
  (** [bib.get_holdings()] raises when looking for this location *)
  w_get_holdings_raises : string -> bool;
  (** [Holding(data=..., create_holding=True)] for a library and a
      location: an error message, or the id of the new holding *)
  w_create_holding : string -> string -> string + string;
  (** [Item(holding=..., data=..., create_item=True)] *)
  w_create_item : Holding -> ItemXml -> py Item;
  (** [date.today().isoformat()] *)
  w_today : string;
  (** [last_call_number.txt] can be written *)
  w_write_ok : bool;
  (** what creating the report directory and writing the CSV report
      under this file name raises, when it raises *)
  w_write_report : string -> option exn
}.

(** What the run does to the outside, and the log lines that matter. *)
Inductive LogLevel : Type := INFO | WARNING | ERROR.

Inductive Event : Type :=
| EvLog (level : LogLevel) (msg : string)
| EvSruQuery (title author : string)
| EvBuildBib (record_index : Z)
| EvCreateBib (record_index : Z)
| EvGetHoldings (location : string)
| EvCreateHolding (location : string)
| EvBuildItem (hid : string)
| EvCreateItem (hid : string).

(* ===================================================================== *)
(** ** [iter_infoscience_records]: the record ingestion stream *)
(* ===================================================================== *)

(** What a consumer gets from the generator: the records it yields, and
    the exception that ends the iteration if one leaves the generator. *)
Record Stream : Type := mkStream {
  yielded : list MarcRecord;
  stream_raised : option exn
}.

(** [requests.get] + [raise_for_status] + [parse_xml_to_array], unguarded. *)
Definition fetch_and_parse (reply : FetchReply) : py (list MarcRecord) :=
  match reply with
  | FetchHttpError msg => Raise (RequestException msg)
  | FetchMalformed msg => Raise (XMLSyntaxError msg)
  | FetchRecords rs => Ok rs
  end.

(** The [while True] loop over [spc.page]: both [try] blocks [break] on a
    failure, an empty page ends the pagination. *)
Fixpoint iter_pages (pages : list FetchReply) : list MarcRecord :=
  match pages with
  | [] => []
  | reply :: rest =>
      match fetch_and_parse reply with
      | Raise _ => []
      | Ok [] => []
      | Ok records => (records ++ iter_pages rest)%list
      end
  end.

Definition iter_infoscience_records (w : World) (use_static_url : bool)
    (start_spc_page spc_rpp : Z) : Stream :=
  if use_static_url then
    match fetch_and_parse (w_static_export w) with
    | Raise e => mkStream [] (Some e)
    | Ok records => mkStream records None
    end
  else mkStream (iter_pages (w_export_pages w start_spc_page spc_rpp)) None.

(* ===================================================================== *)
(** ** SRU check (swisscovery) *)
(* ===================================================================== *)

Definition fetch_marc_record_from_sru (w : World) (title author : string)
    (institution_code : string) : py bool :=
  match w_sru w title author institution_code with
  | SruNoResponse msg => Raise (RequestException msg)
  | SruResponse status_code body =>
      if negb (status_code =? 200)%Z then Ok false
      else match body with
           | BodyMalformed msg => Raise (XMLSyntaxError msg)
           | BodyNoRecordData => Ok false
           | BodyNoMarcRecord => Ok false
           | BodyMarcRecord => Ok true
           end
  end.

(* ===================================================================== *)
(** ** Alma: bib, holdings, items *)
(* ===================================================================== *)

Definition build_bib_with_record (w : World) (src_record : MarcRecord)
  : py (Element * Element) :=
  do final_record <- build_final_record (w_lookup w) src_record;
  if w_marcxml_raises w final_record
  then Raise (XMLSyntaxError "record_to_xml")
  else Ok (ElRecord final_record, ElBib final_record).

(** [bib_obj.get_holdings()] as seen when looking for [location]: the
    holdings Alma has for the bib, unless the call fails. *)
Definition get_holdings (w : World) (catalog : list Holding) (location : string)
  : py (list Holding) :=
  if w_get_holdings_raises w location then Raise (AlmaError "get_holdings")
  else Ok catalog.

(** The test of the lookup loop: holdings in error or without library
    or location are passed over, the others are compared. *)
Definition holding_matches (library_code location : string) (h : Holding) : bool :=
  negb (holding_error h)
  && truthy (holding_library h) && truthy (holding_location h)
  && String.eqb (or_empty (holding_library h)) library_code
  && String.eqb (or_empty (holding_location h)) location.

Definition find_existing_holding (holdings : py (list Holding))
    (library_code location : string) : option Holding :=
  match holdings with
  | Raise _ => None
  | Ok hs => List.find (holding_matches library_code location) hs
  end.

Definition build_holding_marc (library_code location call_number : string)
  : MarcRecord :=
  mkRecord "00000nx a2200061zn 450"
    [ControlField "008" "1011252u 8 4001uueng0000000";
     DataField "852" "4" blank
       [mkSubfield "b" library_code; mkSubfield "c" location;
        mkSubfield "j" call_number]].

Definition build_holding_xml (record : MarcRecord) : Element := ElHolding record.

Definition create_holding_in_alma (w : World) (bib_obj : IzBib)
    (library_code location : string)
  : option Holding * option string * list Event :=
  if negb (truthy (bib_mms_id bib_obj))
  then (None, Some "MMS ID introuvable.", [])
  else match w_create_holding w library_code location with
       | inl error_msg => (None, Some error_msg, [EvCreateHolding location])
       | inr hid =>
           (Some (mkHolding hid false "" (Some library_code) (Some location)),
            None, [EvCreateHolding location])
       end.

(** [creer_holding]: the holding found or created, the holdings of the
    bib afterwards, and what was done.  ([holding.get_holding_id()] on a
    missing holding is the one place where it can raise.) *)
Definition creer_holding (w : World) (bib_obj : IzBib) (catalog : list Holding)
    (library_code location call_number : string)
    (holding_schema : option XMLSchema)
  : py (option Holding) * list Holding * list Event :=
  let existing :=
    find_existing_holding (get_holdings w catalog location) library_code location in
  match existing with
  | Some h =>
      (Ok (Some h), catalog,
       [EvGetHoldings location; EvLog INFO "Holding déjà existante"])
  | None =>
      let record := build_holding_marc library_code location call_number in
      let holding_el := build_holding_xml record in
      let '(is_valid, errors) := validate_holding_xml holding_el holding_schema in
      if negb is_valid then
        (Ok None, catalog,
         [EvGetHoldings location; EvLog INFO "Holding Alma invalide"])
      else
        let '(holding, error, created) :=
          create_holding_in_alma w bib_obj library_code location in
        let done := (EvGetHoldings location :: created)%list in
        if truthy error then
          (Ok None, catalog, (done ++ [EvLog INFO "Erreur Alma"])%list)
        else
          match holding with
          | Some h =>
              (Ok (Some h), (catalog ++ [h])%list,
               (done ++ [EvLog INFO "Holding créée avec succès"])%list)
          | None => (Raise AttributeError, catalog, done)
          end
  end.

Definition build_item_xml_for_holding (w : World) (holding : Holding)
    (base_status : string) (po_line department_code : option string)
    (material_type_code : string) (item_policy_code : option string) : ItemXml :=
  let arrival_date := w_today w in
  mkItemXml (holding_id holding) base_status
    (if truthy (Some material_type_code) then Some material_type_code else None)
    (if truthy item_policy_code then item_policy_code else None)
    (if truthy po_line then po_line else None)
    arrival_date
    (if truthy (holding_library holding) then holding_library holding else None)
    (if truthy (holding_location holding) then holding_location holding else None)
    (if truthy department_code then Some "WORK_ORDER_DEPARTMENT" else None)
    (if truthy department_code then department_code else None).

(** The status / policy pair of a location, for the two locations the
    script knows. *)
Definition item_codes_of_location (loc : option string) : option (string * string) :=
  match loc with
  | Some l =>
      if String.eqb l "E02SP" then Some ("04", "04")
      else if String.eqb l "E02XA" then Some ("70", "70")
      else None
  | None => None
  end.

Definition msg_location_not_handled : string :=
  "Localisation non gérée -> aucun item créé.".

(** [creer_item_pour_une_holding]: the id of the item created, if any. *)
Definition creer_item_pour_une_holding (w : World) (holding : Holding)
    (po_line department_code : option string) (material_type_code : string)
    (item_schema : option XMLSchema) : py (option string) * list Event :=
  let loc := holding_location holding in
  match item_codes_of_location loc with
  | None => (Ok None, [EvLog INFO msg_location_not_handled])
  | Some (base_status, item_policy_code) =>
      let item_el :=
        build_item_xml_for_holding w holding base_status po_line department_code
          material_type_code (Some item_policy_code) in
      let built := [EvBuildItem (holding_id holding)] in
      let '(valid, errors) := validate_item_xml (ElItem item_el) item_schema in
      if negb valid then (Ok None, (built ++ [EvLog ERROR "Item invalide"])%list)
      else
        let sent := (built ++ [EvCreateItem (holding_id holding)])%list in
        match w_create_item w holding item_el with
        | Raise e => (Raise e, sent)
        | Ok item =>
            if item_error item
            then (Ok None, (sent ++ [EvLog ERROR "Erreur Alma création item"])%list)
            else (Ok (item_id item), (sent ++ [EvLog INFO "Item créé"])%list)
        end
  end.

(* ===================================================================== *)
(** ** Report model *)
(* ===================================================================== *)

Record LocationRow : Type := mkLocationRow {
  row_location : string;
  row_holding_id : option string;
  row_holding_status : option string;
  row_holding_error : option string;
  row_item_id : option string;
  row_item_status : option string;
  row_item_error : option string
}.

Record NoticeReport : Type := mkNoticeReport {
  nr_record_index : Z;
  nr_infoscience_id : option string;
  nr_title : option string;
  nr_author : option string;
  nr_call_number : option string;
  nr_sru_exists : option bool;
  nr_mms_id : option string;
  nr_bib_status : option string;
  nr_bib_error : option string;
  nr_locations : list LocationRow
}.

Definition add_location (rep : NoticeReport) (row : LocationRow) : NoticeReport :=
  mkNoticeReport (nr_record_index rep) (nr_infoscience_id rep) (nr_title rep)
    (nr_author rep) (nr_call_number rep) (nr_sru_exists rep) (nr_mms_id rep)
    (nr_bib_status rep) (nr_bib_error rep) (nr_locations rep ++ [row])%list.

Definition set_bib (rep : NoticeReport) (sru : option bool)
    (mms status error : option string) : NoticeReport :=
  mkNoticeReport (nr_record_index rep) (nr_infoscience_id rep) (nr_title rep)
    (nr_author rep) (nr_call_number rep) sru mms status error (nr_locations rep).

(** [str(e)] *)
Definition str_of_exn (e : exn) : string :=
  match e with
  | KeyError => ""
  | RequestException msg => msg
  | XMLSyntaxError msg => msg
  | AlmaError msg => msg
  | AttributeError => "'NoneType' object has no attribute 'get_holding_id'"
  | OSError msg => msg
  end.

(** [str(x)] of an optional string: [None] prints as "None". *)
Definition str_of_opt (o : option string) : string :=
  match o with
  | Some s => s
  | None => "None"
  end.

(* ===================================================================== *)
(** ** Configuration (the five dictionaries of [load_config]) *)
(* ===================================================================== *)

Record GeneralCfg : Type := mkGeneralCfg {
  g_env : string;
  g_institution_code : string;
  g_check_xsd : bool;
  g_report_prefix : string;
  g_skip_sru_check : bool
}.

Record InfoscienceCfg : Type := mkInfoscienceCfg {
  i_spc_rpp : Z;
  i_of_format : string;
  i_since_strategy : string
}.

Record XsdCfg : Type := mkXsdCfg {
  x_marc21 : string; x_bib : string; x_holding : string; x_item : string
}.

Record HoldingInfo : Type := mkHoldingInfo {
  hi_library_code : string;
  hi_locations : list string;
  hi_call_number_prefix : string
}.

Record ItemInfo : Type := mkItemInfo {
  ii_po_line : option string;
  ii_department_code : option string;
  ii_material_type_code : string
}.

Record Config : Type := mkConfig {
  general_cfg : GeneralCfg;
  infoscience_cfg : InfoscienceCfg;
  xsd_cfg : XsdCfg;
  holding_info : HoldingInfo;
  item_info : ItemInfo
}.

(** The values [load_config] falls back to. *)
Definition default_config : Config :=
  mkConfig
    (mkGeneralCfg "S" "HPH" true "rapport_" false)
    (mkInfoscienceCfg 100 "xm" "previous_month")
    (mkXsdCfg "xsd/MARC21slim.xsd" "xsd/rest_bib.xsd" "xsd/rest_holding.xsd"
       "xsd/rest_item.xsd")
    (mkHoldingInfo "hph_bjnbecip" ["E02XA"; "E02SP"] "ZTK")
    (mkItemInfo None (Some "AcqDepthph_bjnbecip") "THESIS").

(** Python's [a and b] and [a or b] on booleans. *)
Definition py_and (a b : bool) : bool := if a then b else a.
Definition py_or (a b : bool) : bool := if a then a else b.

(** [check_xsd = check_xsd and general_cfg["check_xsd"]] *)
Definition effective_check_xsd (check_xsd : bool) (g : GeneralCfg) : bool :=
  py_and check_xsd (g_check_xsd g).

(** [skip_sru_check = skip_sru_check or general_cfg["skip_sru_check"]] *)
Definition effective_skip_sru_check (skip_sru_check : bool) (g : GeneralCfg) : bool :=
  py_or skip_sru_check (g_skip_sru_check g).

(** [if spc_rpp <= 0: spc_rpp = infoscience_cfg["spc_rpp"]] *)
Definition effective_spc_rpp (spc_rpp : Z) (i : InfoscienceCfg) : Z :=
  if (spc_rpp <=? 0)%Z then i_spc_rpp i else spc_rpp.

(* ===================================================================== *)
(** ** Main pipeline *)
(* ===================================================================== *)

(** What is fixed before the loop over the records starts. *)
Record Settings : Type := mkSettings {
  s_dry_run : bool;
  s_check_xsd : bool;
  s_skip_sru_check : bool;
  s_institution_code : string;
  s_marc_schema : option XMLSchema;
  s_bib_schema : option XMLSchema;
  s_holding_schema : option XMLSchema;
  s_item_schema : option XMLSchema;
  s_holding_info : HoldingInfo;
  s_item_info : ItemInfo
}.

Definition row_holding_failed (loc error : string) : LocationRow :=
  mkLocationRow loc None (Some "ERROR") (Some error) None (Some "SKIPPED") None.

Definition msg_item_failed : string := "Item creation failed (see logs)".

(** Step 4 of the loop body: one holding and one item per location. *)
Fixpoint holdings_loop (w : World) (st : Settings) (bib_obj : IzBib)
    (call_number_str : string) (locs : list string) (catalog : list Holding)
    (notice_report : NoticeReport) : NoticeReport * list Event :=
  match locs with
  | [] => (notice_report, [])
  | loc :: rest =>
      let '(hres, catalog', hevs) :=
        creer_holding w bib_obj catalog (hi_library_code (s_holding_info st)) loc
          call_number_str (s_holding_schema st) in
      let '(rep, evs) :=
        match hres with
        | Raise e =>
            (add_location notice_report (row_holding_failed loc (str_of_exn e)),
             [EvLog ERROR "Erreur lors de la création de la holding"])
        | Ok None =>
            (add_location notice_report
               (row_holding_failed loc "Holding creation failed (see logs)"),
             [EvLog ERROR "Impossible de créer la holding"])
        | Ok (Some holding) =>
            let '(ires, ievs) :=
              creer_item_pour_une_holding w holding (ii_po_line (s_item_info st))
                (ii_department_code (s_item_info st))
                (ii_material_type_code (s_item_info st)) (s_item_schema st) in
            match ires with
            | Raise e =>
                (add_location notice_report (row_holding_failed loc (str_of_exn e)),
                 (ievs ++ [EvLog ERROR "Erreur lors de la création de la holding"])%list)
            | Ok item_id =>
                if truthy item_id then
                  (add_location notice_report
                     (mkLocationRow loc (Some (holding_id holding)) (Some "CREATED")
                        None item_id (Some "CREATED") None),
                   (ievs ++ [EvLog INFO "Item créé pour location"])%list)
                else
                  (add_location notice_report
                     (mkLocationRow loc (Some (holding_id holding)) (Some "CREATED")
                        None None (Some "ERROR") (Some msg_item_failed)),
                   (ievs ++ [EvLog ERROR "Création de l'item échouée"])%list)
            end
        end in
      let '(rep', evs') :=
        holdings_loop w st bib_obj call_number_str rest catalog' rep in
      (rep', (hevs ++ evs ++ evs')%list)
  end.

(** Steps 1 to 4, once the record is known not to be in swisscovery. *)
Definition create_in_alma (w : World) (st : Settings) (record_index : Z)
    (call_number_str : string) (record : MarcRecord)
    (notice_report : NoticeReport) : option NoticeReport * list Event :=
  match build_bib_with_record w record with
  | Raise _ =>
      (None, [EvBuildBib record_index;
              EvLog ERROR "Problème lors de la préparation de la notice"])
  | Ok (rec_el, bib_el) =>
      (* [validate_bib_and_record] is total here: the [except] branch of
         the script, which also ends in "not valid", has no counterpart. *)
      let schema_bib_and_record_valid :=
        if s_check_xsd st then
          let result :=
            validate_bib_and_record bib_el (s_marc_schema st) (s_bib_schema st) in
          record_valid result && bib_valid result
        else true in
      if negb schema_bib_and_record_valid then
        (Some (set_bib notice_report (nr_sru_exists notice_report) None
                 (Some "XSD_ERROR")
                 (Some "Bib/Record XSD validation failed (see logs)")),
         [EvBuildBib record_index; EvLog ERROR "Schémas Bib/Record non valides"])
      else if s_dry_run st then
        (Some (set_bib notice_report (nr_sru_exists notice_report) None
                 (Some "DRY_RUN_OK") (Some "")),
         [EvBuildBib record_index; EvLog INFO "DRY-RUN"])
      else
        match w_create_bib w bib_el with
        | Raise e =>
            (Some (set_bib notice_report (nr_sru_exists notice_report) None
                     (Some "ERROR") (Some (str_of_exn e))),
             [EvBuildBib record_index; EvCreateBib record_index;
              EvLog ERROR "Erreur lors de la création de la notice Bib"])
        | Ok bib_obj =>
            let created :=
              set_bib notice_report (nr_sru_exists notice_report)
                (Some (str_of_opt (bib_mms_id bib_obj))) (Some "CREATED") None in
            let '(rep, evs) :=
              holdings_loop w st bib_obj call_number_str
                (hi_locations (s_holding_info st)) (w_holdings_of_bib w bib_obj)
                created in
            (Some rep,
             (EvBuildBib record_index :: EvCreateBib record_index :: evs)%list)
        end
  end.

(** The body of the [for record in records_iter] loop after the counter
    was advanced: the report row appended for the record, if any. *)
Definition process_record (w : World) (st : Settings) (record_index : Z)
    (call_number_str : string) (record : MarcRecord)
  : option NoticeReport * list Event :=
  match build_final_record (w_lookup w) record with
  | Raise _ => (None, [EvLog ERROR "Erreur lors de la construction du record"])
  | Ok current_record =>
      match extract_marc_info (w_lookup w) current_record with
      | Raise _ => (None, [EvLog ERROR "Problème lors de la récupération du title"])
      | Ok info =>
          let notice_report :=
            mkNoticeReport record_index (info_infoscience_id info)
              (info_title info) (info_author info) (Some call_number_str)
              None None None None [] in
          if s_skip_sru_check st then
            let '(row, evs) :=
              create_in_alma w st record_index call_number_str record notice_report in
            (row, (EvLog INFO "Vérification SRU ignorée" :: evs)%list)
          else
            let title := or_empty (info_title info) in
            let author := or_empty (info_author info) in
            match fetch_marc_record_from_sru w title author (s_institution_code st) with
            | Raise _ =>
                (None, [EvSruQuery title author;
                        EvLog ERROR "Erreur lors de la recherche SRU"])
            | Ok exists_ =>
                let checked :=
                  set_bib notice_report (Some exists_) None None None in
                if exists_ then
                  (Some (set_bib checked (Some exists_) None
                           (Some "SKIPPED_SRU_EXISTS") None),
                   [EvSruQuery title author;
                    EvLog INFO "Notice déjà présente dans Alma"])
                else
                  let '(row, evs) :=
                    create_in_alma w st record_index call_number_str record checked in
                  (row, (EvSruQuery title author :: evs)%list)
            end
      end
  end.

(** The variables the loop over the records updates. *)
Record LoopState : Type := mkLoopState {
  ls_record_index : Z;
  ls_call_number_value : Z;
  ls_reports : list NoticeReport;
  ls_events : list Event;
  (** records taken from the generator so far *)
  ls_pulled : nat;
  (** the loop was left by [break] *)
  ls_broke : bool
}.

Definition opt_to_list {A : Type} (o : option A) : list A :=
  match o with
  | Some a => [a]
  | None => []
  end.

(** [for record in records_iter: ...] *)
Fixpoint records_loop (w : World) (st : Settings) (max_records : Z)
    (records : list MarcRecord) (s : LoopState) : LoopState :=
  match records with
  | [] => s
  | record :: rest =>
      let record_index := (ls_record_index s + 1)%Z in
      if (0 <? max_records)%Z && (max_records <? record_index)%Z then
        mkLoopState record_index (ls_call_number_value s) (ls_reports s)
          (ls_events s ++ [EvLog INFO "max_records atteint"])%list
          (S (ls_pulled s)) true
      else
        let call_number_value := (ls_call_number_value s + 1)%Z in
        let call_number_str :=
          hi_call_number_prefix (s_holding_info st) ++ " "
          ++ str_of_Z call_number_value in
        let '(row, evs) :=
          process_record w st record_index call_number_str record in
        records_loop w st max_records rest
          (mkLoopState record_index call_number_value
             (ls_reports s ++ opt_to_list row)%list
             (ls_events s ++ evs)%list
             (S (ls_pulled s)) false)
  end.

(** What a finished run leaves behind.  The lines of the CSV report are
    the [to_csv_row] of the rows of [out_reports]. *)
Record Outcome : Type := mkOutcome {
  out_reports : list NoticeReport;
  out_call_number_value : Z;
  (** the content of [last_call_number.txt], when it could be written *)
  out_persisted : option Z;
  out_pulled : nat;
  out_events : list Event
}.

Inductive Run : Type :=
| SystemExit (exit_code : Z)
| Uncaught (e : exn)
| Completed (out : Outcome).

(** [f"{general_cfg['report_prefix']}{date.today().isoformat()}.csv"] *)
Definition report_filename (w : World) (cfg : Config) : string :=
  g_report_prefix (general_cfg cfg) ++ w_today w ++ ".csv".

Definition main (w : World) (cfg : Config) (dry_run use_static_url : bool)
    (spc_page spc_rpp : Z) (env institution_code : option string)
    (check_xsd : bool) (max_records : Z) (skip_sru_check : bool) : Run :=
  let institution_code :=
    match institution_code with
    | None => g_institution_code (general_cfg cfg)
    | Some c => c
    end in
  let check_xsd := effective_check_xsd check_xsd (general_cfg cfg) in
  let skip_sru_check := effective_skip_sru_check skip_sru_check (general_cfg cfg) in
  let spc_rpp := effective_spc_rpp spc_rpp (infoscience_cfg cfg) in
  let '(current_call_number, error) := w_analytics w in
  match current_call_number with
  | None => SystemExit 1
  | Some seed =>
      if truthy error then SystemExit 1
      else
        let load path := if check_xsd then w_load_schema w path else None in
        let st :=
          mkSettings dry_run check_xsd skip_sru_check institution_code
            (load (x_marc21 (xsd_cfg cfg))) (load (x_bib (xsd_cfg cfg)))
            (load (x_holding (xsd_cfg cfg))) (load (x_item (xsd_cfg cfg)))
            (holding_info cfg) (item_info cfg) in
        let records_iter :=
          iter_infoscience_records w use_static_url spc_page spc_rpp in
        let s :=
          records_loop w st max_records (yielded records_iter)
            (mkLoopState 0 seed [] [] 0 false) in
        match stream_raised records_iter, ls_broke s with
        | Some e, false => Uncaught e
        | _, _ =>
            (* 6) the CSV report, written without a guard when there is
               at least one row; 7) the last call number, guarded *)
            match ls_reports s, w_write_report w (report_filename w cfg) with
            | _ :: _, Some e => Uncaught e
            | _, _ =>
                Completed
                  (mkOutcome (ls_reports s) (ls_call_number_value s)
                     (if w_write_ok w then Some (ls_call_number_value s) else None)
                     (ls_pulled s) (ls_events s))
            end
        end
  end.

(* ===================================================================== *)
(** ** Infoscience & Analytics helpers *)
(* ===================================================================== *)

(** The value of a decimal digit. *)
Definition digit_value (c : ascii) : option Z :=
  let n := nat_of_ascii c in
  if ((48 <=? n) && (n <=? 57))%nat then Some (Z.of_nat (n - 48)) else None.

(** [s.isdigit()], for the digits 0-9. *)
Definition isdigit (s : string) : bool :=
  truthy (Some s)
  && forallb (fun c => match digit_value c with Some _ => true | None => false end)
       (list_ascii_of_string s).

(** [int(s)] of a string of digits, read from the left. *)
Fixpoint int_of_digits (acc : Z) (s : string) : option Z :=
  match s with
  | EmptyString => Some acc
  | String c s' =>
      match digit_value c with
      | Some d => int_of_digits (10 * acc + d) s'
      | None => None
      end
  end.

(** The three values read from [.env]. *)
Record DotEnv : Type := mkDotEnv {
  env_ALMA_API_URL : option string;
  env_ALMA_API_ANALYTICS_PATH : option string;
  env_ALMA_API_KEY : option string
}.

(** The body of the Analytics answer: not XML, no [Row], or a first
    [Row] with its [Column3] (absent, or present with its text). *)
Inductive AnalyticsBody : Type :=
| AnalyticsMalformed (msg : string)
| AnalyticsNoRow
| AnalyticsRow (column3 : option (option string)).

Inductive AnalyticsReply : Type :=
| AnalyticsNoResponse (msg : string)
| AnalyticsResponse (status_code : Z) (body : AnalyticsBody).

(** [get_last_call_number_from_analytics()]: (value, error).  The text
    of [Column3] is read as ASCII. *)
Definition get_last_call_number_from_analytics (config : DotEnv)
    (reply : AnalyticsReply) : option Z * option string :=
  if negb (truthy (env_ALMA_API_URL config))
     || negb (truthy (env_ALMA_API_ANALYTICS_PATH config))
     || negb (truthy (env_ALMA_API_KEY config))
  then (None, Some "Variables manquantes dans .env")
  else
    match reply with
    | AnalyticsNoResponse msg => (None, Some ("Erreur: " ++ msg))
    | AnalyticsResponse status_code body =>
        if negb (status_code =? 200)%Z
        then (None, Some ("Erreur API: HTTP " ++ str_of_Z status_code))
        else
          match body with
          | AnalyticsMalformed msg => (None, Some ("Erreur: " ++ msg))
          | AnalyticsNoRow => (None, Some "Aucune Row dans la réponse.")
          | AnalyticsRow col3 =>
              match col3 with
              | Some (Some text) =>
                  if isdigit (strip text) then
                    match int_of_digits 0 (strip text) with
                    | Some value => (Some value, None)
                    | None => (None, Some "Erreur: invalid literal for int()")
                    end
                  else (None, Some "Column3 introuvable ou non numérique.")
              | _ => (None, Some "Column3 introuvable ou non numérique.")
              end
          end
    end.

(** A calendar date, as [datetime.date]. *)
Record date : Type := mkDate { d_year : Z; d_month : Z; d_day : Z }.

(** [s.zfill(width)]-like padding of a string of digits. *)
Fixpoint zeros (n : nat) : string :=
  match n with
  | O => EmptyString
  | S n' => String "0" (zeros n')
  end.

(** [f"{n:0{width}d}"]: the sign, when there is one, counts in the width. *)
Definition format_0d (width : nat) (n : Z) : string :=
  if (n <? 0)%Z then
    let body := str_of_Z (- n) in
    String "-" (zeros (width - 1 - String.length body) ++ body)
  else
    let body := str_of_Z n in
    zeros (width - String.length body) ++ body.

(** [first_day_previous_month(ref)], with today's date for a missing
    [ref]. *)
Definition first_day_previous_month (today : date) (ref : option date) : string :=
  let ref := match ref with Some d => d | None => today end in
  let '(year, month) :=
    if (d_month ref =? 1)%Z then ((d_year ref - 1)%Z, 12%Z)
    else (d_year ref, (d_month ref - 1)%Z) in
  format_0d 4 year ++ "-" ++ format_0d 2 month ++ "-01".

(* ===================================================================== *)
(** ** [load_config]: the INI file *)
(* ===================================================================== *)

(** What reading an option of a section gives: its value after
    interpolation, or the error the parser's BasicInterpolation raises
    on it (a "%" followed neither by "%" nor by "(", a reference to an
    option that does not exist, references nested too deep). *)
Inductive OptionValue : Type :=
| Interpolated (v : string)
| NotInterpolable (msg : string).

(** What the run finds at [config_file]: no path given, no such file, a
    file [ConfigParser.read] rejects, or the sections it parsed (each a
    map from the option names the section answers for, those of the
    default section included, to what reading them gives). *)
Inductive ConfigFile : Type :=
| NoConfigFile
| ConfigMissing
| ConfigUnreadable (msg : string)
| ConfigParsed (parser : gmap string (gmap string OptionValue)).

(** The outcome of [load_config]: the five dictionaries, or the
    exception that nothing catches: the [ValueError] of a [getboolean]
    or [getint], or the interpolation error of a [get]. *)
Inductive Loaded : Type :=
| LoadedConfig (cfg : Config)
| ConfigValueError (option_name : string)
| ConfigInterpolationError (option_name : string).

(** A step of the loader: a value, or the option whose reading raised. *)
Inductive Reading (A : Type) : Type :=
| Read (a : A)
| NotValue (option_name : string)
| NotRead (option_name : string).

Arguments Read {A} a.
Arguments NotValue {A} option_name.
Arguments NotRead {A} option_name.

#[global] Instance reading_bind : MBind Reading :=
  fun A B k m =>
    match m with
    | Read a => k a
    | NotValue n => NotValue n
    | NotRead n => NotRead n
    end.

(** [ConfigParser.BOOLEAN_STATES] on [value.lower()]. *)
Definition boolean_state (v : string) : option bool :=
  let l := lower v in
  if existsb (String.eqb l) ["1"; "yes"; "true"; "on"] then Some true
  else if existsb (String.eqb l) ["0"; "no"; "false"; "off"] then Some false
  else None.

(** [sec.get(key, fallback)] *)
Definition sec_get (sec : gmap string OptionValue) (key fallback : string)
  : Reading string :=
  match sec !! key with
  | Some (Interpolated v) => Read v
  | Some (NotInterpolable _) => NotRead key
  | None => Read fallback
  end.

(** [sec.getboolean(key, fallback=...)] *)
Definition sec_getboolean (sec : gmap string OptionValue) (key : string)
    (fallback : bool) : Reading bool :=
  match sec !! key with
  | Some (Interpolated v) =>
      match boolean_state v with
      | Some b => Read b
      | None => NotValue key
      end
  | Some (NotInterpolable _) => NotRead key
  | None => Read fallback
  end.

(** [sec.getint(key, fallback=...)], with Python's [int] given. *)
Definition sec_getint (py_int : string -> option Z)
    (sec : gmap string OptionValue) (key : string) (fallback : Z) : Reading Z :=
  match sec !! key with
  | Some (Interpolated v) =>
      match py_int v with
      | Some n => Read n
      | None => NotValue key
      end
  | Some (NotInterpolable _) => NotRead key
  | None => Read fallback
  end.

(** [[l.strip() for l in locs_raw.split(",") if l.strip()]] *)
Definition parse_locations (locs_raw : string) : list string :=
  map strip (List.filter (fun l => truthy (Some (strip l))) (split "," locs_raw)).

(** The section of that name, or an empty one when the file has none:
    every [if key in sec] is then false. *)
Definition section_of (parser : gmap string (gmap string OptionValue))
    (name : string) : gmap string OptionValue :=
  match parser !! name with
  | Some sec => sec
  | None => ∅
  end.

Definition load_general (sec : gmap string OptionValue) (g : GeneralCfg)
  : Reading GeneralCfg :=
  env ← sec_get sec "env" (g_env g);
  institution_code ← sec_get sec "institution_code" (g_institution_code g);
  check_xsd ← sec_getboolean sec "check_xsd" (g_check_xsd g);
  report_prefix ← sec_get sec "report_prefix" (g_report_prefix g);
  skip_sru_check ← sec_getboolean sec "skip_sru_check" (g_skip_sru_check g);
  Read (mkGeneralCfg env institution_code check_xsd report_prefix skip_sru_check).

Definition load_infoscience (py_int : string -> option Z)
    (sec : gmap string OptionValue) (i : InfoscienceCfg)
  : Reading InfoscienceCfg :=
  spc_rpp ← sec_getint py_int sec "spc_rpp" (i_spc_rpp i);
  of_format ← sec_get sec "of_format" (i_of_format i);
  since_strategy ← sec_get sec "since_strategy" (i_since_strategy i);
  Read (mkInfoscienceCfg spc_rpp of_format since_strategy).

Definition load_xsd (sec : gmap string OptionValue) (x : XsdCfg)
  : Reading XsdCfg :=
  marc21 ← sec_get sec "marc21" (x_marc21 x);
  bib ← sec_get sec "bib" (x_bib x);
  holding ← sec_get sec "holding" (x_holding x);
  item ← sec_get sec "item" (x_item x);
  Read (mkXsdCfg marc21 bib holding item).

Definition load_holding (sec : gmap string OptionValue) (h : HoldingInfo)
  : Reading HoldingInfo :=
  library_code ← sec_get sec "library_code" (hi_library_code h);
  locations ←
    match sec !! "locations" with
    | Some _ =>
        locs_raw ← sec_get sec "locations" "";
        Read (match parse_locations locs_raw with
              | [] => hi_locations h
              | locs => locs
              end)
    | None => Read (hi_locations h)
    end;
  call_number_prefix ← sec_get sec "call_number_prefix" (hi_call_number_prefix h);
  Read (mkHoldingInfo library_code locations call_number_prefix).

Definition load_item (sec : gmap string OptionValue) (it : ItemInfo)
  : Reading ItemInfo :=
  po_line ←
    match sec !! "po_line" with
    | Some _ =>
        val ← sec_get sec "po_line" "";
        Read (if truthy (Some (strip val)) then Some (strip val) else None)
    | None => Read (ii_po_line it)
    end;
  department_code ←
    match sec !! "department_code" with
    | Some (Interpolated v) => Read (Some v)
    | Some (NotInterpolable _) => NotRead "department_code"
    | None => Read (ii_department_code it)
    end;
  material_type_code ← sec_get sec "material_type_code"
                         (ii_material_type_code it);
  Read (mkItemInfo po_line department_code material_type_code).

Definition load_config (py_int : string -> option Z) (config_file : ConfigFile)
  : Loaded :=
  match config_file with
  | NoConfigFile | ConfigMissing | ConfigUnreadable _ => LoadedConfig default_config
  | ConfigParsed parser =>
      let loaded :=
        general_cfg ← load_general (section_of parser "general")
                        (general_cfg default_config);
        infoscience_cfg ← load_infoscience py_int
                            (section_of parser "infoscience")
                            (infoscience_cfg default_config);
        xsd_cfg ← load_xsd (section_of parser "xsd") (xsd_cfg default_config);
        holding_info ← load_holding (section_of parser "holding")
                         (holding_info default_config);
        item_info ← load_item (section_of parser "item")
                      (item_info default_config);
        Read (mkConfig general_cfg infoscience_cfg xsd_cfg holding_info item_info) in
      match loaded with
      | Read cfg => LoadedConfig cfg
      | NotValue name => ConfigValueError name
      | NotRead name => ConfigInterpolationError name
      end
  end.

(* ===================================================================== *)
(** ** [NoticeReport.to_csv_row]: one line of the CSV report *)
(* ===================================================================== *)

(** The seven lists the method fills while it walks the locations. *)
Record Columns : Type := mkColumns {
  holding_ids : list string;
  holding_locations : list string;
  holding_statuses : list string;
  holding_errors : list string;
  item_ids : list string;
  item_statuses : list string;
  item_errors : list string
}.

(** [if test: values.append(entry)] *)
Definition append_if (values : list string) (test entry : string) : list string :=
  if truthy (Some test) then (values ++ [entry])%list else values.

(** The body of [for loc in self.locations]. *)
Definition collect_location (cols : Columns) (loc : LocationRow) : Columns :=
  let loc_code := row_location loc in
  let h_id := or_empty (row_holding_id loc) in
  let h_status := or_empty (row_holding_status loc) in
  let h_error := or_empty (row_holding_error loc) in
  let i_id := or_empty (row_item_id loc) in
  let i_status := or_empty (row_item_status loc) in
  let i_error := or_empty (row_item_error loc) in
  mkColumns
    (append_if (holding_ids cols) h_id h_id)
    (append_if (holding_locations cols) loc_code loc_code)
    (append_if (holding_statuses cols) h_status (loc_code ++ ":" ++ h_status))
    (append_if (holding_errors cols) h_error (loc_code ++ ":" ++ h_error))
    (append_if (item_ids cols) i_id i_id)
    (append_if (item_statuses cols) i_status (loc_code ++ ":" ++ i_status))
    (append_if (item_errors cols) i_error (loc_code ++ ":" ++ i_error)).

Definition collect_locations (locations : list LocationRow) : Columns :=
  fold_left collect_location locations (mkColumns [] [] [] [] [] [] []).

Definition join_or_empty (values : list string) : string :=
  match values with
  | [] => ""
  | _ => join " | " values
  end.

(** [str(b)] *)
Definition str_of_bool (b : bool) : string := if b then "True" else "False".

Record CsvRow : Type := mkCsvRow {
  csv_record_index : string;
  csv_infoscience_id : string;
  csv_title : string;
  csv_author : string;
  csv_call_number : string;
  csv_sru_exists : string;
  csv_mms_id : string;
  csv_bib_status : string;
  csv_bib_error : string;
  csv_holding_locations : string;
  csv_holding_ids : string;
  csv_holding_statuses : string;
  csv_holding_errors : string;
  csv_item_ids : string;
  csv_item_statuses : string;
  csv_item_errors : string
}.

Definition to_csv_row (self : NoticeReport) : CsvRow :=
  let cols := collect_locations (nr_locations self) in
  mkCsvRow
    (str_of_Z (nr_record_index self))
    (or_empty (nr_infoscience_id self))
    (or_empty (nr_title self))
    (or_empty (nr_author self))
    (or_empty (nr_call_number self))
    (match nr_sru_exists self with
     | None => ""
     | Some b => str_of_bool b
     end)
    (or_empty (nr_mms_id self))
    (or_empty (nr_bib_status self))
    (or_empty (nr_bib_error self))
    (join_or_empty (holding_locations cols))
    (join_or_empty (holding_ids cols))
    (join_or_empty (holding_statuses cols))
    (join_or_empty (holding_errors cols))
    (join_or_empty (item_ids cols))
    (join_or_empty (item_statuses cols))
    (join_or_empty (item_errors cols)).

(* ===================================================================== *)
(** ** The rules as the specification words them *)
(* ===================================================================== *)

(** A byte outside ASCII, and a text that starts with [n] of them. *)
Definition high (c : ascii) : bool := (128 <=? nat_of_ascii c)%nat.

Fixpoint all_high (n : nat) (s : string) : bool :=
  match n with
  | O => true
  | S k =>
      match s with
      | EmptyString => false
      | String c s' => high c && all_high k s'
      end
  end.

(** The options the loader reads, with their sections, in the order in
    which it reads them. *)
Definition read_options : list (string * string) :=
  [("general", "env"); ("general", "institution_code");
   ("general", "check_xsd"); ("general", "report_prefix");
   ("general", "skip_sru_check");
   ("infoscience", "spc_rpp"); ("infoscience", "of_format");
   ("infoscience", "since_strategy");
   ("xsd", "marc21"); ("xsd", "bib"); ("xsd", "holding"); ("xsd", "item");
   ("holding", "library_code"); ("holding", "locations");
   ("holding", "call_number_prefix");
   ("item", "po_line"); ("item", "department_code");
   ("item", "material_type_code")].

(** The option is absent or can be interpolated. *)
Definition option_interpolates (sec : gmap string OptionValue) (key : string)
  : bool :=
  match sec !! key with
  | Some (NotInterpolable _) => false
  | _ => true
  end.

(** The option is absent, cannot be interpolated, or has a value the
    conversion accepts. *)
Definition option_converts {A : Type} (conv : string -> option A)
    (sec : gmap string OptionValue) (key : string) : bool :=
  match sec !! key with
  | Some (Interpolated v) =>
      match conv v with
      | Some _ => true
      | None => false
      end
  | _ => true
  end.

(** The verdict on one section: read to its end, and then every option
    passes, or stopped at the first option that does not. *)
Definition section_verdict {A : Type} (reading : Reading A)
    (sec : gmap string OptionValue) (keys : list string)
    (typed : list (string * bool)) : Prop :=
  match reading with
  | Read _ =>
      forallb (option_interpolates sec) keys = true
      /\ forallb snd typed = true
  | NotValue name => In (name, false) typed
  | NotRead name => In name keys /\ option_interpolates sec name = false
  end.

(** A parsed file the loader can read to its end: every option it reads
    interpolates, the two switches are boolean words and the page size
    is an integer. *)
Definition loadable (py_int : string -> option Z)
    (parser : gmap string (gmap string OptionValue)) : bool :=
  forallb (fun so => option_interpolates (section_of parser (fst so)) (snd so))
    read_options
  && option_converts boolean_state (section_of parser "general") "check_xsd"
  && option_converts boolean_state (section_of parser "general") "skip_sru_check"
  && option_converts py_int (section_of parser "infoscience") "spc_rpp".

(** The configuration with its two toggles set to the given values. *)
Definition with_toggles (cfg : Config) (check_xsd skip_sru_check : bool) : Config :=
  mkConfig
    (mkGeneralCfg (g_env (general_cfg cfg))
       (g_institution_code (general_cfg cfg)) check_xsd
       (g_report_prefix (general_cfg cfg)) skip_sru_check)
    (infoscience_cfg cfg) (xsd_cfg cfg) (holding_info cfg) (item_info cfg).

(** Name inversion that splits on the first comma only. *)
Definition invert_on_first_comma (name : string) : string :=
  match split "," name with
  | last :: p :: ps => strip (strip (join "," (p :: ps)) ++ " " ++ strip last)
  | _ => name
  end.

Definition nonempty (s : string) : bool := truthy (Some s).

(** Deduplication that keeps a value exactly when it was not seen
    earlier, in the order of the input. *)
Fixpoint first_seen_from (earlier l : list string) : list string :=
  match l with
  | [] => []
  | k :: ks =>
      if decide (k ∈ earlier) then first_seen_from (k :: earlier) ks
      else k :: first_seen_from (k :: earlier) ks
  end.

Definition first_seen (l : list string) : list string := first_seen_from [] l.

(** The keywords of the abstract note: every 653 $a value, trimmed,
    empties dropped, deduplicated in first-seen order. *)
Definition abstract_keywords (src : MarcRecord) : list string :=
  first_seen (List.filter nonempty (map strip (fget_all src "653" "a"))).

(** The subfields of the abstract note for a list of keywords. *)
Definition abstract_subfields (kws : list string) : list Subfield :=
  (match kws with
   | [] => []
   | _ => [mkSubfield "a" (label_520 ++ replace "||" "; " (join "; " kws))]
   end ++ [mkSubfield "5" "CH-ZuSLS EPFL"])%list.

(** The control identifier of a source record, when it has one. *)
Definition cf001_of (src : MarcRecord) : option string :=
  match record_get src "001" with
  | Some f => field_data f
  | None => None
  end.

(** The supervisor name the source gives, when it gives one. *)
Definition director_of (src : MarcRecord) : option string :=
  match cand_720_of src with
  | Some f => field_get f "a"
  | None => None
  end.

(** The fields of the target record that never depend on the source. *)
Definition static_fields : list Field :=
  [field_008; field_040; field_336; field_337; field_338;
   field_655_idref; field_655_gnd; field_655_sbt].

(** The tags of a target record in which every optional field is there. *)
Definition skeleton_tags : list string :=
  ["001"; "008"; "040"; "100"; "245"; "264"; "300"; "336"; "337"; "338";
   "502"; "520"; "655"; "655"; "655"; "700"].

(** Whether the source holds the data the field with this tag is made
    of; the fields that are always emitted need none. *)
Definition source_has (src : MarcRecord) (t : string) : bool :=
  if String.eqb t "001" then truthy (cf001_of src)
  else if String.eqb t "245" then
    truthy (fget src "245" "a") || truthy (fget src "245" "b")
    || truthy (invert_name_comma (author700a_of src))
  else if String.eqb t "264" then
    truthy (fget src "260" "a") || truthy (fget src "260" "b")
    || truthy (fget src "260" "c")
  else if String.eqb t "502" then
    truthy (fget src "336" "a") || truthy (fget src "260" "a")
    || truthy (fget src "260" "b") || truthy (fget src "920" "b")
    || truthy (fget src "088" "a")
  else true.

(** Reading back a date written as YYYY-MM-DD. *)
Definition parse_iso_date (s : string) : option (Z * Z * Z) :=
  let part n m := String.substring n m s in
  if (String.length s =? 10)%nat
     && String.eqb (part 4 1) "-" && String.eqb (part 7 1) "-"
     && isdigit (part 0 4) && isdigit (part 5 2) && isdigit (part 8 2)
  then
    match int_of_digits 0 (part 0 4), int_of_digits 0 (part 5 2),
          int_of_digits 0 (part 8 2) with
    | Some y, Some m, Some d => Some (y, m, d)
    | _, _, _ => None
    end
  else None.

(** A number written by [format_0d] reads back, as a text of the width
    asked for. *)
Definition format_0d_checked (width : nat) (n : Z) : bool :=
  let s := format_0d width n in
  (String.length s =? width)%nat && isdigit s
  && match int_of_digits 0 s with
     | Some v => (v =? n)%Z
     | None => false
     end.

(** An optional text that counts: [None] for a missing or empty one. *)
Definition nonempty_value (o : option string) : option string :=
  if truthy o then Some (or_empty o) else None.

(** The title the script extracts, read from the source record: 245 $a
    and $b joined by a blank, without blanks and slashes at both ends. *)
Definition source_title (src : MarcRecord) : option string :=
  let raw_title :=
    join " "
      (map or_empty
         (List.filter truthy
            [nonempty_value (fget src "245" "a");
             nonempty_value (fget src "245" "b")])) in
  if truthy (Some raw_title)
  then Some (strip_with (fun c => Ascii.eqb c " " || Ascii.eqb c "/") raw_title)
  else None.

(** The events that change the catalog. *)
Definition is_creation (e : Event) : bool :=
  match e with
  | EvCreateBib _ | EvCreateHolding _ | EvCreateItem _ => true
  | _ => false
  end.

Definition is_sru_query (e : Event) : bool :=
  match e with
  | EvSruQuery _ _ => true
  | _ => false
  end.

(** The three shapes of a per-location outcome: holding and item
    created, holding there but no item, no holding and the item skipped. *)
Definition row_shape (row : LocationRow) : Prop :=
  (row_holding_status row = Some "CREATED" /\ row_holding_id row <> None
   /\ row_holding_error row = None
   /\ ((row_item_status row = Some "CREATED" /\ truthy (row_item_id row) = true
        /\ row_item_error row = None)
       \/ (row_item_status row = Some "ERROR" /\ row_item_id row = None
           /\ row_item_error row = Some msg_item_failed)))
  \/ (row_holding_status row = Some "ERROR" /\ row_holding_id row = None
      /\ row_holding_error row <> None
      /\ row_item_status row = Some "SKIPPED" /\ row_item_id row = None
      /\ row_item_error row = None).

(** Two reports that differ by their per-location outcomes only. *)
Definition same_bib (rep rep' : NoticeReport) : Prop :=
  nr_record_index rep' = nr_record_index rep
  /\ nr_infoscience_id rep' = nr_infoscience_id rep
  /\ nr_title rep' = nr_title rep
  /\ nr_author rep' = nr_author rep
  /\ nr_call_number rep' = nr_call_number rep
  /\ nr_sru_exists rep' = nr_sru_exists rep
  /\ nr_mms_id rep' = nr_mms_id rep
  /\ nr_bib_status rep' = nr_bib_status rep
  /\ nr_bib_error rep' = nr_bib_error rep.

(** What a report row can look like when its record is done: found in
    swisscovery, stopped before the bib was created, or bib created with
    one outcome per configured location. *)
Definition report_shape (st : Settings) (rep : NoticeReport) : Prop :=
  (nr_bib_status rep = Some "SKIPPED_SRU_EXISTS" /\ nr_sru_exists rep = Some true
   /\ nr_mms_id rep = None /\ nr_locations rep = [])
  \/ ((nr_bib_status rep = Some "XSD_ERROR" \/ nr_bib_status rep = Some "DRY_RUN_OK"
       \/ nr_bib_status rep = Some "ERROR")
      /\ nr_sru_exists rep <> Some true
      /\ nr_mms_id rep = None /\ nr_locations rep = [])
  \/ (nr_bib_status rep = Some "CREATED" /\ nr_sru_exists rep <> Some true
      /\ nr_mms_id rep <> None /\ s_dry_run st = false
      /\ map row_location (nr_locations rep) = hi_locations (s_holding_info st)
      /\ Forall row_shape (nr_locations rep)).

(** The settings [main] works with. *)
Definition settings_of (w : World) (cfg : Config) (dry_run check_xsd : bool)
    (institution_code : option string) (skip_sru_check : bool) : Settings :=
  let check := effective_check_xsd check_xsd (general_cfg cfg) in
  let load path := if check then w_load_schema w path else None in
  mkSettings dry_run check
    (effective_skip_sru_check skip_sru_check (general_cfg cfg))
    (match institution_code with
     | None => g_institution_code (general_cfg cfg)
     | Some c => c
     end)
    (load (x_marc21 (xsd_cfg cfg))) (load (x_bib (xsd_cfg cfg)))
    (load (x_holding (xsd_cfg cfg))) (load (x_item (xsd_cfg cfg)))
    (holding_info cfg) (item_info cfg).

(** The events of the work done for one location of one bib. *)
Definition is_location_event (e : Event) : bool :=
  match e with
  | EvLog _ _ | EvGetHoldings _ | EvCreateHolding _ | EvBuildItem _
  | EvCreateItem _ => true
  | _ => false
  end.

(** The state of the loop before the first record. *)
Definition initial_state (seed : Z) : LoopState :=
  mkLoopState 0 seed [] [] 0 false.

(** The events other than log lines: what was asked of swisscovery and
    of Alma. *)
Definition requests_sent (evs : list Event) : list Event :=
  List.filter (fun e => match e with EvLog _ _ => false | _ => true end) evs.

(** A page that ends the pagination: the request failed, the body is not
    MARCXML, or it holds no record. *)
Definition ends_pagination (reply : FetchReply) : bool :=
  match fetch_and_parse reply with
  | Ok (_ :: _) => false
  | _ => true
  end.

(** Each number is smaller than all the numbers after it. *)
Fixpoint increasing (l : list Z) : Prop :=
  match l with
  | [] => True
  | x :: l' => Forall (fun y => (x < y)%Z) l' /\ increasing l'
  end.

(** What a row shows of the two counters: a positive index, within the
    cap when there is one, and the call number made of the prefix and of
    the seed plus the index. *)
Definition numbered_row (prefix : string) (seed max_records : Z)
    (row : NoticeReport) : Prop :=
  (1 <= nr_record_index row)%Z
  /\ ((0 < max_records)%Z -> (nr_record_index row <= max_records)%Z)
  /\ nr_call_number row
     = Some (prefix ++ " " ++ str_of_Z (seed + nr_record_index row)).

(** A row that stopped before anything was created. *)
Definition nothing_created (row : NoticeReport) : Prop :=
  (nr_bib_status row = Some "SKIPPED_SRU_EXISTS"
   \/ nr_bib_status row = Some "XSD_ERROR"
   \/ nr_bib_status row = Some "DRY_RUN_OK")
  /\ nr_mms_id row = None /\ nr_locations row = [].

(* ===================================================================== *)
(** ** Sample records, configurations and worlds *)
(* ===================================================================== *)

(** A source record whose keyword field repeats a keyword. *)
Definition record_ai : MarcRecord :=
  mkRecord ""
    [ControlField "001" "oai:infoscience.epfl.ch:1";
     DataField "653" blank blank [mkSubfield "a" "ai"; mkSubfield "a" " AI "];
     DataField "653" blank blank [mkSubfield "a" "  "; mkSubfield "a" "ai"]].

(** A source record whose keywords are padded with white space outside
    ASCII: a no-break space (U+00A0) and an ideographic space (U+3000). *)
Definition record_padded_keywords : MarcRecord :=
  mkRecord ""
    [ControlField "001" "oai:infoscience.epfl.ch:4";
     DataField "653" blank blank
       [mkSubfield "a" "ai"; mkSubfield "a" ("ai" ++ bytes [194; 160]);
        mkSubfield "a" (bytes [194; 160])];
     DataField "653" blank blank
       [mkSubfield "a" (bytes [227; 128; 128] ++ "AI "); mkSubfield "a" "ai"]].

(** A source record with an identifier and nothing else. *)
Definition record_bare : MarcRecord :=
  mkRecord "" [ControlField "001" "oai:infoscience.epfl.ch:2"].

(** A world in which nothing fails: one page of records, nothing found
    in swisscovery, Alma creates whatever it is asked for. *)
Definition quiet_world (records : list MarcRecord) : World :=
  mkWorld RaisesKeyError (Some 100%Z, None) (fun _ => None)
    (FetchRecords records) (fun _ _ => [FetchRecords records])
    (fun _ _ _ => SruResponse 200 BodyNoRecordData)
    (fun _ => false) (fun _ => Ok (mkIzBib (Some "991000000000001")))
    (fun _ => []) (fun _ => false) (fun _ loc => inr ("22" ++ loc))
    (fun _ _ => Ok (mkItem false "" (Some "23000001"))) "2025-11-03" true
    (fun _ => None).

(** A quiet world in which the report file cannot be written. *)
Definition world_report_unwritable (records : list MarcRecord) : World :=
  mkWorld RaisesKeyError (Some 100%Z, None) (fun _ => None)
    (FetchRecords records) (fun _ _ => [FetchRecords records])
    (fun _ _ _ => SruResponse 200 BodyNoRecordData)
    (fun _ => false) (fun _ => Ok (mkIzBib (Some "991000000000001")))
    (fun _ => []) (fun _ => false) (fun _ loc => inr ("22" ++ loc))
    (fun _ _ => Ok (mkItem false "" (Some "23000001"))) "2025-11-03" true
    (fun _ => Some (OSError "[Errno 2] No such file or directory")).

(** A source record with a title and an author but no identifier. *)
Definition record_no_id : MarcRecord :=
  mkRecord ""
    [DataField "245" blank blank [mkSubfield "a" "A thesis without identifier"];
     DataField "700" blank blank [mkSubfield "a" "Doe, Jane"]].

(** A holding already in Alma for the default library. *)
Definition holding_xa : Holding :=
  mkHolding "2211" false "" (Some "hph_bjnbecip") (Some "E02XA").

(** A quiet world in which the holdings of a bib cannot be read. *)
Definition world_holdings_unreadable : World :=
  mkWorld RaisesKeyError (Some 100%Z, None) (fun _ => None)
    (FetchRecords []) (fun _ _ => [])
    (fun _ _ _ => SruResponse 200 BodyNoRecordData)
    (fun _ => false) (fun _ => Ok (mkIzBib (Some "991000000000001")))
    (fun _ => []) (fun _ => true) (fun _ loc => inr ("22" ++ loc))
    (fun _ _ => Ok (mkItem false "" (Some "23000001"))) "2025-11-03" true
    (fun _ => None).

(** A complete thesis record. *)
Definition record_thesis : MarcRecord :=
  mkRecord ""
    [ControlField "001" "oai:infoscience.epfl.ch:3";
     DataField "245" blank blank [mkSubfield "a" "On call numbers"];
     DataField "700" blank blank [mkSubfield "a" "Doe, Jane"];
     DataField "260" blank blank
       [mkSubfield "a" "Lausanne"; mkSubfield "b" "EPFL"; mkSubfield "c" "2025"]].

(** Its target record and the values extracted from it. *)
Definition thesis_final : MarcRecord :=
  Eval vm_compute in
    match build_final_record RaisesKeyError record_thesis with
    | Ok r => r
    | Raise _ => mkRecord "" []
    end.

Definition thesis_info : MarcInfo :=
  Eval vm_compute in
    match extract_marc_info RaisesKeyError thesis_final with
    | Ok i => i
    | Raise _ => mkInfo None None None None
    end.

(** The settings of a run with every check switched off. *)
Definition plain_settings (h : HoldingInfo) : Settings :=
  mkSettings false false false "HPH" None None None None h
    (item_info default_config).

(** The default configuration with one location the item table does not
    know. *)
Definition config_other_location : Config :=
  mkConfig (general_cfg default_config) (infoscience_cfg default_config)
    (xsd_cfg default_config)
    (mkHoldingInfo "hph_bjnbecip" ["E02ZZ"] "ZTK")
    (item_info default_config).

(** A world in which swisscovery cannot be reached. *)
Definition world_sru_down (records : list MarcRecord) : World :=
  mkWorld RaisesKeyError (Some 100%Z, None) (fun _ => None)
    (FetchRecords records) (fun _ _ => [FetchRecords records])
    (fun _ _ _ => SruNoResponse "Connection refused")
    (fun _ => false) (fun _ => Ok (mkIzBib (Some "991000000000001")))
    (fun _ => []) (fun _ => false) (fun _ loc => inr ("22" ++ loc))
    (fun _ _ => Ok (mkItem false "" (Some "23000001"))) "2025-11-03" true
    (fun _ => None).

(** A world in which the fixed test query is answered by an HTTP error. *)
Definition world_static_down : World :=
  mkWorld RaisesKeyError (Some 100%Z, None) (fun _ => None)
    (FetchHttpError "500 Server Error") (fun _ _ => [])
    (fun _ _ _ => SruResponse 200 BodyNoRecordData)
    (fun _ => false) (fun _ => Ok (mkIzBib (Some "991000000000001")))
    (fun _ => []) (fun _ => false) (fun _ loc => inr ("22" ++ loc))
    (fun _ _ => Ok (mkItem false "" (Some "23000001"))) "2025-11-03" true
    (fun _ => None).

(** What the report says about the items, location by location. *)
Definition item_outcomes (reports : list NoticeReport)
  : list (list (string * option string * option string)) :=
  map (fun rep =>
         map (fun row => (row_location row, row_item_status row, row_item_error row))
           (nr_locations rep))
    reports.

(** A page whose fetch or parse fails. *)
Definition page_failed (reply : FetchReply) : bool :=
  raises (fetch_and_parse reply).

(** Python's [int] on plain decimal text, enough for the samples. *)
Definition int_of_decimal (s : string) : option Z :=
  if isdigit s then int_of_digits 0 s else None.

(** A configuration file that changes the locations, the schema check
    and the page size. *)
Definition sample_config_file : ConfigFile :=
  ConfigParsed
    {[ "general" := {[ "check_xsd" := Interpolated "no" ]};
       "infoscience" := {[ "spc_rpp" := Interpolated "50" ]};
       "holding" := {[ "locations" := Interpolated " E02XA , ,E02CO" ]};
       "item" := {[ "po_line" := Interpolated "  " ]} ]}.

Definition sample_loaded_config : Config :=
  Eval vm_compute in
    match load_config int_of_decimal sample_config_file with
    | LoadedConfig cfg => cfg
    | _ => default_config
    end.

(** A world in which the Analytics service is down. *)
Definition world_no_seed (records : list MarcRecord) : World :=
  mkWorld RaisesKeyError
    (get_last_call_number_from_analytics
       (mkDotEnv (Some "https://api.example.org") (Some "/analytics") (Some "key"))
       (AnalyticsResponse 503 AnalyticsNoRow))
    (fun _ => None)
    (FetchRecords records) (fun _ _ => [FetchRecords records])
    (fun _ _ _ => SruResponse 200 BodyNoRecordData)
    (fun _ => false) (fun _ => Ok (mkIzBib (Some "991000000000001")))
    (fun _ => []) (fun _ => false) (fun _ loc => inr ("22" ++ loc))
    (fun _ _ => Ok (mkItem false "" (Some "23000001"))) "2025-11-03" true
    (fun _ => None).

(** A record whose identifier field is there but empty. *)
Definition record_empty_id : MarcRecord :=
  mkRecord ""
    [ControlField "001" "";
     DataField "245" blank blank [mkSubfield "a" "A thesis without identifier"]].

(** The report row of the thesis record in a quiet world. *)
Definition thesis_row : NoticeReport :=
  Eval vm_compute in
    match fst (process_record (quiet_world [record_thesis])
                 (plain_settings (holding_info default_config)) 1 "ZTK 101"
                 record_thesis) with
    | Some row => row
    | None => mkNoticeReport 0 None None None None None None None None []
    end.

(** What is left of a run, or of no run at all. *)
Definition outcome_of (run : Run) : Outcome :=
  match run with
  | Completed out => out
  | _ => mkOutcome [] 0 None 0 []
  end.

(** Two theses handled in a quiet world: for real, as a dry run, and
    without the SRU check. *)
Definition quiet_outcome : Outcome :=
  Eval vm_compute in
    outcome_of (main (quiet_world [record_thesis; record_thesis]) default_config
                  false false 1 (-1) None None true 0 false).

Definition dry_outcome : Outcome :=
  Eval vm_compute in
    outcome_of (main (quiet_world [record_thesis; record_thesis]) default_config
                  true false 1 (-1) None None true 0 false).

Definition skip_outcome : Outcome :=
  Eval vm_compute in
    outcome_of (main (quiet_world [record_thesis; record_thesis]) default_config
                  false false 1 (-1) None None true 0 true).

(** A quiet world whose export answers with the given pages. *)
Definition world_paged (pages : list FetchReply) : World :=
  mkWorld RaisesKeyError (Some 100%Z, None) (fun _ => None)
    (FetchRecords []) (fun _ _ => pages)
    (fun _ _ _ => SruResponse 200 BodyNoRecordData)
    (fun _ => false) (fun _ => Ok (mkIzBib (Some "991000000000001")))
    (fun _ => []) (fun _ => false) (fun _ loc => inr ("22" ++ loc))
    (fun _ _ => Ok (mkItem false "" (Some "23000001"))) "2025-11-03" true
    (fun _ => None).

(** A quiet world whose schemas refuse every element. *)
Definition world_strict (records : list MarcRecord) : World :=
  mkWorld RaisesKeyError (Some 100%Z, None)
    (fun _ => Some (mkSchema (fun _ => false) (fun _ => ["not valid"])))
    (FetchRecords records) (fun _ _ => [FetchRecords records])
    (fun _ _ _ => SruResponse 200 BodyNoRecordData)
    (fun _ => false) (fun _ => Ok (mkIzBib (Some "991000000000001")))
    (fun _ => []) (fun _ => false) (fun _ loc => inr ("22" ++ loc))
    (fun _ _ => Ok (mkItem false "" (Some "23000001"))) "2025-11-03" true
    (fun _ => None).

(** The run of a thesis in that world, asked on the command line to
    validate, with a configuration that says not to. *)
Definition unchecked_outcome : Outcome :=
  Eval vm_compute in
    outcome_of (main (world_strict [record_thesis])
                  (with_toggles default_config false false)
                  false false 1 (-1) None None true 0 false).

(* ===================================================================== *)
(** * Properties *)
(* ===================================================================== *)

(** ** Strings *)

Section StringFacts.

Lemma prefix_cons_char (c d : ascii) (s : string) :
  String.prefix (String c EmptyString) (String d s) = Ascii.eqb c d.
Proof.
  simpl. destruct (ascii_dec c d) as [->|Hne].
  - rewrite Ascii.eqb_refl. now destruct s.
  - symmetry. now apply Ascii.eqb_neq.
Qed.

Lemma contains_char_cons (c d : ascii) (s : string) :
  contains (String c EmptyString) (String d s)
  = Ascii.eqb c d || contains (String c EmptyString) s.
Proof.
  change (contains (String c EmptyString) (String d s))
    with (String.prefix (String c EmptyString) (String d s)
          || contains (String c EmptyString) s).
  now rewrite prefix_cons_char.
Qed.

(** Splitting a string that does not hold the separator gives it back. *)
Lemma split_absent (sep : ascii) (s : string) :
  contains (String sep EmptyString) s = false -> split sep s = [s].
Proof.
  induction s as [|d s IH]; intros H; [reflexivity|].
  rewrite contains_char_cons in H.
  apply orb_false_iff in H as [Hd Hs].
  simpl. rewrite Ascii.eqb_sym, Hd. now rewrite (IH Hs).
Qed.

Lemma contains_app_r (sub a b : string) :
  contains sub b = true -> contains sub (a ++ b) = true.
Proof.
  intros H. induction a as [|c a IH]; [exact H|].
  change (String.prefix sub (String c (a ++ b)) || contains sub (a ++ b) = true).
  rewrite IH. apply orb_true_r.
Qed.

Lemma truthy_app_nonempty (a b : string) :
  truthy (Some b) = true -> truthy (Some (a ++ b)) = true.
Proof. destruct a; [trivial | reflexivity]. Qed.

Lemma truthy_false_cases (o : option string) :
  truthy o = false -> o = None \/ o = Some EmptyString.
Proof. destruct o as [[|c s]|]; intros H; auto; discriminate. Qed.

End StringFacts.

Section ReplacePipes.

Lemma prefix_empty (s : string) : String.prefix "" s = true.
Proof. now destruct s. Qed.

Lemma prefix_cons (p c : ascii) (a x : string) :
  String.prefix (String p a) (String c x) = Ascii.eqb p c && String.prefix a x.
Proof.
  simpl. destruct (ascii_dec p c) as [->|Hne].
  - now rewrite Ascii.eqb_refl.
  - apply Ascii.eqb_neq in Hne. now rewrite Hne.
Qed.

(** A replaced text starts with a pipe only if the text did. *)
Lemma replaced_head (s : string) :
  String.prefix "|" (replace "||" "; " s) = true -> String.prefix "|" s = true.
Proof.
  destruct s as [|d t]; [trivial|]. unfold replace. cbn [replace_go].
  destruct (String.prefix "||" (String d t)).
  - change ("; " ++ ?x) with (String ";" (String " " x)).
    rewrite prefix_cons. discriminate.
  - now rewrite !prefix_cons, !prefix_empty.
Qed.

(** After the replacement no "||" is left, whether or not the first
    character was already consumed by a match. *)
Lemma replace_go_leaves_no_pipes (s : string) :
  contains "||" (replace_go "||" "; " 0 s) = false
  /\ contains "||" (replace_go "||" "; " 1 s) = false.
Proof.
  induction s as [|c s [IH0 IH1]]; [split; reflexivity|].
  split; [|exact IH0].
  cbn [replace_go].
  destruct (String.prefix "||" (String c s)) eqn:Hp.
  - cbn [String.length Nat.sub].
    change ("; " ++ ?x) with (String ";" (String " " x)).
    change (contains "||" (String ?a ?x))
      with (String.prefix "||" (String a x) || contains "||" x).
    rewrite prefix_cons. cbn [Ascii.eqb Bool.eqb andb orb].
    change (contains "||" (String ?a ?x))
      with (String.prefix "||" (String a x) || contains "||" x).
    rewrite prefix_cons. cbn [Ascii.eqb Bool.eqb andb orb]. exact IH1.
  - change (contains "||" (String ?a ?x))
      with (String.prefix "||" (String a x) || contains "||" x).
    rewrite IH0, orb_false_r, prefix_cons.
    rewrite prefix_cons in Hp.
    destruct (Ascii.eqb "|" c); [|reflexivity]. cbn [andb] in Hp |- *.
    destruct (String.prefix "|" (replace_go "||" "; " 0 s)) eqn:Hh; [|reflexivity].
    apply (replaced_head s) in Hh. congruence.
Qed.

Lemma replace_leaves_no_pipes (s : string) :
  contains "||" (replace "||" "; " s) = false.
Proof. apply replace_go_leaves_no_pipes. Qed.

End ReplacePipes.

(** ** Trimming *)

Section Trimming.

Lemma prefix_trans (a : string) :
  forall b c, String.prefix a b = true -> String.prefix b c = true ->
              String.prefix a c = true.
Proof.
  induction a as [|x a IH]; intros b c Hab Hbc; [apply prefix_empty|].
  destruct b as [|y b]; [discriminate|]. destruct c as [|z c]; [discriminate|].
  rewrite prefix_cons in *.
  apply andb_true_iff in Hab as [Hxy Hab]. apply andb_true_iff in Hbc as [Hyz Hbc].
  apply Ascii.eqb_eq in Hxy, Hyz. subst. rewrite Ascii.eqb_refl. cbn [andb].
  now apply (IH b c).
Qed.

Lemma rstrip_prefix (s : string) : String.prefix (rstrip s) s = true.
Proof.
  induction s as [|c s IH]; [reflexivity|].
  cbn [rstrip]. cbv zeta. destruct (is_whitespace _); [apply prefix_empty|].
  now rewrite prefix_cons, Ascii.eqb_refl.
Qed.

Lemma rstrip_idempotent (s : string) : rstrip (rstrip s) = rstrip s.
Proof.
  induction s as [|c s IH]; [reflexivity|].
  cbn [rstrip]. cbv zeta.
  destruct (is_whitespace (String c (rstrip s))) eqn:H; [reflexivity|].
  cbn [rstrip]. cbv zeta. now rewrite IH, H.
Qed.

Lemma lstrip_go_no_whitespace (s : string) :
  forall skip, leading_whitespace (lstrip_go skip s) = None.
Proof.
  induction s as [|c s IH]; intros skip; [reflexivity|].
  cbn [lstrip_go]. destruct skip as [|k]; [|apply IH].
  destruct (leading_whitespace (String c s)) eqn:H; [apply IH | exact H].
Qed.

Lemma lstrip_fixed (s : string) : leading_whitespace s = None -> lstrip s = s.
Proof.
  intros H. destruct s as [|c s]; [reflexivity|].
  unfold lstrip. cbn [lstrip_go]. now rewrite H.
Qed.

Lemma leading_whitespace_prefix (a b : string) :
  String.prefix a b = true -> leading_whitespace b = None ->
  leading_whitespace a = None.
Proof.
  unfold leading_whitespace. intros Hab Hb.
  destruct (List.find _ whitespace) as [ws|] eqn:Ha in |- *; [|reflexivity].
  apply List.find_some in Ha as [Hin Hws].
  pose proof (List.find_none _ _ Hb ws Hin) as Hn. cbv beta in Hn.
  now rewrite (prefix_trans ws a b Hws Hab) in Hn.
Qed.

(** Trimming a trimmed text changes nothing. *)
Lemma strip_idempotent (s : string) : strip (strip s) = strip s.
Proof.
  unfold strip.
  rewrite (lstrip_fixed (rstrip (lstrip s))).
  - apply rstrip_idempotent.
  - apply (leading_whitespace_prefix _ (lstrip s)); [apply rstrip_prefix|].
    apply lstrip_go_no_whitespace.
Qed.

End Trimming.

(** ** Case mapping *)

Lemma string_app_assoc (a b c : string) : (a ++ b) ++ c = a ++ b ++ c.
Proof.
  induction a as [|x a IH]; [reflexivity|].
  change (String x ((a ++ b) ++ c) = String x (a ++ b ++ c)). now rewrite IH.
Qed.

Section CaseMapping.

Lemma prefix_all_high (key : string) :
  forall s, String.prefix key s = true ->
            forallb high (list_ascii_of_string key) = true ->
            all_high (String.length key) s = true.
Proof.
  induction key as [|k key IH]; intros s Hp Hk; [reflexivity|].
  destruct s as [|c s]; [discriminate|].
  rewrite prefix_cons in Hp. apply andb_true_iff in Hp as [Hkc Hp].
  apply Ascii.eqb_eq in Hkc. subst c.
  cbn [list_ascii_of_string forallb] in Hk. apply andb_true_iff in Hk as [Hh Hk].
  cbn [String.length all_high]. rewrite Hh. cbn [andb]. now apply IH.
Qed.

Variables (f : ascii -> ascii) (special : list (string * string)).

Hypothesis special_high :
  forallb (fun kv => match fst kv with
                     | EmptyString => false
                     | key => forallb high (list_ascii_of_string key)
                     end) special = true.

(** A case mapping does not reach into what follows an ASCII byte. *)
Lemma map_case_app (c0 : ascii) (t : string) (a : string) :
  high c0 = false ->
  forall skip, all_high skip (a ++ String c0 t) = true ->
    exists y, map_case f special skip (a ++ String c0 t)
              = y ++ map_case f special 0 (String c0 t).
Proof.
  intros Hc0. induction a as [|c a IH]; intros skip Hskip.
  - destruct skip as [|k]; [now exists EmptyString|].
    change (high c0 && all_high k t = true) in Hskip. now rewrite Hc0 in Hskip.
  - change ((String c a) ++ String c0 t) with (String c (a ++ String c0 t)) in *.
    destruct skip as [|k].
    + cbn [map_case].
      destruct (List.find _ special) as [kv|] eqn:Hfind.
      * apply List.find_some in Hfind as [Hin Hp].
        rewrite forallb_forall in special_high.
        pose proof (special_high kv Hin) as Hkv. cbv beta in Hkv, Hp.
        destruct (fst kv) as [|k0 key] eqn:Hkey; [discriminate|].
        pose proof (prefix_all_high _ _ Hp Hkv) as Hall.
        cbn [String.length all_high] in Hall.
        apply andb_true_iff in Hall as [_ Hall].
        cbn [String.length Nat.sub]. rewrite Nat.sub_0_r.
        destruct (IH _ Hall) as [y Hy]. exists (snd kv ++ y).
        rewrite Hy. symmetry. apply string_app_assoc.
      * destruct (IH 0%nat eq_refl) as [y Hy]. exists (String (f c) y).
        now rewrite Hy.
    + cbn [map_case]. cbn [all_high] in Hskip.
      apply andb_true_iff in Hskip as [_ Hskip]. apply IH, Hskip.
Qed.

End CaseMapping.

(** ** C6: name inversion *)

(** Splitting at the first separator. *)
Lemma split_app_sep (sep : ascii) (a b : string) :
  contains (String sep EmptyString) a = false ->
  split sep (a ++ String sep b) = a :: split sep b.
Proof.
  induction a as [|c a IH]; intros H.
  - change (split sep (String sep b) = "" :: split sep b).
    cbn [split]. now rewrite Ascii.eqb_refl.
  - rewrite contains_char_cons in H. apply orb_false_iff in H as [Hc Ha].
    change (split sep (String c (a ++ String sep b)) = String c a :: split sep b).
    cbn [split]. rewrite Ascii.eqb_sym, Hc. now rewrite (IH Ha).
Qed.

(** Splitting undoes joining, for parts that do not hold the separator. *)
Lemma split_join (sep : ascii) (ps : list string) :
  forall p : string,
    Forall (fun part => contains (String sep EmptyString) part = false) (p :: ps) ->
    split sep (join (String sep EmptyString) (p :: ps)) = p :: ps.
Proof.
  induction ps as [|q ps IH]; intros p Hall.
  - apply split_absent. now inversion Hall.
  - inversion Hall as [|? ? Hp Hrest]; subst.
    change (join (String sep "") (p :: q :: ps))
      with (p ++ String sep (join (String sep "") (q :: ps))).
    rewrite (split_app_sep sep p _ Hp). now rewrite IH.
Qed.

(** C6. [invert_name_comma] turns "Doe, Jane" into "Jane Doe", gives back
    unchanged every name that holds no comma, and turns "Doe, Jane, Q."
    into "Jane Q. Doe".  In general every comma splits: a name made of a
    surname and one or more further parts, separated by commas, becomes
    the further parts, each trimmed, joined by blanks, then a blank and
    the trimmed surname, the whole trimmed again. *)
Theorem invert_name_comma_spec :
  invert_name_comma (Some "Doe, Jane") = Some "Jane Doe"
  /\ (forall name : string,
        contains "," name = false -> invert_name_comma (Some name) = Some name)
  /\ invert_name_comma (Some "Doe, Jane, Q.") = Some "Jane Q. Doe"
  /\ (forall (surname : string) (given : list string),
        given <> [] ->
        Forall (fun part => contains "," part = false) (surname :: given) ->
        invert_name_comma (Some (join "," (surname :: given)))
        = Some (strip (strip (join " " (map strip given))
                       ++ " " ++ strip surname))).
Proof.
  split; [reflexivity | split; [|split; [reflexivity|]]].
  - intros name Hname. unfold invert_name_comma.
    destruct name as [|c s]; [reflexivity|].
    cbn [truthy negb]. now rewrite (split_absent "," _ Hname).
  - intros surname given Hgiven Hparts. unfold invert_name_comma.
    rewrite (split_join "," given surname Hparts).
    destruct given as [|g given]; [congruence|].
    assert (Hname : truthy (Some (join "," (surname :: g :: given))) = true).
    { change (join "," (surname :: g :: given))
        with (surname ++ String "," (join "," (g :: given))).
      now apply truthy_app_nonempty. }
    rewrite Hname. reflexivity.
Qed.

Lemma invert_name_comma_witness :
  invert_name_comma (Some "Lovelace , Ada,King ")
  = Some (strip (strip (join " " (map strip [" Ada"; "King "]))
                 ++ " " ++ strip "Lovelace ")).
Proof.
  apply (proj2 (proj2 (proj2 invert_name_comma_spec)) "Lovelace " [" Ada"; "King "]).
  - discriminate.
  - repeat constructor.
Defined.

(** An absent name stays absent, and so does an empty one. *)
Lemma invert_name_comma_none :
  invert_name_comma None = None /\ invert_name_comma (Some "") = Some "".
Proof. split; reflexivity. Qed.

(** What the inversion makes of a padded name. *)
Lemma invert_name_comma_padded :
  invert_name_comma (Some "Lovelace , Ada,King ") = Some "Ada King Lovelace".
Proof. reflexivity. Qed.

(** Splitting on the first comma only would keep the second comma. *)
Lemma invert_on_first_comma_differs :
  invert_on_first_comma "Doe, Jane, Q." = "Jane, Q. Doe"
  /\ invert_name_comma (Some "Doe, Jane, Q.")
     <> Some (invert_on_first_comma "Doe, Jane, Q.").
Proof. split; [reflexivity | discriminate]. Qed.

(** ** C7: the page suffix *)

Lemma ensure_pages_suffix_fixed (v : string) :
  contains "pages" (lower v) = true ->
  ensure_pages_suffix (Some v) = Some v.
Proof.
  intros H. unfold ensure_pages_suffix.
  destruct (truthy (Some v)); cbn [negb]; [now rewrite H | reflexivity].
Qed.

Lemma ensure_pages_suffix_appends (v : string) :
  v <> EmptyString -> contains "pages" (lower v) = false ->
  ensure_pages_suffix (Some v) = Some (strip v ++ " pages").
Proof.
  intros Hv H. unfold ensure_pages_suffix.
  destruct v as [|c s]; [congruence|]. cbn [truthy negb]. now rewrite H.
Qed.

Lemma suffixed_has_pages (a : string) :
  contains "pages" (lower (a ++ " pages")) = true.
Proof.
  unfold lower.
  destruct (map_case_app lower_ascii lower_special eq_refl " " "pages" a eq_refl
              0%nat eq_refl) as [y ->].
  now apply contains_app_r.
Qed.

(** The claim fails at the empty value, in which "pages" does not
    appear: it is returned as it is, with no suffix. *)
Lemma empty_value_gets_no_suffix :
  contains "pages" (lower "") = false
  /\ ensure_pages_suffix (Some "") = Some ""
  /\ ensure_pages_suffix (Some "") <> Some ("" ++ " pages").
Proof. repeat split. discriminate. Qed.

(** Nor is the suffix appended to the value as it stands: the value is
    trimmed first, of any white space Python knows. *)
Lemma padded_value_is_trimmed :
  ensure_pages_suffix (Some " 120 ") = Some "120 pages"
  /\ ensure_pages_suffix (Some ("120" ++ bytes [194; 160])) = Some "120 pages".
Proof. split; reflexivity. Qed.

(** C7, amended. A value in which "pages" already appears (whatever the
    case) is returned unchanged; any other value that is not empty is
    trimmed and gets " pages" appended ("120" becomes "120 pages"); the
    empty value and an absent value are returned as they are; applying
    the rule twice equals applying it once. *)
Theorem ensure_pages_suffix_idempotent :
  (forall v : string,
      contains "pages" (lower v) = true -> ensure_pages_suffix (Some v) = Some v)
  /\ (forall v : string,
        v <> EmptyString -> contains "pages" (lower v) = false ->
        ensure_pages_suffix (Some v) = Some (strip v ++ " pages"))
  /\ ensure_pages_suffix (Some "") = Some ""
  /\ ensure_pages_suffix None = None
  /\ ensure_pages_suffix (Some "120") = Some "120 pages"
  /\ ensure_pages_suffix (Some "120 pages") = Some "120 pages"
  /\ (forall val : option string,
        ensure_pages_suffix (ensure_pages_suffix val) = ensure_pages_suffix val).
Proof.
  split; [exact ensure_pages_suffix_fixed|].
  split; [exact ensure_pages_suffix_appends|].
  do 4 (split; [reflexivity|]).
  intros [v|]; [|reflexivity].
  destruct v as [|c s]; [reflexivity|].
  destruct (contains "pages" (lower (String c s))) eqn:H.
  - now rewrite !(ensure_pages_suffix_fixed _ H).
  - rewrite (ensure_pages_suffix_appends (String c s)) by congruence.
    apply ensure_pages_suffix_fixed, suffixed_has_pages.
Qed.

Lemma ensure_pages_suffix_witness :
  " 120 p." <> EmptyString
  /\ contains "pages" (lower " 120 p.") = false
  /\ ensure_pages_suffix (Some " 120 p.") = Some "120 p. pages".
Proof.
  split; [discriminate|]. split; [reflexivity|].
  apply (proj1 (proj2 ensure_pages_suffix_idempotent)); [discriminate | reflexivity].
Defined.

(** ** The two toggles as booleans *)

(** Python's [and] and [or] on the two sides of a toggle. *)
Lemma effective_toggles (cli_check cli_skip : bool) (g : GeneralCfg) :
  effective_check_xsd cli_check g = cli_check && g_check_xsd g
  /\ effective_skip_sru_check cli_skip g = cli_skip || g_skip_sru_check g.
Proof.
  unfold effective_check_xsd, effective_skip_sru_check, py_and, py_or.
  destruct cli_check, cli_skip, (g_check_xsd g), (g_skip_sru_check g);
    split; reflexivity.
Qed.

(** ** C8: the abstract note *)

Section AbstractNote.

Lemma strip_empty_of_empty (k : string) :
  truthy (Some (strip k)) = true -> truthy (Some k) = true.
Proof. destruct k; [discriminate | reflexivity]. Qed.

(** Dropping the empties before or after trimming is the same. *)
Lemma keywords_of_trim_drop (vals : list string) :
  keywords_of vals = List.filter nonempty (map strip vals).
Proof.
  unfold keywords_of. induction vals as [|k vals IH]; [reflexivity|].
  cbn [List.filter map]. unfold nonempty at 1.
  destruct (truthy (Some (strip k))) eqn:Hk.
  - rewrite (strip_empty_of_empty _ Hk). cbn [andb map]. f_equal. exact IH.
  - rewrite andb_false_r. exact IH.
Qed.

(** The loop with its [seen] set is first-seen deduplication. *)
Lemma dedup_loop_first_seen (ks : list string) :
  forall (seen : gset string) (earlier acc : list string),
    (forall x, x ∈ seen <-> x ∈ earlier) ->
    dedup_loop ks seen acc = (acc ++ first_seen_from earlier ks)%list.
Proof.
  induction ks as [|k ks IH]; intros seen earlier acc Hseen; cbn.
  - now rewrite app_nil_r.
  - destruct (decide (k ∈ seen)) as [Hin|Hout];
      destruct (decide (k ∈ earlier)) as [Hin'|Hout'];
      try (exfalso; apply Hseen in Hin; contradiction);
      try (exfalso; apply Hseen in Hin'; contradiction).
    + apply IH. intros x. rewrite elem_of_cons, <- Hseen. set_solver.
    + rewrite (IH _ (k :: earlier)).
      * now rewrite <- app_assoc.
      * intros x. rewrite elem_of_cons, <- Hseen. set_solver.
Qed.

Lemma dedup_loop_spec (ks : list string) :
  dedup_loop ks ∅ [] = first_seen ks.
Proof.
  unfold first_seen. rewrite (dedup_loop_first_seen ks ∅ [] []); [reflexivity|].
  intros x. set_solver.
Qed.

Lemma first_seen_from_elem (l : list string) :
  forall earlier x,
    x ∈ first_seen_from earlier l <-> x ∈ l /\ x ∉ earlier.
Proof.
  induction l as [|k ks IH]; intros earlier x; cbn.
  - set_solver.
  - destruct (decide (k ∈ earlier)) as [Hin|Hout].
    + rewrite IH. set_solver.
    + rewrite !elem_of_cons, IH. 
      destruct (decide (x = k)) as [->|Hne]; set_solver.
Qed.

Lemma first_seen_from_NoDup (l : list string) :
  forall earlier, NoDup (first_seen_from earlier l).
Proof.
  induction l as [|k ks IH]; intros earlier; cbn.
  - constructor.
  - destruct (decide (k ∈ earlier)); [apply IH|].
    constructor; [|apply IH].
    rewrite first_seen_from_elem. set_solver.
Qed.

(** First-seen order, read from the end of the input: a value that
    closes the list is kept exactly when it has not occurred before. *)
Lemma first_seen_from_snoc (l : list string) :
  forall earlier x,
    first_seen_from earlier (l ++ [x])
    = if decide (x ∈ (earlier ++ l)%list)
      then first_seen_from earlier l
      else (first_seen_from earlier l ++ [x])%list.
Proof.
  induction l as [|k ks IH]; intros earlier x; cbn.
  - rewrite app_nil_r.
    destruct (decide (x ∈ earlier)); reflexivity.
  - rewrite IH.
    destruct (decide (x ∈ ((k :: earlier) ++ ks)%list)) as [H1|H1];
      destruct (decide (x ∈ (earlier ++ k :: ks)%list)) as [H2|H2];
      try (exfalso; set_solver);
      destruct (decide (k ∈ earlier)); reflexivity.
Qed.

End AbstractNote.

Lemma fget_all_collects (src : MarcRecord) (t c v : string) :
  In v (fget_all src t c)
  <-> exists f, In f (fields src) /\ field_tag f = t
                /\ In (mkSubfield c v) (field_subfields f).
Proof.
  unfold fget_all, get_fields, get_subfields. rewrite in_concat. split.
  - intros (vs & Hvs & Hv). apply in_map_iff in Hvs as (f & <- & Hf).
    apply filter_In in Hf as [Hf Ht]. apply String.eqb_eq in Ht.
    apply in_map_iff in Hv as ([c' v'] & Hval & Hs).
    apply filter_In in Hs as [Hs Hc]. apply String.eqb_eq in Hc.
    cbn in Hval, Hc. subst. now exists f.
  - intros (f & Hf & Ht & Hs). eexists. split.
    + apply in_map_iff. exists f. split; [reflexivity|].
      apply filter_In. split; [exact Hf | now apply String.eqb_eq].
    + apply in_map_iff. exists (mkSubfield c v). split; [reflexivity|].
      apply filter_In. split; [exact Hs | now apply String.eqb_eq].
Qed.

Lemma nonempty_iff (s : string) : nonempty s = true <-> s <> EmptyString.
Proof. destruct s; cbn; split; congruence. Qed.

Lemma abstract_keywords_elem (src : MarcRecord) (k : string) :
  In k (abstract_keywords src)
  <-> exists v, In v (fget_all src "653" "a") /\ k = strip v /\ k <> EmptyString.
Proof.
  unfold abstract_keywords, first_seen.
  rewrite <- list_elem_of_In, first_seen_from_elem, list_elem_of_In, filter_In,
    in_map_iff, nonempty_iff.
  split.
  - intros [[(v & <- & Hv) Hne] _]. now exists v.
  - intros (v & Hv & -> & Hne). split; [|set_solver]. split; [now exists v | exact Hne].
Qed.

Lemma field_520_spec (src : MarcRecord) :
  field_520 src = DataField "520" blank blank (abstract_subfields (abstract_keywords src)).
Proof.
  unfold field_520, abstract_keywords, abstract_subfields.
  rewrite keywords_of_trim_drop, dedup_loop_spec.
  now destruct (first_seen _).
Qed.

(** C8. The abstract note collects every 653 $a value of every 653
    field, trims them (of the white space Python knows, inside ASCII and
    outside), drops the empty ones, keeps each keyword once (case
    matters) in first-seen order, joins them with "; " and replaces "||"
    by "; " in the joined text, where no "||" is left afterwards; the
    label and the keywords are emitted exactly when a keyword is left,
    and the institutional-code subfield is always there. *)
Theorem abstract_note_built (src : MarcRecord) :
  let vals := fget_all src "653" "a" in
  let kws := abstract_keywords src in
  (forall v, In v vals
             <-> exists f, In f (fields src) /\ field_tag f = "653"
                           /\ In (mkSubfield "a" v) (field_subfields f))
  /\ (forall k, In k kws
                <-> exists v, In v vals /\ k = strip v /\ k <> EmptyString)
  /\ (forall k, In k kws -> strip k = k)
  /\ strip (bytes [194; 160] ++ " ai" ++ bytes [9; 226; 128; 137]) = "ai"
  /\ NoDup kws
  /\ (forall (l : list string) (x : string),
        first_seen (l ++ [x])
        = if decide (x ∈ l) then first_seen l else (first_seen l ++ [x])%list)
  /\ first_seen ["ai"; "AI"; "ai"] = ["ai"; "AI"]
  /\ field_520 src = DataField "520" blank blank (abstract_subfields kws)
  /\ In (mkSubfield "5" "CH-ZuSLS EPFL") (field_subfields (field_520 src))
  /\ (forall v, In (mkSubfield "a" v) (field_subfields (field_520 src))
                <-> kws <> []
                    /\ v = label_520 ++ replace "||" "; " (join "; " kws))
  /\ contains "||" (replace "||" "; " (join "; " kws)) = false.
Proof.
  intros vals kws.
  split; [intros v; apply fget_all_collects|].
  split; [intros k; apply abstract_keywords_elem|].
  split.
  { intros k Hk. apply abstract_keywords_elem in Hk as (v & _ & -> & _).
    apply strip_idempotent. }
  split; [reflexivity|].
  split; [apply first_seen_from_NoDup|].
  split; [intros l x; apply (first_seen_from_snoc l [] x)|].
  split; [reflexivity|].
  split; [apply field_520_spec|].
  refine ((fun H => conj (proj1 H)
                      (conj (proj2 H) (replace_leaves_no_pipes _))) _).
  rewrite field_520_spec. fold kws. unfold abstract_subfields. cbn [field_subfields].
  destruct kws as [|k ks] eqn:Hk.
  - split; [left; reflexivity|]. intros v. cbn. split.
    + intros [H|[]]. discriminate.
    + intros [H _]. congruence.
  - split; [right; left; reflexivity|]. intros v. cbn [app In]. split.
    + intros [H|[H|[]]]; [|discriminate]. split; [discriminate | congruence].
    + intros [_ ->]. now left.
Qed.

Lemma abstract_note_witness :
  field_520 record_padded_keywords
  = DataField "520" " " " "
      [mkSubfield "a" "Mots-clés de l'auteur : ai; AI";
       mkSubfield "5" "CH-ZuSLS EPFL"].
Proof.
  exact (proj1 (proj2 (proj2 (proj2 (proj2 (proj2 (proj2 (proj2
           (abstract_note_built record_padded_keywords))))))))).
Defined.

(** The same note for keywords padded with blanks only. *)
Lemma abstract_note_ascii :
  field_520 record_ai
  = DataField "520" " " " "
      [mkSubfield "a" "Mots-clés de l'auteur : ai; AI";
       mkSubfield "5" "CH-ZuSLS EPFL"].
Proof. reflexivity. Qed.

(** ** C3: the field mapper and the missing identifier *)

Section FieldMapper.

Lemma has_field_record_get (r : MarcRecord) (t : string) :
  has_field r t = true -> exists f, record_get r t = Some f.
Proof.
  unfold has_field, record_get, get_fields.
  induction (fields r) as [|f fs IH]; cbn; [discriminate|].
  destruct (String.eqb (field_tag f) t); cbn; [now exists f | exact IH].
Qed.

(** The subscript succeeds whenever the tag is there, and in the old
    lookup mode always. *)
Lemma record_getitem_ok (lm : LookupMode) (r : MarcRecord) (t : string) :
  lm = ReturnsNone \/ has_field r t = true ->
  record_getitem lm r t = Ok (record_get r t).
Proof.
  unfold record_getitem. intros [->|H].
  - now destruct (record_get r t).
  - apply has_field_record_get in H as [f ->]. reflexivity.
Qed.

Lemma field_contains_get (f : Field) (c : string) :
  field_contains f c = true -> exists v, field_get f c = Some v.
Proof.
  unfold field_contains, field_get, get_subfields.
  induction (field_subfields f) as [|s ss IH]; cbn; [discriminate|].
  destruct (String.eqb (code s) c); cbn; [now exists (value s) | exact IH].
Qed.

Lemma cand_720_has_a (src : MarcRecord) (f : Field) :
  cand_720_of src = Some f -> field_contains f "a" = true.
Proof.
  unfold cand_720_of.
  destruct (List.find _ _) as [g|] eqn:H1.
  - intros [= <-]. apply find_some in H1 as [_ H1].
    now apply andb_true_iff in H1 as [_ H1].
  - intros H2. now apply find_some in H2 as [_ H2].
Qed.

(** The relator-only field is the fallback; subscripting never fails. *)
Lemma field_700_ok (src : MarcRecord) :
  field_700 src
  = Ok (DataField "700" "1" blank
          (match director_of src with
           | Some a => [mkSubfield "a" a]
           | None => []
           end ++ [mkSubfield "4" "dgs"])%list).
Proof.
  unfold field_700, director_of, field_getitem.
  destruct (cand_720_of src) as [f|] eqn:Hc; [|reflexivity].
  destruct (field_contains_get f "a" (cand_720_has_a src f Hc)) as [v ->].
  reflexivity.
Qed.

Lemma truthy_expand_epfl (v : option string) :
  truthy (expand_epfl v) = truthy v.
Proof.
  unfold expand_epfl. destruct v as [[|c s]|]; cbn [truthy negb]; try reflexivity.
  now destruct (String.eqb _ _).
Qed.

Lemma tags_field_001 (cf : option string) :
  map field_tag (field_001 cf) = if truthy cf then ["001"] else [].
Proof. unfold field_001. now destruct (truthy cf). Qed.

Lemma tags_field_245 (a b c : option string) :
  map field_tag (field_245 a b c)
  = if truthy a || truthy b || truthy c then ["245"] else [].
Proof.
  unfold field_245, present_subfields. cbn [flat_map fst snd].
  now destruct (truthy a), (truthy b), (truthy c).
Qed.

Lemma tags_field_264 (a b c : option string) :
  map field_tag (field_264 a b c)
  = if truthy a || truthy b || truthy c then ["264"] else [].
Proof.
  unfold field_264, present_subfields. cbn [flat_map fst snd].
  now destruct (truthy a), (truthy b), (truthy c).
Qed.

Lemma tags_field_502 (a b c d e : option string) :
  map field_tag (field_502 a b c d e)
  = if truthy a || truthy b || truthy c || truthy d || truthy e
    then ["502"] else [].
Proof.
  unfold field_502.
  now destruct (truthy a), (truthy b), (truthy c), (truthy d), (truthy e).
Qed.

Lemma filter_skeleton (b1 b2 b3 b4 : bool) :
  List.filter
    (fun t => if String.eqb t "001" then b1
              else if String.eqb t "245" then b2
              else if String.eqb t "264" then b3
              else if String.eqb t "502" then b4
              else true)
    skeleton_tags
  = ((if b1 then ["001"] else []) ++ ["008"; "040"; "100"]
     ++ (if b2 then ["245"] else []) ++ (if b3 then ["264"] else [])
     ++ ["300"; "336"; "337"; "338"] ++ (if b4 then ["502"] else [])
     ++ ["520"; "655"; "655"; "655"; "700"])%list.
Proof. now destruct b1, b2, b3, b4. Qed.

Lemma field_100_shape (author : option string) :
  field_100 author
  = DataField "100" "1" blank
      (present_subfields [("a", author)] ++ [mkSubfield "4" "aut"])%list.
Proof. unfold field_100, present_subfields. cbn. now destruct (truthy author). Qed.

End FieldMapper.

(** The target record the mapper builds, written field by field. *)
Lemma build_final_record_ok (lm : LookupMode) (src : MarcRecord) :
  lm = ReturnsNone \/ has_field src "001" = true ->
  build_final_record lm src
  = Ok (mkRecord leader_final
          (field_001 (cf001_of src)
           ++ [field_008; field_040; field_100 (author700a_of src)]
           ++ field_245 (fget src "245" "a") (fget src "245" "b")
                (invert_name_comma (author700a_of src))
           ++ field_264 (fget src "260" "a") (expand_epfl (fget src "260" "b"))
                (fget src "260" "c")
           ++ [field_300 (ensure_pages_suffix (fget src "300" "a"));
               field_336; field_337; field_338]
           ++ field_502 (fget src "336" "a") (fget src "260" "a")
                (fget src "260" "b") (fget src "920" "b") (fget src "088" "a")
           ++ [field_520 src; field_655_idref; field_655_gnd; field_655_sbt;
               DataField "700" "1" blank
                 (match director_of src with
                  | Some a => [mkSubfield "a" a]
                  | None => []
                  end ++ [mkSubfield "4" "dgs"])])%list).
Proof.
  intros H. unfold build_final_record.
  rewrite (record_getitem_ok lm src "001" H), field_700_ok. reflexivity.
Qed.

(** What the mapper returns when the subscript of 001 does not raise:
    the fixed leader and the static fields, the 300, 520, 100 and 700
    fields, and the tags of the skeleton without the optional fields
    that have no source data. *)
Lemma build_final_record_mapped (lm : LookupMode) (src : MarcRecord) :
  lm = ReturnsNone \/ has_field src "001" = true ->
  exists dst : MarcRecord,
    build_final_record lm src = Ok dst
    /\ leader dst = leader_final
    /\ (forall f, In f static_fields -> In f (fields dst))
    /\ In (DataField "300" blank blank
             (present_subfields [("a", ensure_pages_suffix (fget src "300" "a"))]
              ++ [mkSubfield "b" "illustrations"; mkSubfield "c" "28 cm"])%list)
         (fields dst)
    /\ In (DataField "520" blank blank (abstract_subfields (abstract_keywords src)))
         (fields dst)
    /\ In (DataField "100" "1" blank
             (present_subfields [("a", author700a_of src)]
              ++ [mkSubfield "4" "aut"])%list)
         (fields dst)
    /\ In (DataField "700" "1" blank
             (match director_of src with
              | Some a => [mkSubfield "a" a]
              | None => []
              end ++ [mkSubfield "4" "dgs"])%list)
         (fields dst)
    /\ map field_tag (fields dst) = List.filter (source_has src) skeleton_tags.
Proof.
  intros H. eexists. split; [apply (build_final_record_ok lm src H)|].
  cbn [leader fields]. split; [reflexivity|].
  split.
  { intros f Hf. rewrite !in_app_iff. cbn in Hf. cbn [In].
    repeat destruct Hf as [<-|Hf]; tauto. }
  split. { rewrite !in_app_iff. cbn [In]. unfold field_300. tauto. }
  split. { rewrite !in_app_iff, <- field_520_spec. cbn [In]. tauto. }
  split. { rewrite !in_app_iff, <- field_100_shape. cbn [In]. tauto. }
  split. { rewrite !in_app_iff. cbn [In]. tauto. }
  rewrite !map_app, tags_field_001, tags_field_245, tags_field_264,
    tags_field_502, truthy_expand_epfl.
  symmetry.
  apply (filter_skeleton (truthy (cf001_of src))
           (truthy (fget src "245" "a") || truthy (fget src "245" "b")
            || truthy (invert_name_comma (author700a_of src)))
           (truthy (fget src "260" "a") || truthy (fget src "260" "b")
            || truthy (fget src "260" "c"))
           (truthy (fget src "336" "a") || truthy (fget src "260" "a")
            || truthy (fget src "260" "b") || truthy (fget src "920" "b")
            || truthy (fget src "088" "a"))).
Qed.

Lemma record_get_absent (r : MarcRecord) (t : string) :
  has_field r t = false -> record_get r t = None.
Proof.
  unfold has_field, record_get, get_fields.
  induction (fields r) as [|f fs IH]; cbn; [reflexivity|].
  destruct (String.eqb (field_tag f) t); cbn; [discriminate | exact IH].
Qed.

(** The mapping of the sample thesis, field by field. *)
Lemma thesis_is_mapped :
  build_final_record RaisesKeyError record_thesis
  = Ok (mkRecord "00000nam a2200000 c 4500"
          [ControlField "001" "oai:infoscience.epfl.ch:3";
           ControlField "008" "||||||s2025    sz   a   m    00| | eng  ";
           DataField "040" " " " "
             [mkSubfield "a" "CH-ZuSLS EPFL"; mkSubfield "b" "fre";
              mkSubfield "e" "rda"];
           DataField "100" "1" " "
             [mkSubfield "a" "Doe, Jane"; mkSubfield "4" "aut"];
           DataField "245" "1" "0"
             [mkSubfield "a" "On call numbers"; mkSubfield "c" "Jane Doe"];
           DataField "264" " " "1"
             [mkSubfield "a" "Lausanne";
              mkSubfield "b" "Ecole Polytechnique Fédérale de Lausanne";
              mkSubfield "c" "2025"];
           DataField "300" " " " "
             [mkSubfield "b" "illustrations"; mkSubfield "c" "28 cm"];
           DataField "336" " " " "
             [mkSubfield "b" "txt"; mkSubfield "2" "rdacontent"];
           DataField "337" " " " "
             [mkSubfield "b" "n"; mkSubfield "2" "rdamedia"];
           DataField "338" " " " "
             [mkSubfield "b" "nc"; mkSubfield "2" "rdacarrier"];
           DataField "502" " " " " [mkSubfield "c" "EPFL Lausanne"];
           DataField "520" " " " " [mkSubfield "5" "CH-ZuSLS EPFL"];
           DataField "655" " " "7"
             [mkSubfield "a" "Thèses et écrits académiques";
              mkSubfield "0" "(IDREF)027253139"; mkSubfield "2" "idref"];
           DataField "655" " " "7"
             [mkSubfield "a" "Hochschulschrift"; mkSubfield "2" "gnd-content"];
           DataField "655" " " "7"
             [mkSubfield "a" "Tesi"; mkSubfield "2" "sbt12-content"];
           DataField "700" "1" " " [mkSubfield "4" "dgs"]]).
Proof. vm_compute. reflexivity. Qed.

(** C3. The mapper is not total: on a source record without its 001
    control field the subscript [src["001"]] raises [KeyError] before
    the test against [None] is reached, so the mapper raises instead of
    leaving the 001 out, and the run drops the record with an error log
    and no report row.  On every source record that carries a 001, also
    one without any contributor, title, publication or date field, it
    returns a target record with the fixed leader and the static fields
    (008, 040, the constants of 300, 336/337/338, the three 655, the $5
    of 520), with the entries 100 and 700 and their relator code, and
    with the tags of the full skeleton without exactly the optional
    fields (001, 245, 264, 502) whose source data is missing. *)
Theorem build_final_record_needs_001 (src : MarcRecord) :
  (has_field src "001" = false ->
   build_final_record RaisesKeyError src = Raise KeyError
   /\ forall (w : World) (st : Settings) (record_index : Z)
             (call_number_str : string),
        w_lookup w = RaisesKeyError ->
        process_record w st record_index call_number_str src
        = (None, [EvLog ERROR "Erreur lors de la construction du record"]))
  /\ (has_field src "001" = true ->
      exists dst : MarcRecord,
        build_final_record RaisesKeyError src = Ok dst
        /\ leader dst = leader_final
        /\ (forall f, In f static_fields -> In f (fields dst))
        /\ In (DataField "300" blank blank
                 (present_subfields [("a", ensure_pages_suffix (fget src "300" "a"))]
                  ++ [mkSubfield "b" "illustrations"; mkSubfield "c" "28 cm"])%list)
             (fields dst)
        /\ In (DataField "520" blank blank (abstract_subfields (abstract_keywords src)))
             (fields dst)
        /\ In (DataField "100" "1" blank
                 (present_subfields [("a", author700a_of src)]
                  ++ [mkSubfield "4" "aut"])%list)
             (fields dst)
        /\ In (DataField "700" "1" blank
                 (match director_of src with
                  | Some a => [mkSubfield "a" a]
                  | None => []
                  end ++ [mkSubfield "4" "dgs"])%list)
             (fields dst)
        /\ map field_tag (fields dst) = List.filter (source_has src) skeleton_tags).
Proof.
  split.
  - intros H.
    assert (Hraise : build_final_record RaisesKeyError src = Raise KeyError).
    { unfold build_final_record, record_getitem.
      now rewrite (record_get_absent src "001" H). }
    split; [exact Hraise|].
    intros w st record_index call_number_str Hw.
    unfold process_record. now rewrite Hw, Hraise.
  - intros H.
    exact (build_final_record_mapped RaisesKeyError src (or_intror H)).
Qed.

Lemma build_final_record_witness :
  has_field record_no_id "001" = false
  /\ build_final_record RaisesKeyError record_no_id = Raise KeyError.
Proof.
  split; [reflexivity|].
  exact (proj1 (proj1 (build_final_record_needs_001 record_no_id) eq_refl)).
Defined.

(** A record that has its identifier and nothing else is mapped. *)
Lemma bare_record_is_mapped :
  exists dst : MarcRecord,
    build_final_record RaisesKeyError record_bare = Ok dst
    /\ map field_tag (fields dst)
       = ["001"; "008"; "040"; "100"; "300"; "336"; "337"; "338";
          "520"; "655"; "655"; "655"; "700"].
Proof.
  destruct (build_final_record_mapped RaisesKeyError record_bare
              (or_intror eq_refl))
    as (dst & Hdst & _ & _ & _ & _ & _ & _ & Htags).
  exists dst. split; [exact Hdst | exact Htags].
Qed.

(** The test against [None] would have let the record through. *)
Lemma build_final_record_without_001 :
  build_final_record RaisesKeyError (mkRecord "" []) = Raise KeyError
  /\ raises (build_final_record ReturnsNone (mkRecord "" [])) = false.
Proof. split; reflexivity. Qed.

(** ** C4: an existing holding is reused *)

Lemma holding_matches_true (library_code location : string) (h : Holding) :
  holding_matches library_code location h = true
  <-> holding_error h = false
      /\ holding_library h = Some library_code
      /\ holding_location h = Some location
      /\ library_code <> EmptyString /\ location <> EmptyString.
Proof.
  unfold holding_matches. rewrite !andb_true_iff, negb_true_iff, !String.eqb_eq.
  destruct (holding_library h) as [[|c l]|], (holding_location h) as [[|d m]|];
    cbn; split; intros H; try (exfalso; intuition congruence).
  - destruct H as ((((He & _) & _) & <-) & <-). repeat split; congruence.
  - destruct H as (He & [= <-] & [= <-] & _ & _). repeat split; assumption.
Qed.

Lemma find_finds {A : Type} (p : A -> bool) (l : list A) (x : A) :
  In x l -> p x = true -> exists y, List.find p l = Some y.
Proof.
  intros Hin Hp. destruct (List.find p l) as [y|] eqn:Hf; [now exists y|].
  pose proof (find_none p l Hf x Hin). congruence.
Qed.


(** So does it for a holding that carries a wrapper error. *)
Lemma holding_in_error_is_not_reused :
  In (EvCreateHolding "E02XA")
    (snd (creer_holding (quiet_world []) (mkIzBib (Some "991000000000001"))
            [mkHolding "2211" true "HTTP 500" (Some "hph_bjnbecip") (Some "E02XA")]
            "hph_bjnbecip" "E02XA" "ZTK 101" None)).
Proof. cbn. auto. Qed.



(** Found or created, the caller gets a holding either way. *)
Lemma creer_holding_created :
  creer_holding (quiet_world []) (mkIzBib (Some "991000000000001"))
    [] "hph_bjnbecip" "E02XA" "ZTK 101" None
  = (Ok (Some (mkHolding "22E02XA" false "" (Some "hph_bjnbecip") (Some "E02XA"))),
     [mkHolding "22E02XA" false "" (Some "hph_bjnbecip") (Some "E02XA")],
     [EvGetHoldings "E02XA"; EvCreateHolding "E02XA";
      EvLog INFO "Holding créée avec succès"]).
Proof. reflexivity. Qed.

(** ** C9: a location without item codes *)

Lemma item_codes_unknown (loc : option string) :
  loc <> Some "E02SP" -> loc <> Some "E02XA" ->
  item_codes_of_location loc = None.
Proof.
  intros H1 H2. destruct loc as [l|]; [|reflexivity]. cbn.
  destruct (String.eqb_spec l "E02SP") as [->|_]; [congruence|].
  destruct (String.eqb_spec l "E02XA") as [->|_]; [congruence|reflexivity].
Qed.

(** The claim fails on the report: with the holding created at a location
    the item table does not know, no item is built or sent, the item
    routine logs at INFO level, and the run records the item as ERROR. *)
Lemma unhandled_location_reported_as_error :
  exists out : Outcome,
    main (quiet_world [record_thesis]) config_other_location
      false false 1 (-1) None None true 0 false
    = Completed out
    /\ item_outcomes (out_reports out)
       = [[("E02ZZ", Some "ERROR", Some "Item creation failed (see logs)")]]
    /\ In (EvLog INFO msg_location_not_handled) (out_events out)
    /\ In (EvLog ERROR "Création de l'item échouée") (out_events out)
    /\ (forall hid, ~ In (EvBuildItem hid) (out_events out)
                    /\ ~ In (EvCreateItem hid) (out_events out)).
Proof.
  eexists. split; [vm_compute; reflexivity|].
  split; [reflexivity|]. cbn.
  split; [tauto|]. split; [tauto|].
  intros hid. split; intros H; repeat destruct H as [H|H]; try discriminate; exact H.
Qed.

(** C9, amended. For a holding whose location is neither E02SP nor
    E02XA the item routine builds and creates nothing, logs it at INFO
    level and returns no item id; the loop over the locations, which only
    sees the missing id, records the location with its holding as
    created and its item as ERROR, and goes on with the next location. *)
Theorem unhandled_location_no_item (w : World) (st : Settings) (bib_obj : IzBib)
    (call_number_str loc : string) (rest : list string)
    (catalog catalog' : list Holding) (notice_report : NoticeReport)
    (holding : Holding) (hevs : list Event) :
  creer_holding w bib_obj catalog (hi_library_code (s_holding_info st)) loc
    call_number_str (s_holding_schema st)
  = (Ok (Some holding), catalog', hevs) ->
  holding_location holding <> Some "E02SP" ->
  holding_location holding <> Some "E02XA" ->
  creer_item_pour_une_holding w holding (ii_po_line (s_item_info st))
    (ii_department_code (s_item_info st))
    (ii_material_type_code (s_item_info st)) (s_item_schema st)
  = (Ok None, [EvLog INFO msg_location_not_handled])
  /\ holdings_loop w st bib_obj call_number_str (loc :: rest) catalog notice_report
     = (fst (holdings_loop w st bib_obj call_number_str rest catalog'
               (add_location notice_report
                  (mkLocationRow loc (Some (holding_id holding)) (Some "CREATED")
                     None None (Some "ERROR") (Some msg_item_failed)))),
        (hevs
         ++ [EvLog INFO msg_location_not_handled;
             EvLog ERROR "Création de l'item échouée"]
         ++ snd (holdings_loop w st bib_obj call_number_str rest catalog'
                   (add_location notice_report
                      (mkLocationRow loc (Some (holding_id holding))
                         (Some "CREATED") None None (Some "ERROR")
                         (Some msg_item_failed)))))%list).
Proof.
  intros Hh H1 H2.
  assert (Hitem :
    creer_item_pour_une_holding w holding (ii_po_line (s_item_info st))
      (ii_department_code (s_item_info st))
      (ii_material_type_code (s_item_info st)) (s_item_schema st)
    = (Ok None, [EvLog INFO msg_location_not_handled])).
  { unfold creer_item_pour_une_holding.
    now rewrite (item_codes_unknown _ H1 H2). }
  split; [exact Hitem|].
  cbn [holdings_loop]. rewrite Hh, Hitem. cbn [truthy app].
  now destruct (holdings_loop w st bib_obj call_number_str rest catalog' _).
Qed.

Lemma unhandled_location_witness :
  item_outcomes
    [fst (holdings_loop (quiet_world [])
            (plain_settings (holding_info config_other_location))
            (mkIzBib (Some "991000000000001")) "ZTK 101" ["E02ZZ"] []
            (mkNoticeReport 1 None None None (Some "ZTK 101") None None None None []))]
  = [[("E02ZZ", Some "ERROR", Some "Item creation failed (see logs)")]].
Proof.
  rewrite (proj2 (unhandled_location_no_item (quiet_world [])
             (plain_settings (holding_info config_other_location))
             (mkIzBib (Some "991000000000001")) "ZTK 101" "E02ZZ" [] []
             [mkHolding "22E02ZZ" false "" (Some "hph_bjnbecip") (Some "E02ZZ")]
             (mkNoticeReport 1 None None None (Some "ZTK 101") None None None None [])
             (mkHolding "22E02ZZ" false "" (Some "hph_bjnbecip") (Some "E02ZZ"))
             [EvGetHoldings "E02ZZ"; EvCreateHolding "E02ZZ";
              EvLog INFO "Holding créée avec succès"]
             eq_refl ltac:(discriminate) ltac:(discriminate))).
  reflexivity.
Defined.

(** ** C2: what a failing SRU query does to a record *)

(** Once a record is past the SRU check, its bib is prepared. *)
Lemma create_in_alma_attempts (w : World) (st : Settings) (record_index : Z)
    (call_number_str : string) (record : MarcRecord) (rep : NoticeReport) :
  exists row evs,
    create_in_alma w st record_index call_number_str record rep
    = (row, EvBuildBib record_index :: evs).
Proof.
  unfold create_in_alma.
  destruct (build_bib_with_record w record) as [[rec_el bib_el]|e];
    [|eauto].
  destruct (negb _); [eauto|].
  destruct (s_dry_run st); [eauto|].
  destruct (w_create_bib w bib_el) as [bib_obj|e]; [|eauto].
  destruct (holdings_loop _ _ _ _ _ _ _) as [rep' evs]. eauto.
Qed.

(** The claim fails when swisscovery cannot be reached: the record gets
    its call number, the query is sent, and the record is dropped with no
    report row and without its bib being prepared. *)
Lemma sru_failure_abandons_record :
  exists out : Outcome,
    main (world_sru_down [record_thesis]) default_config
      false false 1 (-1) None None true 0 false
    = Completed out
    /\ out_pulled out = 1
    /\ out_reports out = []
    /\ out_events out
       = [EvSruQuery "On call numbers" "Doe, Jane";
          EvLog ERROR "Erreur lors de la recherche SRU"]
    /\ ~ In (EvBuildBib 1) (out_events out).
Proof.
  eexists. split; [vm_compute; reflexivity|]. cbn.
  repeat split. intros [H|[H|[]]]; discriminate.
Qed.

(** C2, amended. For a record that was mapped and whose title and author
    were extracted, with the SRU check not skipped: an answer with an
    HTTP status other than 200, or an answer without record data or
    without a MARC record in it, counts as "not found" and the bib is
    prepared; a query that raises (no response, or a body that is not
    XML) makes the run drop the record, with no report row and without
    the bib being prepared. *)
Theorem dedup_failure_policy (w : World) (st : Settings) (record_index : Z)
    (call_number_str : string) (record current_record : MarcRecord)
    (info : MarcInfo) :
  build_final_record (w_lookup w) record = Ok current_record ->
  extract_marc_info (w_lookup w) current_record = Ok info ->
  s_skip_sru_check st = false ->
  let title := or_empty (info_title info) in
  let author := or_empty (info_author info) in
  let reply := w_sru w title author (s_institution_code st) in
  let run := process_record w st record_index call_number_str record in
  (forall status_code body,
      reply = SruResponse status_code body ->
      status_code <> 200%Z \/ body = BodyNoRecordData \/ body = BodyNoMarcRecord ->
      fetch_marc_record_from_sru w title author (s_institution_code st) = Ok false
      /\ exists evs, snd run = EvSruQuery title author :: EvBuildBib record_index :: evs)
  /\ (forall msg,
        reply = SruNoResponse msg \/ reply = SruResponse 200 (BodyMalformed msg) ->
        raises (fetch_marc_record_from_sru w title author (s_institution_code st))
        = true
        /\ run = (None, [EvSruQuery title author;
                         EvLog ERROR "Erreur lors de la recherche SRU"])).
Proof.
  intros Hbuild Hinfo Hskip title author reply run.
  subst run. unfold process_record. rewrite Hbuild, Hinfo, Hskip.
  fold title author. unfold fetch_marc_record_from_sru. fold reply.
  split.
  - intros status_code body -> Hcase.
    assert (Hnot :
      (if negb (status_code =? 200)%Z then Ok false
       else match body with
            | BodyMalformed msg => Raise (XMLSyntaxError msg)
            | BodyNoRecordData | BodyNoMarcRecord => Ok false
            | BodyMarcRecord => Ok true
            end) = Ok false).
    { destruct (Z.eqb_spec status_code 200) as [->|Hne]; cbn [negb]; [|reflexivity].
      destruct Hcase as [H|[->| ->]]; [congruence|reflexivity|reflexivity]. }
    rewrite Hnot. split; [reflexivity|].
    destruct (create_in_alma_attempts w st record_index call_number_str record
                (set_bib
                   (mkNoticeReport record_index (info_infoscience_id info)
                      (info_title info) (info_author info) (Some call_number_str)
                      None None None None [])
                   (Some false) None None None)) as (row & evs & ->).
    now exists evs.
  - intros msg [-> | ->]; split; reflexivity.
Qed.

Lemma dedup_failure_policy_witness :
  process_record (world_sru_down [record_thesis])
    (plain_settings (holding_info default_config)) 1 "ZTK 101" record_thesis
  = (None, [EvSruQuery "On call numbers" "Doe, Jane";
            EvLog ERROR "Erreur lors de la recherche SRU"]).
Proof.
  exact (proj2 (proj2 (dedup_failure_policy (world_sru_down [record_thesis])
                         (plain_settings (holding_info default_config))
                         1 "ZTK 101" record_thesis thesis_final thesis_info
                         eq_refl eq_refl eq_refl)
                  "Connection refused" (or_introl eq_refl))).
Defined.

(** ** C5: failures of the ingestion stream *)

(** Page-driven mode: the failure of a page ends the stream after the
    records of the pages before it, and nothing is raised. *)
Lemma page_failure_ends_stream (w : World) (start_spc_page spc_rpp : Z)
    (good : list (list MarcRecord)) (bad : FetchReply) (rest : list FetchReply) :
  w_export_pages w start_spc_page spc_rpp
  = (map FetchRecords good ++ bad :: rest)%list ->
  Forall (fun page => page <> []) good ->
  page_failed bad = true ->
  iter_infoscience_records w false start_spc_page spc_rpp
  = mkStream (concat good) None.
Proof.
  intros Hpages Hgood Hbad. unfold iter_infoscience_records. rewrite Hpages.
  f_equal. clear Hpages.
  induction Hgood as [|page good Hpage _ IH]; cbn.
  - unfold page_failed in Hbad. now destruct (fetch_and_parse bad).
  - destruct page as [|r page]; [congruence|]. cbn. now rewrite IH.
Qed.

Lemma dynamic_stream_never_raises (w : World) (start_spc_page spc_rpp : Z) :
  stream_raised (iter_infoscience_records w false start_spc_page spc_rpp) = None.
Proof. reflexivity. Qed.

(** C5. In the fixed-query mode the fetch is not guarded: when it fails
    the exception leaves the generator before any record is yielded, and
    leaves [main] with it; nothing is reported or persisted. *)
Theorem static_fetch_failure_escapes (w : World) (cfg : Config)
    (dry_run : bool) (spc_page spc_rpp : Z) (env institution_code : option string)
    (check_xsd : bool) (max_records : Z) (skip_sru_check : bool)
    (seed : Z) (error : option string) (e : exn) :
  w_analytics w = (Some seed, error) -> truthy error = false ->
  fetch_and_parse (w_static_export w) = Raise e ->
  iter_infoscience_records w true spc_page
    (effective_spc_rpp spc_rpp (infoscience_cfg cfg))
  = mkStream [] (Some e)
  /\ main w cfg dry_run true spc_page spc_rpp env institution_code check_xsd
       max_records skip_sru_check
     = Uncaught e.
Proof.
  intros Hseed Herr Hfetch.
  assert (Hs : iter_infoscience_records w true spc_page
                 (effective_spc_rpp spc_rpp (infoscience_cfg cfg))
               = mkStream [] (Some e)).
  { unfold iter_infoscience_records. now rewrite Hfetch. }
  split; [exact Hs|].
  unfold main. rewrite Hseed, Herr, Hs. reflexivity.
Qed.

Lemma static_fetch_failure_witness :
  main world_static_down default_config false true 1 (-1) None None true 0 false
  = Uncaught (RequestException "500 Server Error").
Proof.
  exact (proj2 (static_fetch_failure_escapes world_static_down default_config
                  false 1 (-1) None None true 0 false 100 None
                  (RequestException "500 Server Error")
                  eq_refl eq_refl eq_refl)).
Defined.

(** ** C1: the call number that is persisted *)

Section CallNumber.

Variables (w : World) (st : Settings) (max_records : Z).

Ltac counts :=
  repeat match goal with
         | |- context [(?a <? ?b)%Z] =>
             destruct (Z.ltb_spec a b); cbn [andb]; cbv beta iota
         end;
  repeat split; first [lia | reflexivity | exfalso; lia].

(** How far the counter and the number of pulled records move over the
    rest of the stream. *)
Lemma records_loop_counts (records : list MarcRecord) :
  forall s : LoopState,
    ls_broke s = false ->
    let n := Z.of_nat (length records) in
    let room := Z.max 0 (max_records - ls_record_index s) in
    let tripped := (0 <? max_records)%Z && (room <? n)%Z in
    let s' := records_loop w st max_records records s in
    ls_call_number_value s'
    = (ls_call_number_value s
       + (if (0 <? max_records)%Z then Z.min n room else n))%Z
    /\ Z.of_nat (ls_pulled s')
       = (Z.of_nat (ls_pulled s) + (if tripped then room + 1 else n))%Z
    /\ ls_broke s' = tripped.
Proof.
  induction records as [|record rest IH]; intros s Hs.
  - cbn [records_loop length]. cbv zeta. rewrite Hs. counts.
  - cbn [records_loop length].
    destruct ((0 <? max_records)%Z
              && (max_records <? ls_record_index s + 1)%Z) eqn:Hcap.
    + apply andb_true_iff in Hcap as [H0 H1].
      apply Z.ltb_lt in H0. apply Z.ltb_lt in H1.
      cbn [ls_call_number_value ls_pulled ls_broke]. cbv zeta. counts.
    + destruct (process_record w st (ls_record_index s + 1) _ record)
        as [row evs].
      match goal with
      | |- context [records_loop w st max_records rest ?s1] =>
          specialize (IH s1 eq_refl)
      end.
      cbn [ls_call_number_value ls_pulled ls_broke ls_record_index] in IH.
      cbv zeta in IH |- *. destruct IH as (IH1 & IH2 & IH3).
      rewrite IH1, IH2, IH3. clear IH1 IH2 IH3.
      apply andb_false_iff in Hcap.
      destruct Hcap as [Hcap|Hcap]; apply Z.ltb_ge in Hcap; counts.
Qed.

End CallNumber.

(** The claim fails under a cap: with two records in the stream and
    [max_records = 1] the loop takes both records from the generator, the
    second one only to find the cap reached, and persists seed + 1. *)
Lemma cap_pulls_one_more_than_it_numbers :
  exists out : Outcome,
    main (quiet_world [record_thesis; record_thesis]) default_config
      true false 1 (-1) None None true 1 false
    = Completed out
    /\ out_pulled out = 2
    /\ out_persisted out = Some 101%Z
    /\ out_persisted out <> Some (100 + Z.of_nat (out_pulled out))%Z.
Proof.
  eexists. split; [vm_compute; reflexivity|]. cbn.
  repeat split. discriminate.
Qed.

(** When the report cannot be written the exception leaves [main]
    before the last call number is saved. *)
Lemma unwritable_report_persists_nothing :
  main (world_report_unwritable [record_thesis]) default_config
    true false 1 (-1) None None true 0 false
  = Uncaught (OSError "[Errno 2] No such file or directory").
Proof. vm_compute. reflexivity. Qed.

(** C1, amended. A run that got its seed and whose stream does not raise
    ends, when its report can be written, with the counter at seed + the
    number of records that passed the cap check, whatever happened to
    them afterwards: every record of the stream without a cap, at most
    [max_records] of them with one.  That value is what is written to
    the file (when the file can be written).  The number of records
    taken from the stream is the same, plus one when the cap stopped the
    loop: the record whose arrival trips the cap is taken but gets no
    call number.  When writing the report raises, the run ends with that
    exception and saves nothing, unless there is no row to write. *)
Theorem call_number_persisted (w : World) (cfg : Config)
    (dry_run use_static_url : bool) (spc_page spc_rpp : Z)
    (env institution_code : option string) (check_xsd : bool)
    (max_records : Z) (skip_sru_check : bool)
    (seed : Z) (error : option string) :
  w_analytics w = (Some seed, error) -> truthy error = false ->
  let stream :=
    iter_infoscience_records w use_static_url spc_page
      (effective_spc_rpp spc_rpp (infoscience_cfg cfg)) in
  stream_raised stream = None ->
  let n := Z.of_nat (length (yielded stream)) in
  let numbered := if (0 <? max_records)%Z then Z.min n max_records else n in
  let tripped := (0 <? max_records)%Z && (max_records <? n)%Z in
  let run :=
    main w cfg dry_run use_static_url spc_page spc_rpp env institution_code
      check_xsd max_records skip_sru_check in
  let counted (out : Outcome) :=
    out_call_number_value out = (seed + numbered)%Z
    /\ out_persisted out
       = (if w_write_ok w then Some (seed + numbered)%Z else None)
    /\ Z.of_nat (out_pulled out)
       = (if tripped then numbered + 1 else numbered)%Z in
  (w_write_report w (report_filename w cfg) = None ->
   exists out : Outcome, run = Completed out /\ counted out)
  /\ (forall e : exn,
        w_write_report w (report_filename w cfg) = Some e ->
        run = Uncaught e
        \/ exists out : Outcome,
             run = Completed out /\ out_reports out = [] /\ counted out).
Proof.
  intros Hseed Herr stream Hraised n numbered tripped run counted.
  assert (Hcounts : forall out, run = Completed out -> counted out).
  { intros out Hrun. subst run counted. cbv beta.
    unfold main in Hrun. rewrite Hseed, Herr in Hrun. fold stream in Hrun.
    rewrite Hraised in Hrun.
    match type of Hrun with
    | context [records_loop w ?st max_records (yielded stream) ?s0] =>
        pose proof (records_loop_counts w st max_records (yielded stream) s0
                      eq_refl) as (H1 & H2 & _);
        destruct (ls_reports (records_loop w st max_records (yielded stream) s0));
        [|destruct (w_write_report w (report_filename w cfg));
          [discriminate|]]
    end;
      injection Hrun as <-;
      cbn [out_call_number_value out_persisted out_pulled];
      cbn [ls_call_number_value ls_pulled ls_record_index] in H1, H2;
      cbv zeta in H1, H2; fold n in H1, H2;
      rewrite H1, H2; subst numbered tripped;
      (assert (Hn : (0 <= n)%Z) by (subst n; lia));
      clearbody n; clear H1 H2;
      repeat match goal with
             | |- context [(?a <? ?b)%Z] =>
                 destruct (Z.ltb_spec a b); cbn [andb]; cbv beta iota
             end;
      repeat split; first [lia | f_equal; lia | idtac];
      destruct (w_write_ok w); first [reflexivity | f_equal; lia]. }
  assert (Hcases : (exists e, w_write_report w (report_filename w cfg) = Some e
                              /\ run = Uncaught e)
                   \/ exists out, run = Completed out
                                  /\ (w_write_report w (report_filename w cfg) = None
                                      \/ out_reports out = [])).
  { subst run. unfold main. rewrite Hseed, Herr. fold stream. rewrite Hraised.
    destruct (ls_reports _) as [|row rows] eqn:Hrows.
    - right. eexists. split; [reflexivity|]. right.
      cbn [out_reports]. first [reflexivity | exact Hrows].
    - destruct (w_write_report w (report_filename w cfg)) as [e|].
      + left. now exists e.
      + right. eexists. split; [reflexivity|]. now left. }
  split.
  - intros Hok. destruct Hcases as [(e & He & _)|(out & Hrun & _)]; [congruence|].
    exists out. split; [exact Hrun | exact (Hcounts out Hrun)].
  - intros e He. destruct Hcases as [(e' & He' & Hrun)|(out & Hrun & Hout)].
    + left. congruence.
    + right. exists out. destruct Hout as [Hnone|Hnil]; [congruence|].
      split; [exact Hrun|]. split; [exact Hnil | exact (Hcounts out Hrun)].
Qed.

Lemma call_number_persisted_witness :
  exists out : Outcome,
    main (quiet_world [record_thesis; record_thesis; record_thesis])
      default_config true false 1 (-1) None None true 2 false
    = Completed out
    /\ out_call_number_value out = 102%Z
    /\ out_persisted out = Some 102%Z
    /\ Z.of_nat (out_pulled out) = 3%Z.
Proof.
  exact (proj1 (call_number_persisted
                  (quiet_world [record_thesis; record_thesis; record_thesis])
                  default_config true false 1 (-1) None None true 2 false
                  100 None eq_refl eq_refl eq_refl) eq_refl).
Defined.

(* ===================================================================== *)
(** * Further properties of the script *)
(* ===================================================================== *)

(** ** The configuration file *)

Lemma reading_bind_inv {A B : Type} (m : Reading A) (k : A -> Reading B) (b : B) :
  m ≫= k = Read b -> exists a, m = Read a /\ k a = Read b.
Proof. destruct m as [a|n|n]; [|discriminate..]. intros H. now exists a. Qed.

Lemma parse_locations_trimmed (locs_raw : string) :
  Forall (fun l => l <> EmptyString /\ strip l = l) (parse_locations locs_raw).
Proof.
  unfold parse_locations. apply Forall_forall. intros l Hl.
  apply list_elem_of_In, in_map_iff in Hl as (x & <- & Hx).
  apply filter_In in Hx as [_ Hx].
  split; [|apply strip_idempotent].
  intros Heq. now rewrite Heq in Hx.
Qed.

(** Every configuration the loader returns names at least one location,
    and none of them is empty or padded with blanks; the purchase-order
    line is absent or a non-empty trimmed text.  This holds whatever the
    file says (a [locations] line with nothing but commas and blanks
    leaves the default locations in place). *)
Theorem load_config_locations (py_int : string -> option Z)
    (config_file : ConfigFile) (cfg : Config) :
  load_config py_int config_file = LoadedConfig cfg ->
  hi_locations (holding_info cfg) <> []
  /\ Forall (fun l => l <> EmptyString /\ strip l = l)
       (hi_locations (holding_info cfg))
  /\ match ii_po_line (item_info cfg) with
     | Some v => v <> EmptyString /\ strip v = v
     | None => True
     end.
Proof.
  assert (Hdef : Forall (fun l => l <> EmptyString /\ strip l = l)
                   (hi_locations (holding_info default_config))).
  { repeat constructor; discriminate. }
  destruct config_file as [| |msg|parser]; cbn [load_config];
    try (intros [= <-]; repeat split; [discriminate | exact Hdef]).
  cbv zeta. intros H.
  match type of H with
  | match ?loaded with _ => _ end = _ =>
      destruct loaded as [cfg'|n|n] eqn:Hloaded; try discriminate
  end.
  injection H as ->.
  apply reading_bind_inv in Hloaded as (g & _ & Hloaded).
  apply reading_bind_inv in Hloaded as (i & _ & Hloaded).
  apply reading_bind_inv in Hloaded as (x & _ & Hloaded).
  apply reading_bind_inv in Hloaded as (h & Hh & Hloaded).
  apply reading_bind_inv in Hloaded as (it & Hit & Hloaded).
  injection Hloaded as <-. cbn [holding_info item_info].
  unfold load_holding in Hh.
  apply reading_bind_inv in Hh as (lib & _ & Hh).
  apply reading_bind_inv in Hh as (locs & Hlocs & Hh).
  apply reading_bind_inv in Hh as (pre & _ & Hh).
  injection Hh as <-. cbn [hi_locations].
  unfold load_item in Hit.
  apply reading_bind_inv in Hit as (po & Hpo & Hit).
  apply reading_bind_inv in Hit as (dep & _ & Hit).
  apply reading_bind_inv in Hit as (mat & _ & Hit).
  injection Hit as <-. cbn [ii_po_line].
  split; [|split].
  - destruct (section_of parser "holding" !! "locations").
    + apply reading_bind_inv in Hlocs as (raw & _ & Hlocs).
      injection Hlocs as <-. destruct (parse_locations raw); discriminate.
    + injection Hlocs as <-. discriminate.
  - destruct (section_of parser "holding" !! "locations").
    + apply reading_bind_inv in Hlocs as (raw & _ & Hlocs).
      injection Hlocs as <-. pose proof (parse_locations_trimmed raw) as Hraw.
      destruct (parse_locations raw); [exact Hdef | exact Hraw].
    + injection Hlocs as <-. exact Hdef.
  - destruct (section_of parser "item" !! "po_line").
    + apply reading_bind_inv in Hpo as (v & _ & Hpo). injection Hpo as <-.
      pose proof (strip_idempotent v) as Hid.
      destruct (strip v) as [|c r]; cbn [truthy]; [exact I|].
      split; [discriminate | exact Hid].
    + injection Hpo as <-. exact I.
Qed.

Lemma load_config_locations_witness :
  hi_locations (holding_info sample_loaded_config) <> [].
Proof.
  exact (proj1 (load_config_locations int_of_decimal sample_config_file
                  sample_loaded_config eq_refl)).
Defined.


(** ** The date floor of the export query *)

Lemma years_checked :
  forallb (fun y => format_0d_checked 4 (Z.of_nat y)) (seq 0 (Z.to_nat 10000)) = true.
Proof. vm_compute. reflexivity. Qed.

Lemma months_checked :
  forallb (fun m => format_0d_checked 2 (Z.of_nat m)) (seq 0 (Z.to_nat 13)) = true.
Proof. vm_compute. reflexivity. Qed.
Lemma format_0d_4 (y : Z) :
  (0 <= y <= 9999)%Z ->
  String.length (format_0d 4 y) = 4
  /\ isdigit (format_0d 4 y) = true
  /\ int_of_digits 0 (format_0d 4 y) = Some y.
Proof.
  intros Hy. pose proof years_checked as H. rewrite forallb_forall in H.
  specialize (H (Z.to_nat y) ltac:(apply in_seq; lia)).
  rewrite Z2Nat.id in H by lia. unfold format_0d_checked in H.
  apply andb_true_iff in H as [H H3]. apply andb_true_iff in H as [H1 H2].
  apply Nat.eqb_eq in H1.
  destruct (int_of_digits 0 (format_0d 4 y)) as [v|]; [|discriminate].
  apply Z.eqb_eq in H3. now subst v.
Qed.

Lemma format_0d_2 (m : Z) :
  (0 <= m <= 12)%Z ->
  String.length (format_0d 2 m) = 2
  /\ isdigit (format_0d 2 m) = true
  /\ int_of_digits 0 (format_0d 2 m) = Some m.
Proof.
  intros Hm. pose proof months_checked as H. rewrite forallb_forall in H.
  specialize (H (Z.to_nat m) ltac:(apply in_seq; lia)).
  rewrite Z2Nat.id in H by lia. unfold format_0d_checked in H.
  apply andb_true_iff in H as [H H3]. apply andb_true_iff in H as [H1 H2].
  apply Nat.eqb_eq in H1.
  destruct (int_of_digits 0 (format_0d 2 m)) as [v|]; [|discriminate].
  apply Z.eqb_eq in H3. now subst v.
Qed.

(** A date written as four digits, two digits and "01" reads back. *)
Lemma parse_iso_date_first_day (Y M : string) (y m : Z) :
  String.length Y = 4 -> String.length M = 2 ->
  isdigit Y = true -> isdigit M = true ->
  int_of_digits 0 Y = Some y -> int_of_digits 0 M = Some m ->
  parse_iso_date (Y ++ "-" ++ M ++ "-01") = Some (y, m, 1%Z).
Proof.
  intros HlY HlM HdY HdM HY HM.
  destruct Y as [|a [|b [|c [|d [|e Y]]]]]; try discriminate.
  destruct M as [|f [|g [|h M]]]; try discriminate.
  set (YY := String a (String b (String c (String d "")))) in *.
  set (MM := String f (String g "")) in *.
  set (s := YY ++ "-" ++ MM ++ "-01").
  assert (H1 : String.substring 0 4 s = YY) by reflexivity.
  assert (H2 : String.substring 5 2 s = MM) by reflexivity.
  assert (H3 : String.substring 8 2 s = "01") by reflexivity.
  assert (H4 : String.substring 4 1 s = "-") by reflexivity.
  assert (H5 : String.substring 7 1 s = "-") by reflexivity.
  assert (H6 : String.length s = 10) by reflexivity.
  cbv beta zeta delta [parse_iso_date].
  rewrite H1, H2, H3, H4, H5, H6, HdY, HdM, HY, HM. reflexivity.
Qed.

(** For every date of the calendar (years 1 to 9999) the date floor is a
    ten-character YYYY-MM-DD text that reads back as the first day of the
    month just before the reference month, January going back to
    December of the year before. *)
Theorem first_day_previous_month_spec (today : date) (ref : option date) :
  let d := match ref with Some r => r | None => today end in
  (1 <= d_year d <= 9999)%Z -> (1 <= d_month d <= 12)%Z ->
  exists y m : Z,
    parse_iso_date (first_day_previous_month today ref) = Some (y, m, 1%Z)
    /\ (1 <= m <= 12)%Z
    /\ (12 * y + m = 12 * d_year d + d_month d - 1)%Z.
Proof.
  intros d Hy Hm. unfold first_day_previous_month. fold d.
  destruct (Z.eqb_spec (d_month d) 1) as [H1|H1].
  - exists (d_year d - 1)%Z, 12%Z. split; [|lia].
    destruct (format_0d_4 (d_year d - 1)) as (L4 & D4 & I4); [lia|].
    destruct (format_0d_2 12) as (L2 & D2 & I2); [lia|].
    now apply parse_iso_date_first_day.
  - exists (d_year d), (d_month d - 1)%Z. split; [|lia].
    destruct (format_0d_4 (d_year d)) as (L4 & D4 & I4); [lia|].
    destruct (format_0d_2 (d_month d - 1)) as (L2 & D2 & I2); [lia|].
    now apply parse_iso_date_first_day.
Qed.

Lemma first_day_previous_month_witness :
  exists y m : Z,
    parse_iso_date (first_day_previous_month (mkDate 2026 1 15) None)
    = Some (y, m, 1%Z)
    /\ (1 <= m <= 12)%Z
    /\ (12 * y + m = 12 * 2026 + 1 - 1)%Z.
Proof.
  apply (first_day_previous_month_spec (mkDate 2026 1 15) None); cbn; lia.
Defined.

(** ** The seed of the call numbers *)

Lemma int_of_digits_nonneg (s : string) :
  forall acc v, (0 <= acc)%Z -> int_of_digits acc s = Some v -> (0 <= v)%Z.
Proof.
  induction s as [|c s IH]; intros acc v Hacc; cbn.
  - now intros [= <-].
  - unfold digit_value.
    destruct ((48 <=? nat_of_ascii c)%nat && (nat_of_ascii c <=? 57)%nat);
      [|discriminate].
    apply IH. lia.
Qed.

(** The two kinds of answers of the Analytics helper. *)
Lemma analytics_result_cases (config : DotEnv) (reply : AnalyticsReply) :
  let result := get_last_call_number_from_analytics config reply in
  (exists v, result = (Some v, None) /\ (0 <= v)%Z)
  \/ (fst result = None /\ truthy (snd result) = true).
Proof.
  unfold get_last_call_number_from_analytics.
  destruct (negb (truthy (env_ALMA_API_URL config))
            || negb (truthy (env_ALMA_API_ANALYTICS_PATH config))
            || negb (truthy (env_ALMA_API_KEY config))); [right; now split|].
  destruct reply as [msg|status_code body]; [right; now split|].
  destruct (negb (status_code =? 200)%Z); [right; now split|].
  destruct body as [msg| |[[text|]|]]; try (right; now split).
  destruct (isdigit (strip text)); [|right; now split].
  destruct (int_of_digits 0 (strip text)) as [value|] eqn:Hv; [|right; now split].
  left. exists value. split; [reflexivity|].
  now apply (int_of_digits_nonneg (strip text) 0 value).
Qed.

(** The Analytics helper answers with a value or with an error, never
    with both and never with neither: a value comes with no error and is
    not negative; otherwise there is no value and the error text is not
    empty. *)
Theorem analytics_value_xor_error (config : DotEnv) (reply : AnalyticsReply) :
  let result := get_last_call_number_from_analytics config reply in
  (exists v, result = (Some v, None) /\ (0 <= v)%Z)
  \/ (fst result = None /\ truthy (snd result) = true).
Proof. exact (analytics_result_cases config reply). Qed.

(** The run stops before anything is fetched exactly when the helper
    gave no value; it then exits with code 1, and with no other code in
    any case. *)
Theorem main_aborts_without_seed (w : World) (cfg : Config)
    (dry_run use_static_url : bool) (spc_page spc_rpp : Z)
    (env institution_code : option string) (check_xsd : bool)
    (max_records : Z) (skip_sru_check : bool)
    (config : DotEnv) (reply : AnalyticsReply) :
  w_analytics w = get_last_call_number_from_analytics config reply ->
  let run := main w cfg dry_run use_static_url spc_page spc_rpp env
               institution_code check_xsd max_records skip_sru_check in
  (run = SystemExit 1 <-> fst (w_analytics w) = None)
  /\ (forall exit_code, run = SystemExit exit_code -> exit_code = 1%Z).
Proof.
  intros Hw run. subst run. unfold main.
  destruct (analytics_result_cases config reply) as [(v & Hv & _)|[Hnone Herr]];
    rewrite <- Hw in *.
  - rewrite Hv. cbn [truthy fst].
    split; [split; intros H; exfalso|intros exit_code H; exfalso];
      repeat match type of H with
             | context [match ?x with _ => _ end] => destruct x
             end; discriminate.
  - destruct (w_analytics w) as [value error]. cbn in Hnone, Herr. subst value.
    split; [split; reflexivity | now intros exit_code [= <-]].
Qed.

Lemma main_aborts_without_seed_witness :
  main (world_no_seed [record_thesis]) default_config false false 1 (-1)
    None None true 0 false
  = SystemExit 1.
Proof.
  apply (proj1 (main_aborts_without_seed (world_no_seed [record_thesis])
                  default_config false false 1 (-1) None None true 0 false
                  (mkDotEnv (Some "https://api.example.org") (Some "/analytics")
                     (Some "key"))
                  (AnalyticsResponse 503 AnalyticsNoRow) eq_refl)).
  reflexivity.
Defined.


(** ** What is extracted from a mapped record *)

Section Extraction.

Lemma filter_tag_absent (l : list Field) (t : string) :
  ~ In t (map field_tag l) ->
  List.filter (fun f => String.eqb (field_tag f) t) l = [].
Proof.
  induction l as [|f l IH]; [reflexivity|]. cbn. intros H.
  destruct (String.eqb_spec (field_tag f) t) as [Heq|_]; [tauto|].
  apply IH. tauto.
Qed.

Lemma field_001_other (cf : option string) (t : string) :
  t <> "001" ->
  List.filter (fun f => String.eqb (field_tag f) t) (field_001 cf) = [].
Proof.
  intros Ht. apply filter_tag_absent. rewrite tags_field_001.
  destruct (truthy cf); cbn; intuition congruence.
Qed.

Lemma field_264_other (a b c : option string) (t : string) :
  t <> "264" ->
  List.filter (fun f => String.eqb (field_tag f) t) (field_264 a b c) = [].
Proof.
  intros Ht. apply filter_tag_absent. rewrite tags_field_264.
  destruct (_ || _); cbn; intuition congruence.
Qed.

Lemma field_502_other (a b c d e : option string) (t : string) :
  t <> "502" ->
  List.filter (fun f => String.eqb (field_tag f) t) (field_502 a b c d e) = [].
Proof.
  intros Ht. apply filter_tag_absent. rewrite tags_field_502.
  destruct (_ || _); cbn; intuition congruence.
Qed.

Lemma field_245_other (a b c : option string) (t : string) :
  t <> "245" ->
  List.filter (fun f => String.eqb (field_tag f) t) (field_245 a b c) = [].
Proof.
  intros Ht. apply filter_tag_absent. rewrite tags_field_245.
  destruct (_ || _); cbn; intuition congruence.
Qed.

(** The three subfields of a title statement, read back. *)
Lemma field_245_read (a b c : option string) :
  match field_245 a b c with
  | [] => truthy a = false /\ truthy b = false /\ truthy c = false
  | f :: _ =>
      field_tag f = "245"
      /\ field_get f "a" = nonempty_value a
      /\ field_get f "b" = nonempty_value b
      /\ field_get f "c" = nonempty_value c
  end.
Proof.
  unfold field_245, present_subfields, nonempty_value. cbn [flat_map fst snd].
  destruct (truthy a), (truthy b), (truthy c); cbn; auto.
Qed.

Lemma field_100_read (author : option string) :
  field_get (field_100 author) "a" = nonempty_value author.
Proof. unfold field_100, nonempty_value. now destruct (truthy author). Qed.

End Extraction.

(** The values the run looks up in swisscovery and reports come from
    the source record: for a source record with a non-empty identifier
    the mapped record gives back that identifier, the title made of 245
    $a and $b, the first 700 $a as it stands for the author, and its
    inverted form for the responsibility. *)
Theorem extract_of_final_record (lm : LookupMode) (src : MarcRecord) :
  truthy (cf001_of src) = true ->
  exists dst : MarcRecord,
    build_final_record lm src = Ok dst
    /\ extract_marc_info lm dst
       = Ok (mkInfo (cf001_of src) (source_title src)
               (nonempty_value (author700a_of src))
               (nonempty_value (invert_name_comma (author700a_of src)))).
Proof.
  intros Hcf.
  assert (H001 : has_field src "001" = true).
  { unfold cf001_of, record_get, get_fields in Hcf. unfold has_field.
    induction (fields src) as [|f fs IH]; [discriminate|]. cbn in Hcf |- *.
    destruct (String.eqb (field_tag f) "001"); [reflexivity | now apply IH]. }
  eexists. split; [apply (build_final_record_ok lm src (or_intror H001))|].
  unfold extract_marc_info, record_getitem, record_get, get_fields.
  cbn [fields].
  rewrite !List.filter_app.
  pose proof (field_245_read (fget src "245" "a") (fget src "245" "b")
                (invert_name_comma (author700a_of src))) as H245.
  rewrite (field_001_other _ "245"), (field_001_other _ "100") by discriminate.
  rewrite (field_264_other _ _ _ "245"), (field_264_other _ _ _ "100"),
    (field_264_other _ _ _ "001") by discriminate.
  rewrite (field_502_other _ _ _ _ _ "245"), (field_502_other _ _ _ _ _ "100"),
    (field_502_other _ _ _ _ _ "001") by discriminate.
  rewrite (field_245_other _ _ _ "100"), (field_245_other _ _ _ "001")
    by discriminate.
  unfold field_001 at 1. rewrite Hcf.
  assert (Hdata : Some (or_empty (cf001_of src)) = cf001_of src).
  { destruct (cf001_of src) as [s|]; [reflexivity | discriminate]. }
  assert (H100 : field_tag (field_100 (author700a_of src)) = "100") by reflexivity.
  assert (H520 : field_tag (field_520 src) = "520") by reflexivity.
  cbn - [field_245 field_520 field_100 strip_with join].
  rewrite Hdata, H100, H520. cbn - [field_245 field_100 strip_with join].
  rewrite field_100_read. unfold source_title.
  destruct (field_245 _ _ _) as [|f245 rest].
  - destruct H245 as (Ha & Hb & Hc). unfold nonempty_value.
    rewrite Ha, Hb, Hc. reflexivity.
  - destruct H245 as (Ht & Ha & Hb & Hc).
    cbn [List.filter]. rewrite Ht. cbn - [strip_with join].
    rewrite Ha, Hb, Hc. reflexivity.
Qed.

Lemma extract_of_final_record_witness :
  exists dst : MarcRecord,
    build_final_record RaisesKeyError record_thesis = Ok dst
    /\ extract_marc_info RaisesKeyError dst
       = Ok (mkInfo (Some "oai:infoscience.epfl.ch:3") (Some "On call numbers")
               (Some "Doe, Jane") (Some "Jane Doe")).
Proof.
  exact (extract_of_final_record RaisesKeyError record_thesis eq_refl).
Defined.


(** With the lookup that raises on a missing tag, a source record whose
    identifier field is present but empty is mapped without error, the
    mapped record has no 001, and reading the identifier back raises:
    the run drops the record with an error log and no report row. *)
Theorem empty_identifier_drops_record (w : World) (st : Settings)
    (record_index : Z) (call_number_str : string) (record : MarcRecord) :
  w_lookup w = RaisesKeyError ->
  has_field record "001" = true ->
  truthy (cf001_of record) = false ->
  (exists dst, build_final_record (w_lookup w) record = Ok dst
               /\ has_field dst "001" = false
               /\ extract_marc_info (w_lookup w) dst = Raise KeyError)
  /\ process_record w st record_index call_number_str record
     = (None, [EvLog ERROR "Problème lors de la récupération du title"]).
Proof.
  intros Hlm H001 Hcf. rewrite Hlm.
  pose proof (build_final_record_ok RaisesKeyError record (or_intror H001)) as Hb.
  assert (Hget : forall dst, build_final_record RaisesKeyError record = Ok dst ->
                             record_get dst "001" = None).
  { intros dst Hdst. rewrite Hb in Hdst. injection Hdst as <-.
    unfold record_get, get_fields. cbn [fields].
    unfold field_001. rewrite Hcf.
    repeat (rewrite ?List.filter_app, ?(field_264_other _ _ _ "001"),
              ?(field_502_other _ _ _ _ _ "001"), ?(field_245_other _ _ _ "001")
              by discriminate;
            cbn - [field_245 field_264 field_502]).
    reflexivity. }
  assert (Hex : forall dst, build_final_record RaisesKeyError record = Ok dst ->
                            extract_marc_info RaisesKeyError dst = Raise KeyError).
  { intros dst Hdst. unfold extract_marc_info, record_getitem.
    now rewrite (Hget dst Hdst). }
  split.
  - eexists. split; [exact Hb|]. split; [|now apply Hex].
    specialize (Hget _ Hb). unfold record_get, get_fields in Hget.
    unfold has_field.
    match goal with
    | |- existsb _ ?l = false => induction l as [|f fs IH]
    end; [reflexivity|].
    cbn in Hget |- *. destruct (String.eqb (field_tag f) "001");
      [discriminate | now apply IH].
  - unfold process_record. rewrite Hlm.
    destruct (build_final_record RaisesKeyError record) as [dst|e] eqn:Hdst;
      [|rewrite Hb in Hdst; discriminate].
    now rewrite (Hex dst eq_refl).
Qed.

Lemma empty_identifier_witness :
  process_record (quiet_world [record_empty_id])
    (plain_settings (holding_info default_config)) 1 "ZTK 101" record_empty_id
  = (None, [EvLog ERROR "Problème lors de la récupération du title"]).
Proof.
  exact (proj2 (empty_identifier_drops_record (quiet_world [record_empty_id])
                  (plain_settings (holding_info default_config)) 1 "ZTK 101"
                  record_empty_id eq_refl eq_refl eq_refl)).
Defined.

(** ** The holdings of a bib *)

Lemma find_first {A : Type} (p : A -> bool) (l : list A) :
  match List.find p l with
  | Some x => exists pre post,
      l = (pre ++ x :: post)%list /\ p x = true
      /\ Forall (fun y => p y = false) pre
  | None => Forall (fun y => p y = false) l
  end.
Proof.
  induction l as [|a l IH]; cbn; [constructor|].
  destruct (p a) eqn:Ha.
  - exists [], l. repeat split; [exact Ha | constructor].
  - destruct (List.find p l) as [x|].
    + destruct IH as (pre & post & -> & Hx & Hpre).
      exists (a :: pre), post. repeat split; [exact Hx | now constructor].
    + now constructor.
Qed.

(** What the lookup of a holding returns, by cases. *)
Lemma find_existing_holding_cases (holdings : py (list Holding))
    (library_code location : string) :
  match find_existing_holding holdings library_code location with
  | Some h =>
      exists pre post,
        holdings = Ok (pre ++ h :: post)%list
        /\ holding_error h = false
        /\ holding_library h = Some library_code
        /\ holding_location h = Some location
        /\ Forall (fun g => holding_matches library_code location g = false) pre
  | None =>
      match holdings with
      | Ok hs => Forall (fun g => holding_matches library_code location g = false) hs
      | Raise _ => True
      end
  end.
Proof.
  destruct holdings as [hs|e]; cbn; [|exact I].
  pose proof (find_first (holding_matches library_code location) hs) as H.
  destruct (List.find _ hs) as [h|]; [|exact H].
  destruct H as (pre & post & -> & Hm & Hpre).
  apply holding_matches_true in Hm as (He & Hl & Hc & _).
  exists pre, post. repeat split; assumption.
Qed.

(** The lookup returns the first holding that is free of wrapper errors
    and sits at exactly the library and location asked for; it returns
    nothing exactly when the holdings could not be read or hold no such
    holding.  A holding in error, or without library or location, is
    never returned. *)
Theorem find_existing_holding_spec (holdings : py (list Holding))
    (library_code location : string) :
  match find_existing_holding holdings library_code location with
  | Some h =>
      exists pre post,
        holdings = Ok (pre ++ h :: post)%list
        /\ holding_error h = false
        /\ holding_library h = Some library_code
        /\ holding_location h = Some location
        /\ Forall (fun g => holding_matches library_code location g = false) pre
  | None =>
      match holdings with
      | Ok hs => Forall (fun g => holding_matches library_code location g = false) hs
      | Raise _ => True
      end
  end.
Proof. exact (find_existing_holding_cases holdings library_code location). Qed.

Lemma creer_holding_found (w : World) (bib_obj : IzBib) (catalog : list Holding)
    (library_code location call_number : string)
    (holding_schema : option XMLSchema) (h : Holding) :
  find_existing_holding (get_holdings w catalog location) library_code location
  = Some h ->
  creer_holding w bib_obj catalog library_code location call_number holding_schema
  = (Ok (Some h), catalog,
     [EvGetHoldings location; EvLog INFO "Holding déjà existante"]).
Proof. intros H. unfold creer_holding. now rewrite H. Qed.

Lemma find_app_last {A : Type} (p : A -> bool) (l : list A) (x : A) :
  List.find p l = None -> p x = true -> List.find p (l ++ [x]) = Some x.
Proof.
  induction l as [|a l IH]; cbn; intros Hl Hx; [now rewrite Hx|].
  destruct (p a); [discriminate | now apply IH].
Qed.

(** Asking twice for the same holding creates it at most once: when the
    holdings can be read, a second call for the same library and
    location, whatever its call number, returns the holding of the first
    call, creates nothing and leaves the holdings as the first call left
    them. *)
Theorem creer_holding_twice (w : World) (bib_obj : IzBib)
    (catalog catalog1 : list Holding)
    (library_code location call_number call_number' : string)
    (holding_schema : option XMLSchema) (h : Holding) (evs1 : list Event) :
  library_code <> EmptyString -> location <> EmptyString ->
  w_get_holdings_raises w location = false ->
  creer_holding w bib_obj catalog library_code location call_number holding_schema
  = (Ok (Some h), catalog1, evs1) ->
  creer_holding w bib_obj catalog1 library_code location call_number' holding_schema
  = (Ok (Some h), catalog1,
     [EvGetHoldings location; EvLog INFO "Holding déjà existante"]).
Proof.
  intros HL HX Hget Hfirst. apply creer_holding_found.
  unfold creer_holding in Hfirst. unfold get_holdings in *. rewrite Hget in *.
  cbn [find_existing_holding] in *.
  destruct (List.find _ catalog) as [g|] eqn:Hfind.
  - injection Hfirst as <- <- _. exact Hfind.
  - destruct (validate_holding_xml _ _) as [is_valid errors].
    destruct (negb is_valid); [discriminate|].
    unfold create_holding_in_alma in Hfirst.
    destruct (negb (truthy (bib_mms_id bib_obj))); [discriminate|].
    destruct (w_create_holding w library_code location) as [msg|hid].
    + cbn in Hfirst. destruct msg; discriminate.
    + cbn in Hfirst. injection Hfirst as <- <- _.
      apply find_app_last; [exact Hfind|].
      apply holding_matches_true. repeat split; assumption.
Qed.

Lemma creer_holding_twice_witness :
  creer_holding (quiet_world []) (mkIzBib (Some "991000000000001"))
    [mkHolding "22E02XA" false "" (Some "hph_bjnbecip") (Some "E02XA")]
    "hph_bjnbecip" "E02XA" "ZTK 102" None
  = (Ok (Some (mkHolding "22E02XA" false "" (Some "hph_bjnbecip") (Some "E02XA"))),
     [mkHolding "22E02XA" false "" (Some "hph_bjnbecip") (Some "E02XA")],
     [EvGetHoldings "E02XA"; EvLog INFO "Holding déjà existante"]).
Proof.
  apply (creer_holding_twice (quiet_world []) (mkIzBib (Some "991000000000001"))
           [] _ "hph_bjnbecip" "E02XA" "ZTK 101" "ZTK 102" None _
           [EvGetHoldings "E02XA"; EvCreateHolding "E02XA";
            EvLog INFO "Holding créée avec succès"]);
    [discriminate | discriminate | reflexivity | reflexivity].
Defined.


(** A holding is sent to Alma only when the lookup found none, the
    holding record passed validation and the bib has an MMS id; the
    holdings of the bib stay as they are or grow by exactly the holding
    that is returned, which sits at the library and location asked for;
    and a holding that is returned is among the holdings afterwards. *)
Theorem creer_holding_guarded (w : World) (bib_obj : IzBib)
    (catalog : list Holding) (library_code location call_number : string)
    (holding_schema : option XMLSchema) :
  let run := creer_holding w bib_obj catalog library_code location call_number
               holding_schema in
  let res := fst (fst run) in
  let catalog' := snd (fst run) in
  let evs := snd run in
  (existsb is_creation evs = true ->
   find_existing_holding (get_holdings w catalog location) library_code location
   = None
   /\ fst (validate_holding_xml
             (build_holding_xml (build_holding_marc library_code location call_number))
             holding_schema) = true
   /\ truthy (bib_mms_id bib_obj) = true)
  /\ (catalog' = catalog
      \/ exists h, res = Ok (Some h) /\ catalog' = (catalog ++ [h])%list
                   /\ holding_library h = Some library_code
                   /\ holding_location h = Some location)
  /\ (forall h, res = Ok (Some h) -> In h catalog').
Proof.
  cbv zeta. unfold creer_holding.
  pose proof (find_existing_holding_cases (get_holdings w catalog location)
                library_code location) as Hspec.
  destruct (find_existing_holding _ _ _) as [g|] eqn:Hfind.
  - cbn. split; [discriminate|]. split; [now left|].
    intros h [= <-]. destruct Hspec as (pre & post & Hcat & _).
    unfold get_holdings in Hcat.
    destruct (w_get_holdings_raises w location); [discriminate|].
    injection Hcat as ->. apply in_elt.
  - destruct (validate_holding_xml _ _) as [is_valid errors] eqn:Hval.
    destruct is_valid; cbn [negb fst snd].
    2: { cbn. split; [discriminate|]. split; [now left | discriminate]. }
    unfold create_holding_in_alma.
    destruct (truthy (bib_mms_id bib_obj)) eqn:Hmms; cbn [negb].
    2: { cbn. split; [discriminate|]. split; [now left | discriminate]. }
    destruct (w_create_holding w library_code location) as [msg|hid].
    + destruct (truthy (Some msg)); cbn;
        (split; [auto|]; split; [now left | discriminate]).
    + cbn. split; [auto|]. split.
      * right. eexists. repeat split.
      * intros h [= <-]. apply in_elt.
Qed.

(** An item is built only for a location the table knows and sent only
    after its XML passed validation, always under the id of the holding
    it was asked for; an item id is returned only for an item that was
    sent.  Nothing else of the catalog is touched. *)
Theorem creer_item_guarded (w : World) (holding : Holding)
    (po_line department_code : option string) (material_type_code : string)
    (item_schema : option XMLSchema) :
  let run := creer_item_pour_une_holding w holding po_line department_code
               material_type_code item_schema in
  (existsb is_creation (snd run) = true ->
   exists base_status policy,
     item_codes_of_location (holding_location holding) = Some (base_status, policy)
     /\ fst (validate_item_xml
               (ElItem (build_item_xml_for_holding w holding base_status po_line
                          department_code material_type_code (Some policy)))
               item_schema) = true)
  /\ (forall id, fst run = Ok (Some id) ->
                 In (EvCreateItem (holding_id holding)) (snd run))
  /\ Forall (fun e => is_creation e = true -> e = EvCreateItem (holding_id holding))
       (snd run).
Proof.
  cbv zeta. unfold creer_item_pour_une_holding.
  destruct (item_codes_of_location (holding_location holding))
    as [[base_status policy]|].
  2: { cbn. split; [discriminate|]. split; [discriminate|].
       repeat constructor. discriminate. }
  destruct (validate_item_xml _ _) as [valid errors] eqn:Hval.
  destruct valid; cbn [negb].
  2: { cbn. split; [discriminate|]. split; [discriminate|].
       repeat constructor; discriminate. }
  assert (Hok : exists b p,
             Some (base_status, policy) = Some (b, p)
             /\ fst (validate_item_xml
                       (ElItem (build_item_xml_for_holding w holding b po_line
                                  department_code material_type_code (Some p)))
                       item_schema) = true).
  { exists base_status, policy. now rewrite Hval. }
  destruct (w_create_item w holding _) as [item|e];
    [destruct (item_error item)|];
    (split; [intros _; exact Hok|]); cbn;
    (split; [try discriminate; auto|]);
    repeat constructor; try discriminate; auto.
Qed.

Lemma creer_item_guarded_witness :
  exists base_status policy,
    item_codes_of_location (holding_location holding_xa) = Some (base_status, policy)
    /\ base_status = "70" /\ policy = "70".
Proof.
  destruct (proj1 (creer_item_guarded (quiet_world []) holding_xa None
                     (Some "AcqDepthph_bjnbecip") "THESIS" None) eq_refl)
    as (base_status & policy & Hcodes & _).
  exists base_status, policy. split; [exact Hcodes|].
  cbn in Hcodes. injection Hcodes as <- <-. split; reflexivity.
Defined.

Lemma creer_holding_guarded_witness :
  find_existing_holding (get_holdings (quiet_world []) [] "E02XA")
    "hph_bjnbecip" "E02XA" = None
  /\ truthy (Some "991000000000001") = true.
Proof.
  destruct (proj1 (creer_holding_guarded (quiet_world [])
                     (mkIzBib (Some "991000000000001")) [] "hph_bjnbecip"
                     "E02XA" "ZTK 101" None) eq_refl) as (H1 & _ & H3).
  split; [exact H1 | exact H3].
Defined.


(** ** One outcome per location *)

Lemma same_bib_refl (rep : NoticeReport) : same_bib rep rep.
Proof. repeat split. Qed.

Lemma same_bib_add_location (rep rep' : NoticeReport) (row : LocationRow) :
  same_bib rep rep' -> same_bib rep (add_location rep' row).
Proof. intros H. exact H. Qed.

(** The outcomes the loop over the locations adds to a report. *)
Lemma holdings_loop_outcomes (w : World) (st : Settings) (bib_obj : IzBib)
    (call_number_str : string) (locs : list string) :
  forall (catalog : list Holding) (notice_report : NoticeReport),
  exists rows : list LocationRow,
    nr_locations
      (fst (holdings_loop w st bib_obj call_number_str locs catalog notice_report))
    = (nr_locations notice_report ++ rows)%list
    /\ map row_location rows = locs
    /\ Forall row_shape rows
    /\ same_bib notice_report
         (fst (holdings_loop w st bib_obj call_number_str locs catalog notice_report)).
Proof.
  induction locs as [|loc rest IH]; intros catalog notice_report.
  - exists []. cbn. rewrite app_nil_r. repeat split. constructor.
  - cbn [holdings_loop].
    destruct (creer_holding _ _ _ _ _ _ _) as [[hres catalog'] hevs].
    assert (Hstep : exists row,
      row_location row = loc /\ row_shape row
      /\ exists evs,
          match hres with
          | Raise e =>
              (add_location notice_report (row_holding_failed loc (str_of_exn e)),
               [EvLog ERROR "Erreur lors de la création de la holding"])
          | Ok None =>
              (add_location notice_report
                 (row_holding_failed loc "Holding creation failed (see logs)"),
               [EvLog ERROR "Impossible de créer la holding"])
          | Ok (Some holding) =>
              let '(ires, ievs) :=
                creer_item_pour_une_holding w holding (ii_po_line (s_item_info st))
                  (ii_department_code (s_item_info st))
                  (ii_material_type_code (s_item_info st)) (s_item_schema st) in
              match ires with
              | Raise e =>
                  (add_location notice_report
                     (row_holding_failed loc (str_of_exn e)),
                   (ievs ++ [EvLog ERROR "Erreur lors de la création de la holding"])%list)
              | Ok item_id =>
                  if truthy item_id then
                    (add_location notice_report
                       (mkLocationRow loc (Some (holding_id holding))
                          (Some "CREATED") None item_id (Some "CREATED") None),
                     (ievs ++ [EvLog INFO "Item créé pour location"])%list)
                  else
                    (add_location notice_report
                       (mkLocationRow loc (Some (holding_id holding))
                          (Some "CREATED") None None (Some "ERROR")
                          (Some msg_item_failed)),
                     (ievs ++ [EvLog ERROR "Création de l'item échouée"])%list)
              end
          end = (add_location notice_report row, evs)).
    { destruct hres as [[holding|]|e].
      - destruct (creer_item_pour_une_holding _ _ _ _ _ _) as [[item_id|e] ievs].
        + destruct (truthy item_id) eqn:Hid; eexists;
            (split; [|split; [|eexists; reflexivity]]); [reflexivity| |reflexivity|].
          * left. cbn. repeat split; try discriminate. left. now repeat split.
          * left. cbn. repeat split; try discriminate. right. now repeat split.
        + eexists. split; [|split; [|eexists; reflexivity]]; [reflexivity|].
          right. cbn. repeat split; discriminate.
      - eexists. split; [|split; [|eexists; reflexivity]]; [reflexivity|].
        right. cbn. repeat split; discriminate.
      - eexists. split; [|split; [|eexists; reflexivity]]; [reflexivity|].
        right. cbn. repeat split; discriminate. }
    destruct Hstep as (row & Hloc & Hshape & evs & ->).
    destruct (IH catalog' (add_location notice_report row))
      as (rows & Hrows & Hmap & Hall & Hsame).
    destruct (holdings_loop w st bib_obj call_number_str rest catalog' _)
      as [rep' evs'].
    cbn [fst] in *. exists (row :: rows).
    split; [|split; [|split]].
    + rewrite Hrows. cbn [add_location nr_locations]. now rewrite <- app_assoc.
    + cbn. now rewrite Hloc, Hmap.
    + now constructor.
    + exact Hsame.
Qed.

(** The loop over the locations adds exactly one outcome per configured
    location, in their order and whatever failed on the way (a failure
    at one location never keeps the next from being tried); each outcome
    has one of the three shapes, so an item is only ever reported under
    a holding; and the bib part of the report is left alone. *)
Theorem holdings_loop_rows (w : World) (st : Settings) (bib_obj : IzBib)
    (call_number_str : string) (locs : list string) :
  forall (catalog : list Holding) (notice_report : NoticeReport),
  exists rows : list LocationRow,
    nr_locations
      (fst (holdings_loop w st bib_obj call_number_str locs catalog notice_report))
    = (nr_locations notice_report ++ rows)%list
    /\ map row_location rows = locs
    /\ Forall row_shape rows
    /\ same_bib notice_report
         (fst (holdings_loop w st bib_obj call_number_str locs catalog notice_report)).
Proof. exact (holdings_loop_outcomes w st bib_obj call_number_str locs). Qed.


(** ** The rows of the report *)

Section Rows.

Variables (w : World) (st : Settings).

Lemma create_in_alma_row (record_index : Z) (call_number_str : string)
    (record : MarcRecord) (rep row : NoticeReport) :
  nr_locations rep = [] -> nr_sru_exists rep <> Some true ->
  fst (create_in_alma w st record_index call_number_str record rep) = Some row ->
  nr_record_index row = nr_record_index rep
  /\ nr_call_number row = nr_call_number rep
  /\ nr_sru_exists row = nr_sru_exists rep
  /\ report_shape st row.
Proof.
  intros Hlocs Hsru. unfold create_in_alma.
  destruct (build_bib_with_record w record) as [[rec_el bib_el]|e];
    [|discriminate].
  destruct (negb _).
  { intros [= <-]. cbn. repeat split. right. left. cbn. auto. }
  destruct (s_dry_run st) eqn:Hdry.
  { intros [= <-]. cbn. repeat split. right. left. cbn. auto 6. }
  destruct (w_create_bib w bib_el) as [bib_obj|e].
  2: { intros [= <-]. cbn. repeat split. right. left. cbn. auto 6. }
  match goal with
  | |- context [holdings_loop w st bib_obj call_number_str ?locs ?cat ?r0] =>
      destruct (holdings_loop_outcomes w st bib_obj call_number_str locs cat r0)
        as (rows & Hrows & Hmap & Hall & Hsame);
      destruct (holdings_loop w st bib_obj call_number_str locs cat r0)
        as [rep' evs]
  end.
  cbn [fst] in *. intros [= <-].
  destruct Hsame as (H1 & _ & _ & _ & H5 & H6 & H7 & H8 & _).
  cbn in H1, H5, H6, H7, H8, Hrows. rewrite Hlocs in Hrows. cbn in Hrows.
  repeat split; try assumption.
  right. right. rewrite H8, H6, H7, Hrows. repeat split; try assumption.
  discriminate.
Qed.

(** Every row the loop body appends carries the index and the call
    number the record was given; it records the SRU answer unless the
    check is skipped; and it has one of the shapes of [report_shape]:
    per-location outcomes and an MMS id exist only on rows whose bib was
    created, and then there is one outcome per configured location. *)
Lemma process_record_row (record_index : Z) (call_number_str : string)
    (record : MarcRecord) (row : NoticeReport) :
  fst (process_record w st record_index call_number_str record) = Some row ->
  nr_record_index row = record_index
  /\ nr_call_number row = Some call_number_str
  /\ (nr_sru_exists row = None <-> s_skip_sru_check st = true)
  /\ report_shape st row.
Proof.
  unfold process_record.
  destruct (build_final_record _ _) as [current_record|e]; [|discriminate].
  destruct (extract_marc_info _ _) as [info|e]; [|discriminate].
  destruct (s_skip_sru_check st) eqn:Hskip.
  - match goal with
    | |- context [create_in_alma w st record_index call_number_str record ?r0] =>
        pose proof (create_in_alma_row record_index call_number_str record r0 row
                      eq_refl ltac:(discriminate)) as H;
        destruct (create_in_alma w st record_index call_number_str record r0)
          as [row' evs]
    end.
    cbn [fst] in *. intros Hrow. destruct (H Hrow) as (H1 & H2 & H3 & H4).
    cbn in H1, H2, H3. repeat split; auto.
  - destruct (fetch_marc_record_from_sru _ _ _ _) as [[|]|e]; [| |discriminate].
    + intros [= <-]. cbn. repeat split; try discriminate. left. auto.
    + match goal with
      | |- context [create_in_alma w st record_index call_number_str record ?r0] =>
          pose proof (create_in_alma_row record_index call_number_str record r0
                        row eq_refl ltac:(discriminate)) as H;
          destruct (create_in_alma w st record_index call_number_str record r0)
            as [row' evs]
      end.
      cbn [fst] in *. intros Hrow. destruct (H Hrow) as (H1 & H2 & H3 & H4).
      cbn in H1, H2, H3. repeat split; auto; rewrite H3; discriminate.
Qed.

End Rows.

Lemma thesis_row_shape :
  nr_call_number thesis_row = Some "ZTK 101"
  /\ report_shape (plain_settings (holding_info default_config)) thesis_row.
Proof.
  destruct (process_record_row (quiet_world [record_thesis])
              (plain_settings (holding_info default_config)) 1 "ZTK 101"
              record_thesis thesis_row eq_refl) as (_ & H2 & _ & H4).
  split; [exact H2 | exact H4].
Defined.


(** ** Whole runs *)

Lemma increasing_snoc (l : list Z) (y : Z) :
  increasing l -> Forall (fun x => (x < y)%Z) l -> increasing (l ++ [y])%list.
Proof.
  induction l as [|x l IH]; cbn; intros Hl Hy.
  - split; [constructor | exact I].
  - destruct Hl as [Hx Hl]. inversion Hy as [|? ? Hxy Hy']; subst.
    split; [|now apply IH].
    apply Forall_app. split; [exact Hx | now constructor].
Qed.

Section Loop.

Variables (w : World) (st : Settings) (max_records : Z).

(** The rows of the loop carry the numbers of their records. *)
Lemma records_loop_numbered (seed : Z) (records : list MarcRecord) :
  forall s : LoopState,
    ls_call_number_value s = (seed + ls_record_index s)%Z ->
    (0 <= ls_record_index s)%Z ->
    Forall (fun row =>
              numbered_row (hi_call_number_prefix (s_holding_info st)) seed
                max_records row
              /\ (nr_record_index row <= ls_record_index s)%Z) (ls_reports s) ->
    increasing (map nr_record_index (ls_reports s)) ->
    Forall (fun row =>
              numbered_row (hi_call_number_prefix (s_holding_info st)) seed
                max_records row
              /\ (seed + nr_record_index row
                  <= ls_call_number_value (records_loop w st max_records records s))%Z)
      (ls_reports (records_loop w st max_records records s))
    /\ increasing
         (map nr_record_index (ls_reports (records_loop w st max_records records s))).
Proof.
  induction records as [|record rest IH]; intros s Hcn Hidx Hrows Hinc.
  - cbn. split; [|exact Hinc].
    eapply Forall_impl; [exact Hrows|]. cbn. intros row [Hn Hle]. split; [exact Hn|lia].
  - cbn [records_loop].
    destruct ((0 <? max_records)%Z && (max_records <? ls_record_index s + 1)%Z)
      eqn:Hcap.
    + cbn. split; [|exact Hinc].
      eapply Forall_impl; [exact Hrows|]. cbn. intros row [Hn Hle].
      split; [exact Hn|lia].
    + match goal with
      | |- context [process_record w st ?idx ?cn record] =>
          pose proof (process_record_row w st idx cn record) as Hrow;
          destruct (process_record w st idx cn record) as [row evs]
      end.
      cbn [fst] in Hrow.
      apply IH; cbn [ls_call_number_value ls_record_index ls_reports].
      * lia.
      * lia.
      * apply Forall_app. split.
        -- eapply Forall_impl; [exact Hrows|]. cbn. intros r [Hn Hle].
           split; [exact Hn|lia].
        -- destruct row as [row|]; cbn; [|constructor].
           destruct (Hrow row eq_refl) as (Hi & Hc & _).
           constructor; [|constructor]. split; [|lia].
           unfold numbered_row. rewrite Hi, Hc.
           split; [lia|]. split.
           ++ intros Hmax. apply andb_false_iff in Hcap as [H|H].
              ** apply Z.ltb_ge in H. lia.
              ** apply Z.ltb_ge in H. lia.
           ++ replace (ls_call_number_value s + 1)%Z
                with (seed + (ls_record_index s + 1))%Z by lia.
              reflexivity.
      * rewrite map_app. destruct row as [row|]; cbn [opt_to_list map].
        -- destruct (Hrow row eq_refl) as (Hi & _).
           apply increasing_snoc; [exact Hinc|].
           apply Forall_map. eapply Forall_impl; [exact Hrows|].
           cbn. intros r [_ Hle]. lia.
        -- now rewrite app_nil_r.
Qed.

(** The loop depends on the settings through the work done for each
    record and through the prefix of the call numbers. *)
Lemma records_loop_ext (st' : Settings) (records : list MarcRecord) :
  (forall idx cn record,
      process_record w st' idx cn record = process_record w st idx cn record) ->
  hi_call_number_prefix (s_holding_info st')
  = hi_call_number_prefix (s_holding_info st) ->
  forall s : LoopState,
    records_loop w st' max_records records s
    = records_loop w st max_records records s.
Proof.
  intros Hstep Hprefix. induction records as [|record rest IH]; intros s;
    [reflexivity|].
  cbn [records_loop]. rewrite Hprefix, Hstep.
  destruct (_ && _); [reflexivity|].
  destruct (process_record _ _ _ _ _) as [row evs]. apply IH.
Qed.

End Loop.

(** The loop over the locations reads the holding and item settings
    and nothing else. *)
Lemma holdings_loop_settings (w : World) (st st' : Settings) (bib_obj : IzBib)
    (call_number_str : string) (locs : list string) :
  s_holding_info st' = s_holding_info st ->
  s_holding_schema st' = s_holding_schema st ->
  s_item_info st' = s_item_info st ->
  s_item_schema st' = s_item_schema st ->
  forall (catalog : list Holding) (rep : NoticeReport),
    holdings_loop w st' bib_obj call_number_str locs catalog rep
    = holdings_loop w st bib_obj call_number_str locs catalog rep.
Proof.
  intros H1 H2 H3 H4. induction locs as [|loc rest IH]; intros catalog rep;
    [reflexivity|].
  cbn [holdings_loop]. rewrite H1, H2, H3, H4.
  destruct (creer_holding _ _ _ _ _ _ _) as [[hres catalog'] hevs].
  match goal with
  | |- (let '(r1, e1) := ?step in _) = _ => destruct step as [rep0 evs0]
  end.
  now rewrite IH.
Qed.

Section Run.

Variables (w : World) (st : Settings).

Lemma creer_holding_events (bib_obj : IzBib) (catalog : list Holding)
    (library_code location call_number : string)
    (holding_schema : option XMLSchema) :
  Forall (fun e => is_location_event e = true)
    (snd (creer_holding w bib_obj catalog library_code location call_number
            holding_schema)).
Proof.
  unfold creer_holding.
  destruct (find_existing_holding _ _ _); [repeat constructor|].
  destruct (validate_holding_xml _ _) as [[|] errors]; cbn [negb];
    [|repeat constructor].
  unfold create_holding_in_alma.
  destruct (negb (truthy (bib_mms_id bib_obj))); [repeat constructor|].
  destruct (w_create_holding w library_code location) as [msg|hid].
  - destruct (truthy (Some msg)); repeat constructor.
  - repeat constructor.
Qed.

Lemma creer_item_events (holding : Holding) (po_line department_code : option string)
    (material_type_code : string) (item_schema : option XMLSchema) :
  Forall (fun e => is_location_event e = true)
    (snd (creer_item_pour_une_holding w holding po_line department_code
            material_type_code item_schema)).
Proof.
  unfold creer_item_pour_une_holding.
  destruct (item_codes_of_location _) as [[b p]|]; [|repeat constructor].
  destruct (validate_item_xml _ _) as [[|] errors]; cbn [negb];
    [|repeat constructor].
  destruct (w_create_item w holding _) as [item|e]; [|repeat constructor].
  destruct (item_error item); repeat constructor.
Qed.

Lemma holdings_loop_events (bib_obj : IzBib) (call_number_str : string)
    (locs : list string) :
  forall (catalog : list Holding) (rep : NoticeReport),
    Forall (fun e => is_location_event e = true)
      (snd (holdings_loop w st bib_obj call_number_str locs catalog rep)).
Proof.
  induction locs as [|loc rest IH]; intros catalog rep; [constructor|].
  cbn [holdings_loop].
  pose proof (creer_holding_events bib_obj catalog
                (hi_library_code (s_holding_info st)) loc call_number_str
                (s_holding_schema st)) as Hh.
  destruct (creer_holding _ _ _ _ _ _ _) as [[hres catalog'] hevs].
  cbn [snd] in Hh.
  match goal with
  | |- Forall _ (snd (let '(r1, e1) := ?step in _)) =>
      assert (Hstep : Forall (fun e => is_location_event e = true) (snd step));
      [|destruct step as [rep0 evs0]]
  end.
  { destruct hres as [[holding|]|e]; [|repeat constructor|repeat constructor].
    pose proof (creer_item_events holding (ii_po_line (s_item_info st))
                  (ii_department_code (s_item_info st))
                  (ii_material_type_code (s_item_info st)) (s_item_schema st)) as Hi.
    destruct (creer_item_pour_une_holding _ _ _ _ _ _) as [[item_id|e] ievs];
      cbn [snd] in Hi |- *; [destruct (truthy item_id)|];
      cbn [snd]; apply Forall_app; split; auto; repeat constructor. }
  specialize (IH catalog' rep0).
  destruct (holdings_loop w st bib_obj call_number_str rest catalog' rep0)
    as [rep' evs'].
  cbn [snd] in *. apply Forall_app. split; [exact Hh|].
  apply Forall_app. split; assumption.
Qed.

(** The events and the row of one record, in a dry run. *)
Lemma process_record_dry (record_index : Z) (call_number_str : string)
    (record : MarcRecord) :
  s_dry_run st = true ->
  Forall (fun e => is_creation e = false)
    (snd (process_record w st record_index call_number_str record))
  /\ (forall row,
        fst (process_record w st record_index call_number_str record) = Some row ->
        nothing_created row).
Proof.
  intros Hdry. unfold nothing_created.
  assert (Hc : forall rep,
    nr_locations rep = [] ->
    Forall (fun e => is_creation e = false)
      (snd (create_in_alma w st record_index call_number_str record rep))
    /\ (forall row,
          fst (create_in_alma w st record_index call_number_str record rep)
          = Some row ->
          (nr_bib_status row = Some "SKIPPED_SRU_EXISTS"
           \/ nr_bib_status row = Some "XSD_ERROR"
           \/ nr_bib_status row = Some "DRY_RUN_OK")
          /\ nr_mms_id row = None /\ nr_locations row = [])).
  { intros rep Hrep. unfold create_in_alma. rewrite Hdry.
    destruct (build_bib_with_record w record) as [[rec_el bib_el]|e].
    - destruct (negb _); cbn; (split; [repeat constructor|]);
        intros row [= <-]; cbn; auto.
    - cbn. split; [repeat constructor | discriminate]. }
  unfold process_record.
  destruct (build_final_record _ _) as [current_record|e];
    [|split; [repeat constructor | discriminate]].
  destruct (extract_marc_info _ _) as [info|e];
    [|split; [repeat constructor | discriminate]].
  destruct (s_skip_sru_check st).
  - match goal with
    | |- context [create_in_alma w st record_index call_number_str record ?r0] =>
        destruct (Hc r0 eq_refl) as [He Hr];
        destruct (create_in_alma w st record_index call_number_str record r0)
          as [row' evs]
    end.
    cbn [fst snd] in *. split; [now constructor | exact Hr].
  - destruct (fetch_marc_record_from_sru _ _ _ _) as [[|]|e].
    + cbn. split; [repeat constructor|]. intros row [= <-]. cbn. auto.
    + match goal with
      | |- context [create_in_alma w st record_index call_number_str record ?r0] =>
          destruct (Hc r0 eq_refl) as [He Hr];
          destruct (create_in_alma w st record_index call_number_str record r0)
            as [row' evs]
      end.
      cbn [fst snd] in *. split; [now constructor | exact Hr].
    + cbn. split; [repeat constructor | discriminate].
Qed.

(** The events of one record when the SRU check is skipped. *)
Lemma process_record_skip (record_index : Z) (call_number_str : string)
    (record : MarcRecord) :
  s_skip_sru_check st = true ->
  Forall (fun e => is_sru_query e = false)
    (snd (process_record w st record_index call_number_str record)).
Proof.
  intros Hskip. unfold process_record. rewrite Hskip.
  destruct (build_final_record _ _) as [current_record|e]; [|repeat constructor].
  destruct (extract_marc_info _ _) as [info|e]; [|repeat constructor].
  match goal with
  | |- context [create_in_alma w st record_index call_number_str record ?r0] =>
      assert (Hc : Forall (fun e => is_sru_query e = false)
                     (snd (create_in_alma w st record_index call_number_str
                             record r0)));
      [|destruct (create_in_alma w st record_index call_number_str record r0)
          as [row evs]; cbn [snd] in *; now constructor]
  end.
  unfold create_in_alma.
  destruct (build_bib_with_record w record) as [[rec_el bib_el]|e];
    [|repeat constructor].
  destruct (negb _); [repeat constructor|].
  destruct (s_dry_run st); [repeat constructor|].
  destruct (w_create_bib w bib_el) as [bib_obj|e]; [|repeat constructor].
  match goal with
  | |- context [holdings_loop w st bib_obj call_number_str ?locs ?cat ?r1] =>
      pose proof (holdings_loop_events bib_obj call_number_str locs cat r1) as Hl;
      destruct (holdings_loop w st bib_obj call_number_str locs cat r1)
        as [rep' evs]
  end.
  cbn [snd] in *. repeat constructor.
  eapply Forall_impl; [exact Hl|]. intros [] H; cbn in *; congruence.
Qed.

(** A property of the events and one of the rows that every record
    respects holds of the whole loop. *)
Lemma records_loop_preserves (PE : Event -> Prop) (PR : NoticeReport -> Prop)
    (max_records : Z) :
  (forall idx cn record,
      Forall PE (snd (process_record w st idx cn record))
      /\ (forall row, fst (process_record w st idx cn record) = Some row -> PR row)) ->
  PE (EvLog INFO "max_records atteint") ->
  forall (records : list MarcRecord) (s : LoopState),
    Forall PE (ls_events s) -> Forall PR (ls_reports s) ->
    Forall PE (ls_events (records_loop w st max_records records s))
    /\ Forall PR (ls_reports (records_loop w st max_records records s)).
Proof.
  intros Hstep Hcap. induction records as [|record rest IH]; intros s He Hr;
    [now split|].
  cbn [records_loop].
  destruct ((0 <? max_records)%Z && (max_records <? ls_record_index s + 1)%Z).
  - cbn. split; [|exact Hr]. apply Forall_app. split; [exact He|].
    now constructor.
  - match goal with
    | |- context [process_record w st ?idx ?cn record] =>
        destruct (Hstep idx cn record) as [Hevs Hrow];
        destruct (process_record w st idx cn record) as [row evs]
    end.
    cbn [fst snd] in *. apply IH; cbn.
    + apply Forall_app. now split.
    + apply Forall_app. split; [exact Hr|].
      destruct row as [row|]; cbn; [|constructor].
      constructor; [now apply Hrow | constructor].
Qed.

(** Without a schema for the bib and for its record, the validation
    switch changes nothing to what is done for a record. *)
Lemma process_record_without_schemas (check : bool) (record_index : Z)
    (call_number_str : string) (record : MarcRecord) :
  s_marc_schema st = None -> s_bib_schema st = None ->
  process_record w
    (mkSettings (s_dry_run st) check (s_skip_sru_check st)
       (s_institution_code st) (s_marc_schema st) (s_bib_schema st)
       (s_holding_schema st) (s_item_schema st) (s_holding_info st)
       (s_item_info st))
    record_index call_number_str record
  = process_record w st record_index call_number_str record.
Proof.
  intros Hmarc Hbib.
  assert (Hc : forall rep,
    create_in_alma w
      (mkSettings (s_dry_run st) check (s_skip_sru_check st)
         (s_institution_code st) (s_marc_schema st) (s_bib_schema st)
         (s_holding_schema st) (s_item_schema st) (s_holding_info st)
         (s_item_info st))
      record_index call_number_str record rep
    = create_in_alma w st record_index call_number_str record rep).
  { intros rep. unfold create_in_alma, build_bib_with_record.
    destruct (build_final_record (w_lookup w) record) as [final_record|e];
      [|reflexivity].
    cbn [py_bind]. destruct (w_marcxml_raises w final_record); [reflexivity|].
    cbn [s_check_xsd s_marc_schema s_bib_schema s_dry_run s_holding_info].
    rewrite Hmarc, Hbib.
    replace (if check then _ else true) with true by (now destruct check).
    replace (if s_check_xsd st then _ else true) with true
      by (now destruct (s_check_xsd st)).
    cbn [negb]. destruct (s_dry_run st); [reflexivity|].
    destruct (w_create_bib w _) as [bib_obj|e]; [|reflexivity].
    now rewrite holdings_loop_settings with (st := st). }
  unfold process_record.
  destruct (build_final_record _ _) as [current_record|e]; [|reflexivity].
  destruct (extract_marc_info _ _) as [info|e]; [|reflexivity].
  cbn [s_skip_sru_check s_institution_code].
  destruct (s_skip_sru_check st); [now rewrite Hc|].
  destruct (fetch_marc_record_from_sru _ _ _ _) as [[|]|e]; try reflexivity.
  now rewrite Hc.
Qed.

End Run.

Section Main.

Variables (w : World) (cfg : Config) (dry_run use_static_url : bool)
  (spc_page spc_rpp : Z) (env institution_code : option string)
  (check_xsd : bool) (max_records : Z) (skip_sru_check : bool).

(** A run that ends normally is the loop over the stream, started at
    the seed Analytics gave. *)
Lemma main_completed (out : Outcome) :
  main w cfg dry_run use_static_url spc_page spc_rpp env institution_code
    check_xsd max_records skip_sru_check
  = Completed out ->
  exists (seed : Z) (error : option string),
    w_analytics w = (Some seed, error)
    /\ let s :=
         records_loop w
           (settings_of w cfg dry_run check_xsd institution_code skip_sru_check)
           max_records
           (yielded (iter_infoscience_records w use_static_url spc_page
                       (effective_spc_rpp spc_rpp (infoscience_cfg cfg))))
           (initial_state seed) in
       out_reports out = ls_reports s
       /\ out_events out = ls_events s
       /\ out_call_number_value out = ls_call_number_value s.
Proof.
  unfold main. destruct (w_analytics w) as [[seed|] error]; [|discriminate].
  destruct (truthy error); [discriminate|].
  intros H. exists seed, error. split; [reflexivity|].
  cbv zeta in H |- *. unfold settings_of, initial_state.
  destruct (stream_raised _) as [e|]; [destruct (ls_broke _); [|discriminate]|];
    (destruct (ls_reports _) as [|row rows] eqn:Hrows;
     [|destruct (w_write_report w _); [discriminate|]]);
    injection H as <-; cbn [out_reports out_events out_call_number_value];
    rewrite ?Hrows; repeat split.
Qed.

(** Every row of the report has one of the shapes of [report_shape]:
    an MMS id and per-location outcomes exist only on rows whose bib was
    created, there is then exactly one outcome per configured location,
    in the configured order, and each outcome reports an item only under
    a holding. *)
Theorem report_rows (out : Outcome) :
  main w cfg dry_run use_static_url spc_page spc_rpp env institution_code
    check_xsd max_records skip_sru_check
  = Completed out ->
  Forall (report_shape
            (settings_of w cfg dry_run check_xsd institution_code skip_sru_check))
    (out_reports out).
Proof.
  intros H. apply main_completed in H as (seed & error & _ & Hr & _).
  cbv zeta in Hr. rewrite Hr.
  apply (records_loop_preserves w _ (fun _ => True)); try now constructor.
  intros idx cn record. split.
  - apply Forall_forall. now intros.
  - intros row Hrow. now apply process_record_row in Hrow.
Qed.

(** The rows of the report come in the order of the stream, with
    strictly increasing indexes that start at 1 or later and stay within
    the cap; the call number of a row is the prefix, a blank and the
    seed plus the index of the row, whatever happened to the records
    before it; and no row carries a number above the final counter. *)
Theorem report_rows_numbered (out : Outcome) (seed : Z) (error : option string) :
  w_analytics w = (Some seed, error) ->
  main w cfg dry_run use_static_url spc_page spc_rpp env institution_code
    check_xsd max_records skip_sru_check
  = Completed out ->
  increasing (map nr_record_index (out_reports out))
  /\ Forall (fun row =>
               numbered_row (hi_call_number_prefix (holding_info cfg)) seed
                 max_records row
               /\ (seed + nr_record_index row <= out_call_number_value out)%Z)
       (out_reports out).
Proof.
  intros Hseed H. apply main_completed in H as (seed' & error' & Hs & Hr & _ & Hv).
  rewrite Hseed in Hs. injection Hs as <- <-.
  cbv zeta in Hr, Hv. rewrite Hr, Hv.
  match goal with
  | |- context [records_loop w ?st max_records ?records (initial_state seed)] =>
      destruct (records_loop_numbered w st max_records seed records
                  (initial_state seed) ltac:(cbn; lia) ltac:(cbn; lia)
                  ltac:(constructor) I) as [Hrows Hinc]
  end.
  split; assumption.
Qed.



(** When none of the schema files can be loaded, asking for the
    validation changes nothing: the run is the one made with the
    validation switched off. *)
Theorem unloadable_schemas_disable_validation :
  (forall path, w_load_schema w path = None) ->
  main w cfg dry_run use_static_url spc_page spc_rpp env institution_code
    check_xsd max_records skip_sru_check
  = main w cfg dry_run use_static_url spc_page spc_rpp env institution_code
      false max_records skip_sru_check.
Proof.
  intros Hload. unfold main.
  destruct (w_analytics w) as [[seed|] error]; [|reflexivity].
  destruct (truthy error); [reflexivity|].
  rewrite !Hload.
  replace (if effective_check_xsd check_xsd (general_cfg cfg) then None else None)
    with (@None XMLSchema) by (now destruct (effective_check_xsd _ _)).
  cbn [effective_check_xsd py_and].
  match goal with
  | |- context [records_loop w ?st1 max_records ?records ?s0] =>
      match goal with
      | |- context [records_loop w ?st2 max_records records s0] =>
          lazymatch st1 with
          | st2 => fail
          | _ => rewrite (records_loop_ext w st2 max_records st1 records)
          end
      end
  end; [reflexivity| |reflexivity].
  intros idx cn record.
  match goal with
  | |- process_record w ?st1 _ _ _ = process_record w ?st2 _ _ _ =>
      first [ exact (process_record_without_schemas w st2 (s_check_xsd st1)
                       idx cn record eq_refl eq_refl)
            | symmetry;
              exact (process_record_without_schemas w st1 (s_check_xsd st2)
                       idx cn record eq_refl eq_refl) ]
  end.
Qed.

End Main.

Lemma report_rows_witness :
  Forall (report_shape
            (settings_of (quiet_world [record_thesis; record_thesis])
               default_config false true None false))
    (out_reports quiet_outcome).
Proof.
  apply (report_rows (quiet_world [record_thesis; record_thesis]) default_config
           false false 1 (-1) None None true 0 false quiet_outcome).
  vm_compute. reflexivity.
Defined.

Lemma report_rows_numbered_witness :
  increasing (map nr_record_index (out_reports quiet_outcome))
  /\ Forall (fun row =>
               numbered_row "ZTK" 100 0 row
               /\ (100 + nr_record_index row
                   <= out_call_number_value quiet_outcome)%Z)
       (out_reports quiet_outcome).
Proof.
  apply (report_rows_numbered (quiet_world [record_thesis; record_thesis])
           default_config false false 1 (-1) None None true 0 false
           quiet_outcome 100 None).
  - reflexivity.
  - vm_compute. reflexivity.
Defined.



Lemma unloadable_schemas_witness :
  main (quiet_world [record_thesis]) default_config false false 1 (-1) None None
    true 0 false
  = main (quiet_world [record_thesis]) default_config false false 1 (-1) None None
      false 0 false.
Proof.
  apply (unloadable_schemas_disable_validation (quiet_world [record_thesis])
           default_config false false 1 (-1) None None true 0 false).
  reflexivity.
Defined.


(** ** The pagination of the export *)

(** In page-driven mode the stream is made of the records of the pages
    up to the first page that fails, is not MARCXML or is empty, which
    ends it: the pages after that one are not read, whatever they hold,
    and nothing is raised. *)
Theorem pagination_stops (w : World) (start_spc_page spc_rpp : Z)
    (good : list (list MarcRecord)) (rest : list FetchReply) :
  w_export_pages w start_spc_page spc_rpp = (map FetchRecords good ++ rest)%list ->
  Forall (fun page => page <> []) good ->
  match rest with
  | [] => True
  | reply :: _ => ends_pagination reply = true
  end ->
  iter_infoscience_records w false start_spc_page spc_rpp
  = mkStream (concat good) None.
Proof.
  intros Hpages Hgood Hrest. unfold iter_infoscience_records. rewrite Hpages.
  f_equal. clear Hpages.
  induction Hgood as [|page good Hpage _ IH]; cbn.
  - destruct rest as [|reply rest]; [reflexivity|]. cbn.
    unfold ends_pagination in Hrest.
    destruct (fetch_and_parse reply) as [[|r rs]|e]; [reflexivity| |reflexivity].
    discriminate.
  - destruct page as [|r page]; [congruence|]. cbn. now rewrite IH.
Qed.

Lemma pagination_stops_witness :
  iter_infoscience_records
    (world_paged [FetchRecords [record_thesis]; FetchRecords [];
                  FetchRecords [record_bare]]) false 1 100
  = mkStream [record_thesis] None.
Proof.
  apply (pagination_stops
           (world_paged [FetchRecords [record_thesis]; FetchRecords [];
                         FetchRecords [record_bare]]) 1 100
           [[record_thesis]] [FetchRecords []; FetchRecords [record_bare]]).
  - reflexivity.
  - repeat constructor. discriminate.
  - reflexivity.
Defined.

(** ** The line of the CSV report *)

Lemma collect_statuses (locations : list LocationRow) :
  Forall row_shape locations ->
  forall cols : Columns,
    holding_statuses (fold_left collect_location locations cols)
    = (holding_statuses cols
       ++ map (fun loc =>
                 (row_location loc ++ ":" ++ or_empty (row_holding_status loc))%string)
            locations)%list
    /\ item_statuses (fold_left collect_location locations cols)
       = (item_statuses cols
          ++ map (fun loc =>
                    (row_location loc ++ ":" ++ or_empty (row_item_status loc))%string)
               locations)%list.
Proof.
  induction 1 as [|loc locations Hloc _ IH]; intros cols; cbn [fold_left map].
  - now rewrite !app_nil_r.
  - destruct (IH (collect_location cols loc)) as [-> ->].
    cbn [collect_location holding_statuses item_statuses].
    assert (Hh : truthy (Some (or_empty (row_holding_status loc))) = true).
    { destruct Hloc as [(-> & _)|(-> & _)]; reflexivity. }
    assert (Hi : truthy (Some (or_empty (row_item_status loc))) = true).
    { destruct Hloc as [(_ & _ & _ & [(-> & _)|(-> & _)])|(_ & _ & _ & -> & _)];
        reflexivity. }
    unfold append_if. rewrite Hh, Hi. now rewrite <- !app_assoc.
Qed.

(** On a row whose per-location outcomes have the shapes the run gives
    them, the two status columns of the CSV line name every location, in
    order, each as [location:STATUS]: no outcome is left out of them.
    A row without outcomes has the seven aggregated columns empty. *)
Theorem to_csv_row_statuses (self : NoticeReport) :
  Forall row_shape (nr_locations self) ->
  csv_holding_statuses (to_csv_row self)
  = join_or_empty
      (map (fun loc => row_location loc ++ ":" ++ or_empty (row_holding_status loc))
         (nr_locations self))
  /\ csv_item_statuses (to_csv_row self)
     = join_or_empty
         (map (fun loc => row_location loc ++ ":" ++ or_empty (row_item_status loc))
            (nr_locations self))
  /\ (nr_locations self = [] ->
      csv_holding_locations (to_csv_row self) = ""
      /\ csv_holding_ids (to_csv_row self) = ""
      /\ csv_holding_statuses (to_csv_row self) = ""
      /\ csv_holding_errors (to_csv_row self) = ""
      /\ csv_item_ids (to_csv_row self) = ""
      /\ csv_item_statuses (to_csv_row self) = ""
      /\ csv_item_errors (to_csv_row self) = "").
Proof.
  intros Hrows. unfold to_csv_row, collect_locations.
  cbn [csv_holding_statuses csv_item_statuses csv_holding_locations
       csv_holding_ids csv_holding_errors csv_item_ids csv_item_errors].
  destruct (collect_statuses (nr_locations self) Hrows
              (mkColumns [] [] [] [] [] [] [])) as [-> ->].
  cbn [holding_statuses item_statuses app].
  split; [reflexivity|]. split; [reflexivity|].
  intros ->. cbn. repeat split.
Qed.

Lemma to_csv_row_statuses_witness :
  csv_holding_statuses (to_csv_row thesis_row) = "E02XA:CREATED | E02SP:CREATED"
  /\ csv_item_statuses (to_csv_row thesis_row) = "E02XA:CREATED | E02SP:CREATED".
Proof.
  assert (H : Forall row_shape (nr_locations thesis_row)).
  { repeat (constructor;
            [left; cbn; split; [reflexivity|]; split; [discriminate|];
             split; [reflexivity|]; left; repeat split|]).
    constructor. }
  destruct (to_csv_row_statuses thesis_row H) as (H1 & H2 & _).
  split; [exact H1 | exact H2].
Defined.


(** ** What the loader cannot read *)

Section Loader.

Variable py_int : string -> option Z.

Ltac finish :=
  cbn;
  repeat match goal with
         | E : ?x = _ |- context [?x] => rewrite E
         end;
  cbn; auto 10.

(** One option, read in its turn: the reading of the section stops
    there when the option does not interpolate or does not convert. *)
Ltac read key :=
  match goal with
  | |- context [?sec !! key] =>
      let E := fresh "E" in
      destruct (sec !! key) as [[?|?]|] eqn:E; [|solve [finish]|]
  end;
  try match goal with
      | |- context [match boolean_state ?v with _ => _ end] =>
          let C := fresh "C" in
          destruct (boolean_state v) eqn:C; [|solve [finish]]
      | |- context [match py_int ?v with _ => _ end] =>
          let C := fresh "C" in
          destruct (py_int v) eqn:C; [|solve [finish]]
      end.

Ltac start :=
  unfold section_verdict, sec_get, sec_getboolean, sec_getint,
    option_interpolates, option_converts;
  cbn [forallb snd].

Lemma load_general_verdict (sec : gmap string OptionValue) (g : GeneralCfg) :
  section_verdict (load_general sec g) sec
    ["env"; "institution_code"; "check_xsd"; "report_prefix"; "skip_sru_check"]
    [("check_xsd", option_converts boolean_state sec "check_xsd");
     ("skip_sru_check", option_converts boolean_state sec "skip_sru_check")].
Proof.
  unfold load_general. start.
  read "env"; read "institution_code"; read "check_xsd"; read "report_prefix";
    read "skip_sru_check"; finish.
Qed.

Lemma load_infoscience_verdict (sec : gmap string OptionValue)
    (i : InfoscienceCfg) :
  section_verdict (load_infoscience py_int sec i) sec
    ["spc_rpp"; "of_format"; "since_strategy"]
    [("spc_rpp", option_converts py_int sec "spc_rpp")].
Proof.
  unfold load_infoscience. start.
  read "spc_rpp"; read "of_format"; read "since_strategy"; finish.
Qed.

Lemma load_xsd_verdict (sec : gmap string OptionValue) (x : XsdCfg) :
  section_verdict (load_xsd sec x) sec ["marc21"; "bib"; "holding"; "item"] [].
Proof.
  unfold load_xsd. start.
  read "marc21"; read "bib"; read "holding"; read "item"; finish.
Qed.

Lemma load_holding_verdict (sec : gmap string OptionValue) (h : HoldingInfo) :
  section_verdict (load_holding sec h) sec
    ["library_code"; "locations"; "call_number_prefix"] [].
Proof.
  unfold load_holding. start.
  read "library_code"; read "locations"; read "call_number_prefix"; finish.
Qed.

Lemma load_item_verdict (sec : gmap string OptionValue) (it : ItemInfo) :
  section_verdict (load_item sec it) sec
    ["po_line"; "department_code"; "material_type_code"] [].
Proof.
  unfold load_item. start.
  read "po_line"; read "department_code"; read "material_type_code"; finish.
Qed.

Lemma forallb_false_in {A : Type} (p : A -> bool) (l : list A) (x : A) :
  In x l -> p x = false -> forallb p l = false.
Proof.
  intros Hin Hx. destruct (forallb p l) eqn:H; [|reflexivity].
  rewrite forallb_forall in H. rewrite (H x Hin) in Hx. discriminate.
Qed.

(** A section is read to its end exactly when all its options pass. *)
Lemma section_verdict_read {A : Type} (reading : Reading A)
    (sec : gmap string OptionValue) (keys : list string)
    (typed : list (string * bool)) :
  section_verdict reading sec keys typed ->
  ((exists a, reading = Read a)
   <-> forallb (option_interpolates sec) keys && forallb snd typed = true).
Proof.
  destruct reading as [a|name|name]; cbn [section_verdict].
  - intros [-> ->]. split; [reflexivity | now exists a].
  - intros Hin. rewrite (forallb_false_in snd typed _ Hin eq_refl), andb_false_r.
    split; [intros [a H]|]; discriminate.
  - intros [Hin Hfalse]. rewrite (forallb_false_in _ keys _ Hin Hfalse).
    split; [intros [a H]|]; discriminate.
Qed.


End Loader.


(** The two kinds of failure, on a report prefix with a stray "%" and on
    a switch that is not a boolean word. *)
Lemma load_config_failure_kinds :
  load_config int_of_decimal
    (ConfigParsed
       {[ "general" := {[ "report_prefix" := NotInterpolable "rapport_100%" ]} ]})
  = ConfigInterpolationError "report_prefix"
  /\ load_config int_of_decimal
       (ConfigParsed {[ "general" := {[ "check_xsd" := Interpolated "maybe" ]} ]})
     = ConfigValueError "check_xsd".
Proof. split; vm_compute; reflexivity. Qed.


(** ** C10: the two toggles *)

Section Toggles.

Variables (w : World) (st : Settings).

(** With the validation off no bib is refused by a schema. *)
Lemma create_in_alma_unchecked (record_index : Z) (call_number_str : string)
    (record : MarcRecord) (rep row : NoticeReport) :
  s_check_xsd st = false ->
  fst (create_in_alma w st record_index call_number_str record rep) = Some row ->
  nr_bib_status row <> Some "XSD_ERROR".
Proof.
  intros Hcheck. unfold create_in_alma. rewrite Hcheck.
  destruct (build_bib_with_record w record) as [[rec_el bib_el]|e];
    [|discriminate].
  cbn [negb]. destruct (s_dry_run st); [intros [= <-]; discriminate|].
  destruct (w_create_bib w bib_el) as [bib_obj|e];
    [|intros [= <-]; discriminate].
  match goal with
  | |- context [holdings_loop w st bib_obj call_number_str ?locs ?cat ?r0] =>
      destruct (holdings_loop_outcomes w st bib_obj call_number_str locs cat r0)
        as (rows & _ & _ & _ & Hsame);
      destruct (holdings_loop w st bib_obj call_number_str locs cat r0)
        as [rep' evs]
  end.
  cbn [fst] in *. intros [= <-].
  destruct Hsame as (_ & _ & _ & _ & _ & _ & _ & H8 & _).
  rewrite H8. discriminate.
Qed.

Lemma process_record_unchecked (record_index : Z) (call_number_str : string)
    (record : MarcRecord) (row : NoticeReport) :
  s_check_xsd st = false ->
  fst (process_record w st record_index call_number_str record) = Some row ->
  nr_bib_status row <> Some "XSD_ERROR".
Proof.
  intros Hcheck. unfold process_record.
  destruct (build_final_record _ _) as [current_record|e]; [|discriminate].
  destruct (extract_marc_info _ _) as [info|e]; [|discriminate].
  destruct (s_skip_sru_check st).
  - match goal with
    | |- context [create_in_alma w st record_index call_number_str record ?r0] =>
        pose proof (create_in_alma_unchecked record_index call_number_str
                      record r0 row Hcheck) as H;
        destruct (create_in_alma w st record_index call_number_str record r0)
          as [row' evs]
    end.
    exact H.
  - destruct (fetch_marc_record_from_sru _ _ _ _) as [[|]|e]; [| |discriminate].
    + intros [= <-]. discriminate.
    + match goal with
      | |- context [create_in_alma w st record_index call_number_str record ?r0] =>
          pose proof (create_in_alma_unchecked record_index call_number_str
                        record r0 row Hcheck) as H;
          destruct (create_in_alma w st record_index call_number_str record r0)
            as [row' evs]
      end.
      exact H.
Qed.

End Toggles.



(** In the same world the validation refuses the record as soon as the
    configuration allows it too. *)
Lemma validation_needs_both_sides :
  map nr_bib_status (out_reports unchecked_outcome) = [Some "CREATED"]
  /\ map nr_bib_status
       (out_reports
          (outcome_of (main (world_strict [record_thesis]) default_config
                         false false 1 (-1) None None true 0 false)))
     = [Some "XSD_ERROR"].
Proof. split; vm_compute; reflexivity. Qed.
